(** * A bash agent driven by a language model: command sniffing, shell
      execution and the agent loop

    Shallow embedding of [bash_agent.py] and of [temp.py]
    ([extract_command_from_text]).

    Python values that come out of [response.json()] and [json.loads] are
    modelled by the inductive type [Py.value]; Python exceptions by the
    error monad [Py.result]; the mutable conversation by explicit state
    passing.  The libraries the program calls (the HTTP endpoint, the
    subprocess, [json.loads], the Harmony encoder and decoder) and the two
    helpers [looks_like_hdl_code] and [looks_like_shell_command], which
    [temp.py] calls but does not define, are the fields of the class
    [World]. *)

From Stdlib Require Import String Ascii List ZArith Bool Arith Lia DecimalString.
Import ListNotations.

Set Warnings "-register-all".

Local Open Scope string_scope.
Local Open Scope list_scope.

(* ================================================================== *)
(** ** Strings: the [str] methods and the regular expressions used     *)
(* ================================================================== *)

(** A character of a Python string is modelled by an [ascii], read as a code
    point below 256. *)
Module Text.

(** The line feed, written [\n] in the source. *)
Definition LF : ascii := ascii_of_nat 10.
Definition nl : string := String LF EmptyString.

(** The double quote, to spell JSON texts. *)
Definition dq : string := String (ascii_of_nat 34) EmptyString.

(** [str.isspace] on one character; [\s] in a [str] pattern is the same
    set. *)
Definition isspace (c : ascii) : bool :=
  let n := nat_of_ascii c in
  (((9 <=? n) && (n <=? 13)) || ((28 <=? n) && (n <=? 32))
   || (n =? 133) || (n =? 160))%nat.

Fixpoint lstrip (s : string) : string :=
  match s with
  | EmptyString => EmptyString
  | String c s' => if isspace c then lstrip s' else s
  end.

Fixpoint rstrip (s : string) : string :=
  match s with
  | EmptyString => EmptyString
  | String c s' =>
      match rstrip s' with
      | EmptyString => if isspace c then EmptyString else String c EmptyString
      | r => String c r
      end
  end.

(** [s.strip()] *)
Definition strip (s : string) : string := rstrip (lstrip s).

(** [s] without its prefix [p], when it has it. *)
Fixpoint drop_prefix (p s : string) : option string :=
  match p, s with
  | EmptyString, _ => Some s
  | String a p', String b s' =>
      if Ascii.eqb a b then drop_prefix p' s' else None
  | String _ _, EmptyString => None
  end.

(** ASCII lower case: within code points below 256 the letters of
    [bash], [sh] and [shell] match nothing else under [re.IGNORECASE]. *)
Definition lower (c : ascii) : ascii :=
  let n := nat_of_ascii c in
  if ((65 <=? n) && (n <=? 90))%nat then ascii_of_nat (n + 32) else c.

(** As [drop_prefix], ignoring case; [p] is in lower case. *)
Fixpoint drop_prefix_ci (p s : string) : option string :=
  match p, s with
  | EmptyString, _ => Some s
  | String a p', String b s' =>
      if Ascii.eqb a (lower b) then drop_prefix_ci p' s' else None
  | String _ _, EmptyString => None
  end.

(** The first occurrence of [p] in [s]: what is before and what is after. *)
Fixpoint find (p s : string) : option (string * string) :=
  match drop_prefix p s with
  | Some rest => Some (EmptyString, rest)
  | None =>
      match s with
      | EmptyString => None
      | String c s' =>
          match find p s' with
          | Some (before, after) => Some (String c before, after)
          | None => None
          end
      end
  end.

(** [p in s] *)
Definition contains (p s : string) : bool :=
  match find p s with Some _ => true | None => false end.

(** [s.count(sep)] and [s.split(sep)] for a non-empty [sep]: occurrences
    are taken from the left and do not overlap.  The fuel is the length of
    the text, and each occurrence consumes at least one character. *)
Fixpoint count_fuel (fuel : nat) (sep s : string) : nat :=
  match fuel with
  | O => O
  | S fuel' =>
      match find sep s with
      | Some (_, after) => S (count_fuel fuel' sep after)
      | None => O
      end
  end.

Definition count (sep s : string) : nat := count_fuel (String.length s) sep s.

Fixpoint split_fuel (fuel : nat) (sep s : string) : list string :=
  match fuel with
  | O => [s]
  | S fuel' =>
      match find sep s with
      | Some (before, after) => before :: split_fuel fuel' sep after
      | None => [s]
      end
  end.

Definition split (sep s : string) : list string :=
  split_fuel (String.length s) sep s.

(** [sep.join(parts)] *)
Definition join (sep : string) (parts : list string) : string :=
  String.concat sep parts.

Definition first_some {A : Type} (l : list (option A)) : option A :=
  fold_right (fun o acc => match o with Some a => Some a | None => acc end)
             None l.

Fixpoint has_newline (s : string) : bool :=
  match s with
  | EmptyString => false
  | String c s' => Ascii.eqb c LF || has_newline s'
  end.

(** *** [re.sub(pattern, '', text)] for the four patterns of the fallback *)

(** A literal pattern: every occurrence is removed. *)
Definition remove_all (p s : string) : string := join "" (split p s).

(** [<\|channel\|>.*?<\|message\|>] at the head of [s]: what follows the
    match.  Without [re.DOTALL] the dot stops at a line feed, and the lazy
    star ends at the first closing marker. *)
Definition match_channel_header (s : string) : option string :=
  match drop_prefix "<|channel|>" s with
  | None => None
  | Some rest =>
      match find "<|message|>" rest with
      | Some (skipped, after) => if has_newline skipped then None else Some after
      | None => None
      end
  end.

Fixpoint remove_channel_headers_fuel (fuel : nat) (s : string) : string :=
  match fuel with
  | O => s
  | S fuel' =>
      match s with
      | EmptyString => EmptyString
      | String c s' =>
          match match_channel_header s with
          | Some after => remove_channel_headers_fuel fuel' after
          | None => String c (remove_channel_headers_fuel fuel' s')
          end
      end
  end.

Definition remove_channel_headers (s : string) : string :=
  remove_channel_headers_fuel (String.length s) s.

(** [^\s*assistant\s*]: matched at the start of the text only. *)
Definition remove_leading_assistant (s : string) : string :=
  match drop_prefix "assistant" (lstrip s) with
  | Some rest => lstrip rest
  | None => s
  end.

(** *** [re.findall(r'```(?:bash|sh|shell)\s*\n(.*?)\n```', text,
        re.DOTALL | re.IGNORECASE)] *)

Definition fence : string := "```".

(** The texts that can follow [\s*\n] at the head of [s]: one for every
    line feed in the leading run of white space, leftmost first. *)
Fixpoint after_newlines (s : string) : list string :=
  match s with
  | EmptyString => []
  | String c s' =>
      if isspace c
      then (if Ascii.eqb c LF then [s'] else []) ++ after_newlines s'
      else []
  end.

(** [\s*\n(.*?)\n```] at the head of [s]: the group and what follows the
    match.  The greedy [\s*] gives back one character at a time, so the
    rightmost line feed is tried first; the lazy group then ends at the
    first closing fence. *)
Definition match_block_body (s : string) : option (string * string) :=
  first_some (map (find (nl ++ fence)) (rev (after_newlines s))).

Definition match_tag (tag s : string) : option (string * string) :=
  match drop_prefix_ci tag s with
  | Some rest => match_block_body rest
  | None => None
  end.

(** The whole pattern at the head of [s]; the alternatives are tried in
    the order they are written. *)
Definition match_code_block (s : string) : option (string * string) :=
  match drop_prefix fence s with
  | Some rest =>
      first_some [match_tag "bash" rest; match_tag "sh" rest;
                  match_tag "shell" rest]
  | None => None
  end.

Fixpoint findall_fuel (fuel : nat) (s : string) : list string :=
  match fuel with
  | O => []
  | S fuel' =>
      match s with
      | EmptyString => []
      | String _ s' =>
          match match_code_block s with
          | Some (group, after) => group :: findall_fuel fuel' after
          | None => findall_fuel fuel' s'
          end
      end
  end.

Definition findall_code_blocks (s : string) : list string :=
  findall_fuel (String.length s) s.

End Text.

(* ================================================================== *)
(** ** Python values, exceptions and the operations the code applies   *)
(* ================================================================== *)

Module Py.

(** The exception classes that the modelled code can meet.  Only
    subclasses of [Exception] are modelled ([KeyboardInterrupt] and
    [SystemExit] are not). *)
Inductive exn_class : Type :=
| TypeError
| AttributeError
| KeyError
| IndexError
| JSONDecodeError
| ImportError
| TimeoutExpired
| RecursionError
| ValidationError
| OtherError.

(** An exception: its class and the text [str(e)] gives. *)
Record exn : Type := Exn { exn_cls : exn_class; exn_str : string }.

Inductive result (A : Type) : Type :=
| Ok (a : A)
| Raise (e : exn).
Arguments Ok {A} a.
Arguments Raise {A} e.

Definition bind {A B : Type} (m : result A) (k : A -> result B) : result B :=
  match m with
  | Ok a => k a
  | Raise e => Raise e
  end.

(** [try: body / except <classes in handles>: handler]. *)
Definition try_except {A : Type} (body : result A)
           (handles : exn -> bool) (handler : exn -> result A) : result A :=
  match body with
  | Ok a => Ok a
  | Raise e => if handles e then handler e else Raise e
  end.

(** The text carried by the exceptions the model itself raises is
    indicative only; the theorems look at the class. *)
Definition raise {A : Type} (c : exn_class) : result A := Raise (Exn c "").

Definition is_class (c : exn_class) (e : exn) : bool :=
  match c, exn_cls e with
  | TypeError, TypeError | AttributeError, AttributeError
  | KeyError, KeyError | IndexError, IndexError
  | JSONDecodeError, JSONDecodeError | ImportError, ImportError
  | TimeoutExpired, TimeoutExpired | RecursionError, RecursionError
  | ValidationError, ValidationError | OtherError, OtherError => true
  | _, _ => false
  end.

(** [except Exception] and a bare [except] catch every modelled class. *)
Definition any_exception (e : exn) : bool := true.

(** A value decoded from JSON.  Numbers are kept as integers (a float
    behaves like an integer in every operation below: it is truthy unless
    zero and supports neither [in], [.get], subscripts nor iteration).
    An object is an association list read from the left. *)
Inductive value : Type :=
| JNull
| JBool (b : bool)
| JNum (n : Z)
| JStr (s : string)
| JList (l : list value)
| JObj (kv : list (string * value)).

(** [bool(v)] *)
Definition truthy (v : value) : bool :=
  match v with
  | JNull => false
  | JBool b => b
  | JNum n => negb (n =? 0)%Z
  | JStr s => negb (s =? "")
  | JList l => match l with [] => false | _ => true end
  | JObj kv => match kv with [] => false | _ => true end
  end.

Fixpoint lookup (key : string) (kv : list (string * value)) : option value :=
  match kv with
  | [] => None
  | (k, v) :: rest => if k =? key then Some v else lookup key rest
  end.

(** [d.get(key, default)]: only a dict has the method. *)
Definition get (d : value) (key : string) (default : value) : result value :=
  match d with
  | JObj kv => Ok (match lookup key kv with Some v => v | None => default end)
  | _ => raise AttributeError
  end.

(** [d[key]] with a string key. *)
Definition getitem (d : value) (key : string) : result value :=
  match d with
  | JObj kv => match lookup key kv with Some v => Ok v | None => raise KeyError end
  | _ => raise TypeError
  end.

(** [v[0]] *)
Definition getitem0 (v : value) : result value :=
  match v with
  | JList (x :: _) => Ok x
  | JList [] => raise IndexError
  | JStr (String c _) => Ok (JStr (String c EmptyString))
  | JStr EmptyString => raise IndexError
  | JObj _ => raise KeyError
  | _ => raise TypeError
  end.

(** [v[-1]] on a list *)
Definition list_last (l : list value) : value := List.last l JNull.

(** [for x in v]: the elements a loop over [v] visits. *)
Definition iter (v : value) : result (list value) :=
  match v with
  | JList l => Ok l
  | JObj kv => Ok (map (fun p => JStr (fst p)) kv)
  | JStr s => Ok (map (fun c => JStr (String c EmptyString)) (list_ascii_of_string s))
  | _ => raise TypeError
  end.

(** [key in v] for a string [key]: a key of a dict, an element of a list,
    a part of a string; nothing else supports the test. *)
Definition contains (key : string) (v : value) : result bool :=
  match v with
  | JObj kv => Ok (match lookup key kv with Some _ => true | None => false end)
  | JList l =>
      Ok (existsb (fun x => match x with JStr s => (s =? key)%string | _ => false end) l)
  | JStr s => Ok (Text.contains key s)
  | _ => raise TypeError
  end.

(** [v.strip()]: a method of [str] only. *)
Definition str_strip (v : value) : result string :=
  match v with
  | JStr s => Ok (Text.strip s)
  | _ => raise AttributeError
  end.

(** [v == s] for a string [s] *)
Definition eq_str (v : value) (s : string) : bool :=
  match v with JStr t => (t =? s)%string | _ => false end.

(** [v[:n]] succeeds on strings and lists only; the model needs no more
    than whether the slice raises (on a dict the class is [TypeError]
    up to Python 3.11 and [KeyError] afterwards). *)
Definition slice_check (v : value) : result unit :=
  match v with
  | JStr _ | JList _ => Ok tt
  | _ => raise TypeError
  end.

End Py.

Export Py.

Declare Scope py_scope.
Delimit Scope py_scope with py.
Notation "x <- m ;; k" := (Py.bind m (fun x => k))
  (at level 61, m at next level, right associativity) : py_scope.
Local Open Scope py_scope.


(* ================================================================== *)
(** ** The Harmony messages the program builds and reads               *)
(* ================================================================== *)

Module Harmony.

Inductive Role : Type := SYSTEM | DEVELOPER | USER | ASSISTANT | TOOL.

Record ToolDescription : Type := {
  tool_name : string;
  tool_description : string;
  tool_parameters : value
}.

(** One segment of a message.  [TextContent] is the only kind with a
    [text] attribute.  [RawContent] stands for a segment the library makes
    of a value that is not a string, where it accepts one. *)
Inductive Content : Type :=
| TextContent (text : string)
| SystemContent (model_identity conversation_start_date : string)
| DeveloperContent (instructions : string) (function_tools : list ToolDescription)
| RawContent (v : value).

Record Author : Type := { role : Role; name : option string }.

Record Message : Type := {
  author : Author;
  recipient : option string;
  channel : option string;
  content : list Content
}.

Definition from_author_and_content (a : Author) (c : Content) : Message :=
  {| author := a; recipient := None; channel := None; content := [c] |}.

Definition from_role_and_content (r : Role) (c : Content) : Message :=
  from_author_and_content {| role := r; name := None |} c.

Definition with_channel (ch : string) (m : Message) : Message :=
  {| author := author m; recipient := recipient m; channel := Some ch;
     content := content m |}.

Definition with_recipient (rc : string) (m : Message) : Message :=
  {| author := author m; recipient := Some rc; channel := channel m;
     content := content m |}.

Definition has_role (r : Role) (m : Message) : bool :=
  match role (author m), r with
  | SYSTEM, SYSTEM | DEVELOPER, DEVELOPER | USER, USER
  | ASSISTANT, ASSISTANT | TOOL, TOOL => true
  | _, _ => false
  end.

Definition channel_is (ch : string) (m : Message) : bool :=
  match channel m with
  | Some c => (c =? ch)%string
  | None => false
  end.

End Harmony.

Export Harmony.

(* ================================================================== *)
(** ** What the program calls and does not define                      *)
(* ================================================================== *)

(** What [subprocess.run(..., capture_output=True, text=True)] returns. *)
Record CompletedProcess : Type := {
  stdout : string;
  stderr : string;
  returncode : Z
}.

(** The world outside the program.  Every field is a function of its
    arguments: one reply for each conversation sent, one outcome for each
    command run in a directory, one decoding for each text. *)
Class World : Type := {
  (** [json.loads]: the value, or the exception.  A text that is not JSON
      gives [JSONDecodeError]; nesting beyond the recursion limit gives
      [RecursionError], and an integer literal over the digit limit a plain
      [ValueError], kept under [OtherError]. *)
  json_loads : string -> result value;
  (** [str(v)] for a list or a dict. *)
  py_repr : value -> string;
  (** [call_model(conversation)]: the decoded body of the endpoint's reply,
      or the exception (missing key, network failure, error status). *)
  call_model : list Message -> result value;
  (** [subprocess.run(command, shell=True, capture_output=True, text=True,
      timeout=30, cwd=cwd)] *)
  subprocess_run : value -> string -> result CompletedProcess;
  (** Loading the encoding, [enc.encode(text, allowed_special="all")] and
      [enc.parse_messages_from_completion_tokens(tokens, role, strict=False)]
      in a row. *)
  harmony_decode : option Role -> string -> result (list Message);
  (** What [Message.from_author_and_content] stores for a content that is
      neither a string nor [None]: the segment, or the exception of the
      validation. *)
  harmony_content : value -> result Content;
  (** The two helpers of [temp.py] whose definitions are not in the
      source; the boolean is the truth value of what they return. *)
  looks_like_hdl_code : value -> result bool;
  looks_like_shell_command : string -> result bool
}.

(** [json.loads(s)] *)
Definition loads {W : World} (s : string) : result value := json_loads s.

(** The segment [Message.from_author_and_content] stores for a content: a
    string becomes a text segment, and [None] does not pass the validation
    of the message. *)
Definition content_of_value {W : World} (v : value) : result Content :=
  match v with
  | JStr s => Ok (TextContent s)
  | JNull => raise ValidationError
  | _ => harmony_content v
  end.

(** [str(v)], as an f-string formats [v]. *)
Definition py_str {W : World} (v : value) : string :=
  match v with
  | JStr s => s
  | JNull => "None"
  | JBool true => "True"
  | JBool false => "False"
  | JNum n => NilZero.string_of_int (Z.to_int n)
  | _ => py_repr v
  end.

(* ================================================================== *)
(** ** bash_agent.py                                                   *)
(* ================================================================== *)

Module BashAgent.
Section Program.
Context {W : World}.

(** *** [extract_command] *)

(** The body of the [try] for one message addressed to the tool:
    [Some v] when it returns [v]. *)
Definition extract_command_try (msg : Message) : result (option value) :=
  match content msg with
  | [] => Ok None
  | TextContent content_text :: _ =>
      args <- loads content_text ;;
      command <- Py.get args "command" JNull ;;
      Ok (Some command)
  | _ :: _ => raise AttributeError
  end.

Definition extract_command_handles (e : exn) : bool :=
  is_class JSONDecodeError e || is_class AttributeError e || is_class KeyError e.

Definition addressed_to_tool (msg : Message) : bool :=
  match recipient msg with
  | Some r => negb (r =? "")%string && Text.contains "execute_bash" r
  | None => false
  end.

Fixpoint extract_command (messages : list Message) : result value :=
  match messages with
  | [] => Ok JNull
  | msg :: rest =>
      if addressed_to_tool msg then
        r <- try_except (extract_command_try msg) extract_command_handles
                        (fun _ => Ok None) ;;
        match r with
        | Some command => Ok command
        | None => extract_command rest
        end
      else extract_command rest
  end.

(** *** [execute_bash_command] *)

Definition default_cwd : string := "/home/ye/ml-experiments/harmony".

Definition timeout_message : string := "Error: Command timed out after 30 seconds".

Definition execute_bash_command (command : value) (cwd : string)
  : result (string * Z) :=
  try_except
    (try_except
       (result_ <- subprocess_run command cwd ;;
        let output := (stdout result_ ++ stderr result_)%string in
        Ok (Text.strip output, returncode result_))
       (is_class TimeoutExpired)
       (fun _ => Ok (timeout_message, (-1)%Z)))
    any_exception
    (fun e => Ok (("Error: " ++ exn_str e)%string, (-1)%Z)).

(** *** The command sniffing of [run_bash_agent] (lines 219-250) *)

(** ["bash" in tc.get("function", {}).get("name", "")] *)
Definition names_shell_tool (tc : value) : result bool :=
  fn <- Py.get tc "function" (JObj []) ;;
  name_ <- Py.get fn "name" (JStr "") ;;
  Py.contains "bash" name_.

(** One round of [for tc in msg["tool_calls"]]. *)
Definition scan_tool_call (command tc : value) : result value :=
  is_bash <- names_shell_tool tc ;;
  if is_bash then
    fn' <- Py.getitem tc "function" ;;
    args_str <- Py.get fn' "arguments" (JStr "{}") ;;
    try_except
      (args <- match args_str with
               | JStr s => loads s
               | _ => Ok args_str
               end ;;
       Py.get args "command" JNull)
      any_exception
      (fun _ => Ok command)
  else Ok command.

Fixpoint scan_tool_calls (command : value) (tcs : list value) : result value :=
  match tcs with
  | [] => Ok command
  | tc :: rest =>
      command' <- scan_tool_call command tc ;;
      scan_tool_calls command' rest
  end.

(** "Check API tool calls" *)
Definition sniff_tool_calls (msg : value) : result value :=
  tool_calls <- Py.get msg "tool_calls" JNull ;;
  if truthy tool_calls then
    tool_calls' <- Py.getitem msg "tool_calls" ;;
    tcs <- Py.iter tool_calls' ;;
    scan_tool_calls JNull tcs
  else Ok JNull.

(** The guards of the two later paths. *)
Definition tries_bare_json (command content_ : value) : bool :=
  negb (truthy command) && truthy content_.

Definition tries_harmony (command : value) : bool :=
  negb (truthy command).

(** "Check if content is JSON with command" *)
Definition sniff_bare_json (command content_ : value) : result value :=
  if tries_bare_json command content_ then
    try_except
      (stripped <- Py.str_strip content_ ;;
       content_json <- loads stripped ;;
       has_command <- Py.contains "command" content_json ;;
       if has_command then Py.getitem content_json "command" else Ok command)
      (is_class JSONDecodeError)
      (fun _ => Ok command)
  else Ok command.

(** "Check for harmony format" *)
Definition sniff_harmony (command reasoning content_ : value) : result value :=
  if tries_harmony command then
    let full_text :=
      Text.strip (py_str reasoning ++ Text.nl ++ py_str content_)%string in
    if Text.contains "execute_bash" full_text then
      try_except
        (parsed <- harmony_decode None full_text ;;
         extract_command parsed)
        any_exception
        (fun _ => Ok command)
    else Ok command
  else Ok command.

Definition sniff (msg content_ reasoning : value) : result value :=
  c1 <- sniff_tool_calls msg ;;
  c2 <- sniff_bare_json c1 content_ ;;
  sniff_harmony c2 reasoning content_.

(** *** The agent loop of [run_bash_agent] *)

Definition bash_tool : ToolDescription :=
  {| tool_name := "execute_bash";
     tool_description :=
       "Execute bash commands to check files, directories, run commands, etc.";
     tool_parameters :=
       JObj [("type", JStr "object");
             ("properties",
              JObj [("command",
                     JObj [("type", JStr "string");
                           ("description",
                            JStr "Bash command to execute (e.g., 'ls -la', 'cat file.txt')")])]);
             ("required", JList [JStr "command"])] |}.

Definition developer_instructions : string :=
  ("When users ask you to perform file/system operations:" ++ Text.nl
   ++ "1. Call execute_bash with the appropriate command" ++ Text.nl
   ++ "2. Wait for results" ++ Text.nl
   ++ "3. Provide a friendly summary" ++ Text.nl ++ Text.nl
   ++ "Always call the tool - don't just suggest commands.")%string.

(** "Initialize conversation" *)
Definition initial_messages (user_task : string) : list Message :=
  [ from_role_and_content SYSTEM
      (SystemContent
         "You are a helpful bash assistant that can execute commands."
         "2025-11-19");
    from_role_and_content DEVELOPER
      (DeveloperContent developer_instructions [bash_tool]);
    from_role_and_content USER (TextContent user_task) ].

(** What one iteration reads from the endpoint's reply. *)
Record Reply : Type := {
  choice : value;
  reply_content : value;
  reasoning : value;
  command : value
}.

(** Lines 205-250: from the reply to the sniffed command.  [None] is the
    "No response from model" exit.  Printing matters only where building
    the printed text can raise. *)
Definition analyse (verbose : bool) (response : value) : result (option Reply) :=
  has_choices <- Py.contains "choices" response ;;
  choices_empty <-
    (if has_choices
     then (choices <- Py.getitem response "choices" ;; Ok (negb (truthy choices)))
     else Ok true) ;;
  if choices_empty then Ok None
  else
    choices <- Py.getitem response "choices" ;;
    choice_ <- Py.getitem0 choices ;;
    msg <- Py.getitem choice_ "message" ;;
    content_ <- Py.get msg "content" (JStr "") ;;
    reasoning_ <- Py.get msg "reasoning_content" (JStr "") ;;
    _ <- (if verbose && truthy reasoning_ then Py.slice_check reasoning_ else Ok tt) ;;
    command_ <- sniff msg content_ reasoning_ ;;
    Ok (Some {| choice := choice_; reply_content := content_;
                reasoning := reasoning_; command := command_ |}).

(** [a or b] *)
Definition py_or (a b : value) : value := if truthy a then a else b.

(** Lines 265-267; the exception is the one the library raises for the
    content. *)
Definition assistant_turn (r : Reply) : result Message :=
  c <- content_of_value (py_or (reply_content r) (reasoning r)) ;;
  Ok (with_recipient "functions.execute_bash"
        (with_channel "commentary" (from_role_and_content ASSISTANT c))).

Definition tool_result (command_ : value) (return_code : Z) (output : string)
  : string :=
  ("Command: " ++ py_str command_ ++ Text.nl
   ++ "Exit code: " ++ py_str (JNum return_code) ++ Text.nl
   ++ "Output:" ++ Text.nl ++ output)%string.

Definition tool_turn (command_ : value) (return_code : Z) (output : string)
  : Message :=
  with_recipient "assistant"
    (with_channel "commentary"
       (from_author_and_content
          {| role := TOOL; name := Some "functions.execute_bash" |}
          (TextContent (tool_result command_ return_code output)))).

(** Lines 291-292. *)
Definition final_turn (final_response_ : value) : result Message :=
  c <- content_of_value final_response_ ;;
  Ok (with_channel "final" (from_role_and_content ASSISTANT c)).

(** The mutable state of the loop. *)
Record State : Type := {
  conversation : list Message;
  final_response : value
}.

(** How one iteration leaves the loop body. *)
Inductive Signal : Type :=
| Continue
| Break
| Return (v : value)
| Raised (e : exn).

(** Lines 252-297.  The command runs before the assistant turn is built:
    when the library refuses the content the exception leaves the loop
    with nothing appended.  The same holds for the final turn, built
    before the finish reason is read. *)
Definition act (st : State) (r : Reply) : State * Signal :=
  if truthy (command r) then
    match execute_bash_command (command r) default_cwd with
    | Ok (output, return_code) =>
        match assistant_turn r with
        | Ok call =>
            ({| conversation :=
                  conversation st
                  ++ [call; tool_turn (command r) return_code output];
                final_response := final_response st |},
             Continue)
        | Raise e => (st, Raised e)
        end
    | Raise e => (st, Raised e)
    end
  else
    let final_response_ := py_or (reply_content r) (reasoning r) in
    match (if truthy final_response_
           then (turn <- final_turn final_response_ ;;
                 Ok (conversation st ++ [turn]))
           else Ok (conversation st)) with
    | Ok conversation_ =>
        let st' :=
          {| conversation := conversation_;
             final_response := final_response_ |} in
        match Py.get (choice r) "finish_reason" JNull with
        | Ok reason => (st', if Py.eq_str reason "stop" then Break else Continue)
        | Raise e => (st', Raised e)
        end
    | Raise e =>
        ({| conversation := conversation st;
            final_response := final_response_ |}, Raised e)
    end.

(** One pass through the body of the [for]. *)
Definition iteration (verbose : bool) (st : State) : State * Signal :=
  match call_model (conversation st) with
  | Raise _ => (st, Return JNull)
  | Ok response =>
      match analyse verbose response with
      | Raise e => (st, Raised e)
      | Ok None => (st, Return JNull)
      | Ok (Some r) => act st r
      end
  end.

(** A finished run: the conversation as it was left, how many passes
    through the loop body were started, and what the call returned or
    raised. *)
Record Run : Type := {
  log : list Message;
  iterations : nat;
  returned : result value
}.

Fixpoint agent_loop (verbose : bool) (remaining : nat) (done : nat)
         (st : State) : Run :=
  match remaining with
  | O => {| log := conversation st; iterations := done;
            returned := Ok (final_response st) |}
  | S remaining' =>
      match iteration verbose st with
      | (st', Continue) => agent_loop verbose remaining' (S done) st'
      | (st', Break) =>
          {| log := conversation st'; iterations := S done;
             returned := Ok (final_response st') |}
      | (st', Return v) =>
          {| log := conversation st'; iterations := S done; returned := Ok v |}
      | (st', Raised e) =>
          {| log := conversation st'; iterations := S done; returned := Raise e |}
      end
  end.

Definition initial_state (user_task : string) : State :=
  {| conversation := initial_messages user_task; final_response := JNull |}.

(** [run_bash_agent(user_task, max_iterations, verbose)], from the point
    where the encoding is loaded. *)
Definition run_bash_agent (user_task : string) (max_iterations : Z)
           (verbose : bool) : Run :=
  agent_loop verbose (Z.to_nat max_iterations) 0 (initial_state user_task).

End Program.

(** *** The shape of the conversation a run leaves *)


(** An assistant turn addressed to the shell tool. *)
Definition is_call_turn (m : Message) : bool :=
  has_role ASSISTANT m && channel_is "commentary" m
  && match recipient m with
     | Some r => (r =? "functions.execute_bash")%string
     | None => false
     end.

(** A tool turn that answers the assistant. *)
Definition is_tool_turn (m : Message) : bool :=
  has_role TOOL m && channel_is "commentary" m
  && match recipient m with
     | Some r => (r =? "assistant")%string
     | None => false
     end.

(** An assistant turn tagged "final". *)
Definition is_final_turn (m : Message) : bool :=
  has_role ASSISTANT m && channel_is "final" m.

(** [appended n turns]: [turns] splits into [n] consecutive groups, one for
    each pass through the loop body, every group being a call turn
    followed by a tool turn, or one final turn, or empty. *)
Inductive appended : nat -> list Message -> Prop :=
| appended_start : appended 0 []
| appended_command (n : nat) (turns : list Message) (a t : Message) :
    is_call_turn a = true -> is_tool_turn t = true ->
    appended n turns ->
    appended (S n) (a :: t :: turns)
| appended_final (n : nat) (turns : list Message) (f : Message) :
    is_final_turn f = true ->
    appended n turns ->
    appended (S n) (f :: turns)
| appended_nothing (n : nat) (turns : list Message) :
    appended n turns ->
    appended (S n) turns.

End BashAgent.

(* ================================================================== *)
(** ** temp.py: [extract_command_from_text]                            *)
(* ================================================================== *)

Module Temp.
Section Program.
Context {W : World}.

Definition call_marker : string := "<|call|>".

(** Lines 39-48: the text handed to the encoder. *)
Definition truncate_calls (original_text : string) : string :=
  let call_token_count := Text.count call_marker original_text in
  if (10 <? call_token_count)%nat then
    let parts := Text.split call_marker original_text in
    Text.join call_marker (firstn 11 parts)
  else original_text.

(** How the scan of one content item, and of one message, ends. *)
Inductive ItemOutcome : Type :=
| ItemReturn (command : value)
| ItemBreak
| ItemNext.

Inductive MessageOutcome : Type :=
| MessageReturn (command : value)
| MessageNext (hdl_detected : bool).

(** "1. Direct Command Channels" *)
Definition is_command_channel (msg : Message) : bool :=
  channel_is "bash" msg || channel_is "sh" msg
  || channel_is "shell" msg || channel_is "cmd" msg.

Fixpoint scan_command_channel (items : list Content) : option value :=
  match items with
  | [] => None
  | TextContent text :: rest =>
      let command := Text.strip text in
      if negb (command =? "")%string then Some (JStr command)
      else scan_command_channel rest
  | _ :: rest => scan_command_channel rest
  end.

(** "2. Analysis Channel": one content item.  The f-strings of the log
    calls slice the command, which raises on what cannot be sliced. *)
Definition analysis_item (item : Content) : result ItemOutcome :=
  match item with
  | TextContent text_content =>
      try_except
        (data <- loads text_content ;;
         has_cmd <- Py.contains "cmd" data ;;
         if has_cmd then
           cmd <- Py.getitem data "cmd" ;;
           match cmd with
           | JList cmd_list =>
               if (0 <? List.length cmd_list)%nat then
                 let command := Py.list_last cmd_list in
                 hdl <- looks_like_hdl_code command ;;
                 if hdl then
                   _ <- Py.slice_check command ;;
                   Ok ItemBreak
                 else
                   _ <- Py.slice_check command ;;
                   Ok (ItemReturn command)
               else Ok ItemNext
           | _ => Ok ItemNext
           end
         else Ok ItemNext)
        (is_class JSONDecodeError)
        (fun _ =>
           let raw_command := Text.strip text_content in
           shell <- looks_like_shell_command raw_command ;;
           if shell then
             hdl <- looks_like_hdl_code (JStr raw_command) ;;
             if negb hdl then Ok (ItemReturn (JStr raw_command)) else Ok ItemNext
           else Ok ItemNext)
  | _ => Ok ItemNext
  end.

Fixpoint scan_analysis (items : list Content) : result MessageOutcome :=
  match items with
  | [] => Ok (MessageNext false)
  | item :: rest =>
      o <- analysis_item item ;;
      match o with
      | ItemReturn command => Ok (MessageReturn command)
      | ItemBreak => Ok (MessageNext true)
      | ItemNext => scan_analysis rest
      end
  end.

(** "3. Final Channel" *)
Definition joined_blocks (code_blocks : list string) : value :=
  JStr (Text.join Text.nl (map Text.strip code_blocks)).

Fixpoint scan_final (items : list Content) : option value :=
  match items with
  | [] => None
  | TextContent text_content :: rest =>
      match Text.findall_code_blocks text_content with
      | [] => scan_final rest
      | code_blocks => Some (joined_blocks code_blocks)
      end
  | _ :: rest => scan_final rest
  end.

(** The body of [for msg in parsed_messages]. *)
Definition scan_message (msg : Message) : result MessageOutcome :=
  match (if is_command_channel msg then scan_command_channel (content msg)
         else None) with
  | Some command => Ok (MessageReturn command)
  | None =>
      o <- (if channel_is "analysis" msg then scan_analysis (content msg)
            else Ok (MessageNext false)) ;;
      match o with
      | MessageReturn command => Ok (MessageReturn command)
      | MessageNext hdl =>
          match (if channel_is "final" msg then scan_final (content msg)
                 else None) with
          | Some command => Ok (MessageReturn command)
          | None => Ok (MessageNext hdl)
          end
      end
  end.

(** The loop, with [hdl_detected_in_json] threaded through. *)
Fixpoint scan_messages (hdl_detected_in_json : bool) (msgs : list Message)
  : result MessageOutcome :=
  match msgs with
  | [] => Ok (MessageNext hdl_detected_in_json)
  | msg :: rest =>
      o <- scan_message msg ;;
      match o with
      | MessageReturn command => Ok (MessageReturn command)
      | MessageNext hdl => scan_messages (hdl_detected_in_json || hdl) rest
      end
  end.

(** How the [try] block ends when it does not raise: with a [return], or
    by falling out of the block to the fallback below it. *)
Inductive HarmonyOutcome : Type :=
| Answer (v : value)
| FallThrough.

Definition nonempty {A : Type} (l : list A) : bool :=
  match l with [] => false | _ => true end.

(** Lines 27-121, the body of the [try]. *)
Definition harmony_path (original_text : string) : result HarmonyOutcome :=
  parsed_messages <-
    harmony_decode (Some ASSISTANT) (truncate_calls original_text) ;;
  o <- scan_messages false parsed_messages ;;
  match o with
  | MessageReturn command => Ok (Answer command)
  | MessageNext hdl_detected_in_json =>
      if nonempty parsed_messages || hdl_detected_in_json
      then Ok (Answer JNull)
      else Ok FallThrough
  end.

(** Lines 128-153: "Fallback Regex Parsing". *)
Definition strip_markers (text : string) : string :=
  let text := Text.remove_channel_headers text in
  let text := Text.remove_all "<|end|>" text in
  let text := Text.remove_all "<|start|>" text in
  let text := Text.remove_leading_assistant text in
  Text.strip text.

Definition fallback_scan (text : string) : value :=
  let text := strip_markers text in
  if (text =? "")%string then JNull
  else
    match Text.findall_code_blocks text with
    | [] => JNull
    | code_blocks => joined_blocks code_blocks
    end.

(** The [try] with its two [except] clauses, both of which only log and
    so lead to the fallback. *)
Definition harmony_guarded (original_text : string) : result HarmonyOutcome :=
  try_except (harmony_path original_text) any_exception
             (fun _ => Ok FallThrough).

(** The whole function; [JNull] is the [None] it returns for "no
    command". *)
Definition extract_command_from_text (text : string) : result value :=
  let original_text := text in
  let text := Text.strip text in
  if (text =? "")%string then Ok JNull
  else
    o <- harmony_guarded original_text ;;
    match o with
    | Answer v => Ok v
    | FallThrough => Ok (fallback_scan text)
    end.

End Program.
End Temp.

(* ================================================================== *)
(** ** The wording of the specification, where it is compared          *)
(* ================================================================== *)

Module Spec.

(** "trailing-whitespace-trimmed": white space removed at the end only. *)
Definition trailing_trimmed (s : string) : string := Text.rstrip s.

(** "the prefix ending at the n-th occurrence" of a marker. *)
Fixpoint prefix_through_occurrence (n : nat) (sep s : string) : option string :=
  match n with
  | O => Some EmptyString
  | S n' =>
      match Text.find sep s with
      | Some (before, after) =>
          match prefix_through_occurrence n' sep after with
          | Some more => Some (before ++ sep ++ more)%string
          | None => None
          end
      | None => None
      end
  end.


(** A reply of the shape section 6 gives: a dict whose "choices" is a
    list, the first choice a dict with a "message" dict. *)
Definition first_message (response : value) : option (value * list (string * value)) :=
  match response with
  | JObj kv =>
      match Py.lookup "choices" kv with
      | Some (JList (JObj ckv :: _)) =>
          match Py.lookup "message" ckv with
          | Some (JObj fields) => Some (JObj ckv, fields)
          | _ => None
          end
      | _ => None
      end
  | _ => None
  end.

(** A text field of the message: a string, [null] or absent. *)
Definition text_or_none (o : option value) : bool :=
  match o with
  | None | Some JNull | Some (JStr _) => true
  | _ => false
  end.

(** A JSON value that is a number, a boolean or [null]. *)
Definition is_scalar (v : value) : bool :=
  match v with
  | JNull | JBool _ | JNum _ => true
  | _ => false
  end.

Section Passes.
Context {W : World}.
Import BashAgent.

(** "every subsequent loop iteration appends ...": the turns that the pass
    starting from the conversation [conv] appends, by what the endpoint
    replies to [conv].  With a command, the call turn and the tool turn
    that carries the result of the execution; with no command and an
    answer that is not empty, the final turn; nothing when the answer is
    empty, when the library refuses the text of the turn, and when no
    reply can be read. *)
Inductive pass_appends (verbose : bool) (conv : list Message)
  : list Message -> Prop :=
| pass_command (response : value) (r : Reply) (output : string) (code : Z)
               (call : Message) :
    call_model conv = Ok response ->
    analyse verbose response = Ok (Some r) ->
    truthy (command r) = true ->
    execute_bash_command (command r) default_cwd = Ok (output, code) ->
    assistant_turn r = Ok call ->
    pass_appends verbose conv [call; tool_turn (command r) code output]
| pass_command_refused (response : value) (r : Reply) (e : exn) :
    call_model conv = Ok response ->
    analyse verbose response = Ok (Some r) ->
    truthy (command r) = true ->
    assistant_turn r = Raise e ->
    pass_appends verbose conv []
| pass_final (response : value) (r : Reply) (f : Message) :
    call_model conv = Ok response ->
    analyse verbose response = Ok (Some r) ->
    truthy (command r) = false ->
    truthy (py_or (reply_content r) (reasoning r)) = true ->
    final_turn (py_or (reply_content r) (reasoning r)) = Ok f ->
    pass_appends verbose conv [f]
| pass_final_refused (response : value) (r : Reply) (e : exn) :
    call_model conv = Ok response ->
    analyse verbose response = Ok (Some r) ->
    truthy (command r) = false ->
    truthy (py_or (reply_content r) (reasoning r)) = true ->
    final_turn (py_or (reply_content r) (reasoning r)) = Raise e ->
    pass_appends verbose conv []
| pass_empty_answer (response : value) (r : Reply) :
    call_model conv = Ok response ->
    analyse verbose response = Ok (Some r) ->
    truthy (command r) = false ->
    truthy (py_or (reply_content r) (reasoning r)) = false ->
    pass_appends verbose conv []
| pass_unread :
    (forall response r,
        call_model conv = Ok response ->
        analyse verbose response <> Ok (Some r)) ->
    pass_appends verbose conv [].


End Passes.

End Spec.

(* ================================================================== *)
(** ** Concrete worlds for the examples                                *)
(* ================================================================== *)

Module Demo.
Import Text.

(** [{"command": "<c>"}] *)
Definition payload_command (c : string) : string :=
  ("{" ++ dq ++ "command" ++ dq ++ ": " ++ dq ++ c ++ dq ++ "}")%string.

(** [{"cmd": ["ls", "ls -la"]}] *)
Definition payload_cmd_list : string :=
  ("{" ++ dq ++ "cmd" ++ dq ++ ": [" ++ dq ++ "ls" ++ dq ++ ", "
   ++ dq ++ "ls -la" ++ dq ++ "]}")%string.

Definition hdl_text : string := "module top; endmodule".

(** [{"cmd": ["ls", 5]}] *)
Definition payload_cmd_number : string :=
  ("{" ++ dq ++ "cmd" ++ dq ++ ": [" ++ dq ++ "ls" ++ dq ++ ", 5]}")%string.

(** [{"cmd": ["module top; endmodule"]}] *)
Definition payload_hdl : string :=
  ("{" ++ dq ++ "cmd" ++ dq ++ ": [" ++ dq ++ hdl_text ++ dq ++ "]}")%string.

(** [json.loads] on the texts the examples use; any other text is taken
    not to be JSON. *)
Definition demo_json_loads (s : string) : result value :=
  if (s =? payload_command "ls")%string then Ok (JObj [("command", JStr "ls")])
  else if (s =? payload_command "pwd")%string then Ok (JObj [("command", JStr "pwd")])
  else if (s =? payload_command "")%string then Ok (JObj [("command", JStr "")])
  else if (s =? payload_cmd_list)%string
       then Ok (JObj [("cmd", JList [JStr "ls"; JStr "ls -la"])])
  else if (s =? payload_cmd_number)%string
       then Ok (JObj [("cmd", JList [JStr "ls"; JNum 5])])
  else if (s =? payload_hdl)%string then Ok (JObj [("cmd", JList [JStr hdl_text])])
  else if (s =? "42")%string then Ok (JNum 42)
  else Raise (Exn JSONDecodeError "Expecting value: line 1 column 1 (char 0)").

(** No example hands the library a content that is neither a string nor
    [None]. *)
Definition demo_harmony_content (v : value) : result Content :=
  Raise (Exn ValidationError "1 validation error for Message").

Definition demo_looks_like_hdl_code (v : value) : result bool :=
  match v with
  | JStr s => Ok (contains "endmodule" s)
  | _ => Ok false
  end.

Fixpoint assoc_nat {A : Type} (n : nat) (l : list (nat * A)) : option A :=
  match l with
  | [] => None
  | (k, a) :: rest => if (k =? n)%nat then Some a else assoc_nat n rest
  end.

(** A world from a decoder, the endpoint's replies by length of the
    conversation sent, and a shell.  No example formats a list or a dict,
    so [py_repr] is a placeholder. *)
Definition world (decoder : string -> result (list Message))
           (replies : list (nat * value))
           (shell : string -> result CompletedProcess) : World :=
  {| json_loads := demo_json_loads;
     py_repr := fun _ => "[...]";
     call_model := fun conv =>
       match assoc_nat (List.length conv) replies with
       | Some r => Ok r
       | None => Raise (Exn OtherError "connection refused")
       end;
     subprocess_run := fun command _ =>
       match command with
       | JStr c => shell c
       | _ => Raise (Exn TypeError "expected str")
       end;
     harmony_decode := fun _ text => decoder text;
     harmony_content := demo_harmony_content;
     looks_like_hdl_code := demo_looks_like_hdl_code;
     looks_like_shell_command := fun _ => Ok false |}.

Definition no_decoder (text : string) : result (list Message) :=
  Raise (Exn ImportError "No module named 'openai_harmony'").

Definition shell (c : string) : result CompletedProcess :=
  if (c =? "ls")%string
  then Ok {| stdout := "README.md" ++ nl ++ "src" ++ nl; stderr := ""; returncode := 0 |}
  else if (c =? "echo '  hi'")%string
  then Ok {| stdout := "  hi" ++ nl; stderr := ""; returncode := 0 |}
  else if (c =? "sleep 60")%string
  then Raise (Exn TimeoutExpired "Command 'sleep 60' timed out after 30 seconds")
  else Raise (Exn OtherError "[Errno 2] No such file or directory").

(** Replies of the endpoint. *)
Definition tool_call (fname arguments : string) : value :=
  JObj [("id", JStr "call_1"); ("type", JStr "function");
        ("function", JObj [("name", JStr fname); ("arguments", JStr arguments)])].

Definition message_with_calls (content_ : value) (calls : list value) : value :=
  JObj [("role", JStr "assistant"); ("content", content_);
        ("tool_calls", JList calls)].

Definition message_text (content_ : string) : value :=
  JObj [("role", JStr "assistant"); ("content", JStr content_)].

Definition reply (message finish_reason : value) : value :=
  JObj [("choices",
         JList [JObj [("index", JNum 0); ("message", message);
                      ("finish_reason", finish_reason)]])].

Definition reply_ls : value :=
  reply (message_with_calls JNull [tool_call "execute_bash" (payload_command "ls")])
        (JStr "tool_calls").

(** Decoded Harmony messages. *)
Definition decoded (ch text : string) : Message :=
  with_channel ch (from_role_and_content ASSISTANT (TextContent text)).

Definition fenced_ls : string := ("```bash" ++ nl ++ "ls" ++ nl ++ "```")%string.

(** The worlds of the examples. *)
Definition shell_world : World := world no_decoder [] shell.

Definition two_step_world : World :=
  world no_decoder
        [(3, reply_ls);
         (5, reply (message_text "Two entries: README.md and src.") (JStr "stop"))]
        shell.

Definition three_step_world : World :=
  world no_decoder
        [(3, reply_ls);
         (5, reply (message_text "Looking at the listing.") (JStr "length"));
         (6, reply (message_text "Two entries: README.md and src.") (JStr "stop"))]
        shell.

Definition message_reasoning (content_ reasoning_ : string) : value :=
  JObj [("role", JStr "assistant"); ("content", JStr content_);
        ("reasoning_content", JStr reasoning_)].

Definition reasoning_world : World :=
  world no_decoder
        [(3, reply_ls);
         (5, reply (message_reasoning "" "Two entries: README.md and src.")
                   (JStr "stop"))]
        shell.


Definition scalar_world : World :=
  world no_decoder [(3, reply (message_text "42") (JStr "stop"))] shell.

Definition empty_decode_world : World := world (fun _ => Ok []) [] shell.

Definition commentary_world : World :=
  world (fun text => Ok [decoded "commentary" text]) [] shell.

(** A reply in the multi-channel format that carries [payload] on the
    analysis channel. *)
Definition analysis_text (payload : string) : string :=
  ("<|channel|>analysis<|message|>" ++ payload)%string.






(** Ten call markers, a letter, and an eleventh marker. *)
Definition ten_markers : string :=
  String.concat EmptyString (repeat Temp.call_marker 10).

Definition eleven_markers_text : string :=
  (ten_markers ++ "X" ++ Temp.call_marker)%string.

(** Fifty call markers in a row. *)
Definition fifty_markers : string :=
  String.concat EmptyString (repeat Temp.call_marker 50).

End Demo.

(* ================================================================== *)
(** ** bash_agent.py: [call_model]                                     *)
(* ================================================================== *)

Module Endpoint.

(** One entry of [api_messages]. *)
Record ApiMessage : Type := { api_role : string; api_content : string }.

(** The arguments of [requests.post]: the address, the headers, the four
    fields of the JSON body and the time allowed, in seconds. *)
Record Request : Type := {
  url : string;
  headers : list (string * string);
  model : string;
  messages : list ApiMessage;
  temperature : Decimal.decimal;
  max_tokens : Z;
  timeout_seconds : Z
}.

(** What [call_model] reaches outside the program. *)
Class Http : Type := {
  (** [os.getenv(name)] once [load_dotenv()] has run; [None] when unset. *)
  getenv : string -> option string;
  (** [str(role.value)] *)
  role_value : Role -> string;
  (** [json.dumps(c.to_dict())] *)
  dumps_to_dict : Content -> string;
  (** [requests.post(...)], [raise_for_status()] and [response.json()] in a
      row. *)
  post_json : Request -> result value
}.

Section Program.
Context {H : Http}.

(** What one content item adds to [content_parts].  A text segment has a
    [text]; the system and developer contents have a [to_dict]; a segment
    made of a value that is not a string is taken to have neither. *)
Definition content_part (c : Content) : option string :=
  match c with
  | TextContent text => Some text
  | SystemContent _ _ | DeveloperContent _ _ => Some (dumps_to_dict c)
  | RawContent _ => None
  end.

Fixpoint content_parts (cs : list Content) : list string :=
  match cs with
  | [] => []
  | c :: rest =>
      match content_part c with
      | Some part => part :: content_parts rest
      | None => content_parts rest
      end
  end.

(** Lines 97-108: "Convert conversation to API message format". *)
Fixpoint api_messages (conversation : list Message) : list ApiMessage :=
  match conversation with
  | [] => []
  | msg :: rest =>
      match content msg with
      | [] => api_messages rest
      | cs =>
          {| api_role := role_value (role (author msg));
             api_content :=
               match content_parts cs with
               | [] => EmptyString
               | parts => Text.join " " parts
               end |}
          :: api_messages rest
      end
  end.

Definition missing_key_message : string :=
  "GPT_OSS_API_KEY not found in environment. Please set it in .env file or environment variables.".

Definition default_api_base : string := "http://127.0.0.1:8000".

(** [call_model(conversation)].  The [ValueError] it raises is kept under
    [OtherError]. *)
Definition call_model (conversation : list Message) : result value :=
  let api_key := getenv "GPT_OSS_API_KEY" in
  let api_base :=
    match getenv "GPT_OSS_API_BASE" with
    | Some base => base
    | None => default_api_base
    end in
  match api_key with
  | None | Some EmptyString => Raise (Exn OtherError missing_key_message)
  | Some key =>
      post_json
        {| url := (api_base ++ "/v1/chat/completions")%string;
           headers := [("Content-Type", "application/json");
                       ("Authorization", ("Bearer " ++ key)%string)];
           model := "gpt-oss-20b";
           messages := api_messages conversation;
           temperature :=
             Decimal.Decimal (Decimal.Pos (Decimal.D0 Decimal.Nil))
                             (Decimal.D7 Decimal.Nil);
           max_tokens := 500;
           timeout_seconds := 60 |}
  end.

End Program.

End Endpoint.

(** The world in which the agent loop calls this [call_model]. *)
Definition with_endpoint (H : Endpoint.Http) (W : World) : World :=
  {| json_loads := @json_loads W;
     py_repr := @py_repr W;
     call_model := @Endpoint.call_model H;
     subprocess_run := @subprocess_run W;
     harmony_decode := @harmony_decode W;
     harmony_content := @harmony_content W;
     looks_like_hdl_code := @looks_like_hdl_code W;
     looks_like_shell_command := @looks_like_shell_command W |}.

(* ================================================================== *)
(** ** bash_agent.py: the command line                                 *)
(* ================================================================== *)

Module Main.
Section Program.
Context {W : World}.

Definition demo_tasks : list string :=
  [ "Check what folders are available in this directory";
    "Find all Python files and count how many there are";
    "Show me the first 5 lines of README.md" ].

(** The [for] over the demo tasks: an exception leaves the loop. *)
Fixpoint run_demo (tasks : list string) : list BashAgent.Run :=
  match tasks with
  | [] => []
  | task :: rest =>
      let run := BashAgent.run_bash_agent task 3 true in
      match BashAgent.returned run with
      | Ok _ => run :: run_demo rest
      | Raise _ => [run]
      end
  end.

(** The block under [if __name__ == "__main__"]; [args] is
    [sys.argv[1:]].  The result lists the runs made. *)
Definition main (args : list string) : list BashAgent.Run :=
  match args with
  | [] => run_demo demo_tasks
  | _ => [BashAgent.run_bash_agent (Text.join " " args) 5 true]
  end.

End Program.
End Main.

(* ================================================================== *)
(** ** Conditions used in the statements                               *)
(* ================================================================== *)

Module Conditions.

(** [s] has no character [c]. *)
Fixpoint lacks (c : ascii) (s : string) : bool :=
  match s with
  | EmptyString => true
  | String x s' => negb (Ascii.eqb x c) && lacks c s'
  end.

(** A command with no back quote and no opening angle bracket: it can hold
    neither a fence nor a marker of the multi-channel format. *)
Definition plain_command (cmd : string) : bool :=
  lacks "`"%char cmd && lacks "<"%char cmd.

(** The first segment of the message is not a text that parses to a JSON
    object, and reading it raises nothing that [extract_command] lets
    through. *)
Definition unusable_payload {W : World} (m : Message) : bool :=
  match content m with
  | TextContent text :: _ =>
      match json_loads text with
      | Ok (JObj _) => false
      | Ok _ => true
      | Raise e => BashAgent.extract_command_handles e
      end
  | _ => true
  end.

(** A command written between fences, as a reply in Markdown has it. *)
Definition fenced (tag cmd : string) : string :=
  (Text.fence ++ tag ++ Text.nl ++ cmd ++ Text.nl ++ Text.fence)%string.

Definition has_content (m : Message) : bool :=
  match content m with [] => false | _ => true end.

(** The message has exactly one segment. *)
Definition one_segment (m : Message) : bool :=
  match content m with [_] => true | _ => false end.

(** The entry of the request for a turn whose only segment is [c]: the
    name of the role and what the segment gives, its text or the dump of
    its [to_dict], and the empty string when it has neither. *)
Definition sent_as {H : Endpoint.Http} (m : Message) (c : Content)
  : Endpoint.ApiMessage :=
  {| Endpoint.api_role := Endpoint.role_value (role (author m));
     Endpoint.api_content :=
       match Endpoint.content_part c with
       | Some part => part
       | None => EmptyString
       end |}.

Fixpoint total_iterations (runs : list BashAgent.Run) : nat :=
  match runs with
  | [] => 0
  | run :: rest => BashAgent.iterations run + total_iterations rest
  end.

End Conditions.

(* ================================================================== *)
(** ** Further concrete worlds                                         *)
(* ================================================================== *)

Module Scenario.
Import Text.

(** Every reply asks for [ls]. *)
Definition always_command_world : World :=
  {| json_loads := Demo.demo_json_loads;
     py_repr := fun _ => "[...]";
     call_model := fun _ => Ok Demo.reply_ls;
     subprocess_run := fun command _ =>
       match command with
       | JStr c => Demo.shell c
       | _ => Raise (Exn TypeError "expected str")
       end;
     harmony_decode := fun _ text => Demo.no_decoder text;
     harmony_content := Demo.demo_harmony_content;
     looks_like_hdl_code := Demo.demo_looks_like_hdl_code;
     looks_like_shell_command := fun _ => Ok false |}.

(** An answer cut short, then an endpoint that cannot be reached. *)
Definition lost_answer_world : World :=
  Demo.world Demo.no_decoder
             [(3, Demo.reply (Demo.message_text "Partial answer.") (JStr "length"))]
             Demo.shell.

(** No key in the environment. *)
Definition no_key : Endpoint.Http :=
  {| Endpoint.getenv := fun _ => None;
     Endpoint.role_value := fun r =>
       match r with
       | SYSTEM => "system" | DEVELOPER => "developer" | USER => "user"
       | ASSISTANT => "assistant" | TOOL => "tool"
       end;
     Endpoint.dumps_to_dict := fun _ => "{}";
     Endpoint.post_json := fun _ =>
       Ok (Demo.reply (Demo.message_text "Done.") (JStr "stop")) |}.

(** Decoded messages addressed to the tool. *)
Definition to_tool (payload : string) : Message :=
  with_recipient "functions.execute_bash" (Demo.decoded "commentary" payload).

(** The decoder gives one message on the given channel. *)
Definition channel_world (ch text : string) (shell_like : bool) : World :=
  {| json_loads := Demo.demo_json_loads;
     py_repr := fun _ => "[...]";
     call_model := fun _ => Raise (Exn OtherError "connection refused");
     subprocess_run := fun _ _ => Raise (Exn OtherError "not used");
     harmony_decode := fun _ _ => Ok [Demo.decoded ch text];
     harmony_content := Demo.demo_harmony_content;
     looks_like_hdl_code := Demo.demo_looks_like_hdl_code;
     looks_like_shell_command := fun _ => Ok shell_like |}.

(** [{"cmd": []}] *)
Definition payload_empty_cmd : string :=
  ("{" ++ dq ++ "cmd" ++ dq ++ ": []}")%string.

(** The decoder gives one analysis message with the empty "cmd" list. *)
Definition empty_cmd_world : World :=
  {| json_loads := fun s =>
       if (s =? payload_empty_cmd)%string then Ok (JObj [("cmd", JList [])])
       else Raise (Exn JSONDecodeError "Expecting value");
     py_repr := fun _ => "[...]";
     call_model := fun _ => Raise (Exn OtherError "connection refused");
     subprocess_run := fun _ _ => Raise (Exn OtherError "not used");
     harmony_decode := fun _ _ => Ok [Demo.decoded "analysis" payload_empty_cmd];
     harmony_content := Demo.demo_harmony_content;
     looks_like_hdl_code := Demo.demo_looks_like_hdl_code;
     looks_like_shell_command := fun _ => Ok true |}.

(** A reply in the multi-channel format that addresses the tool, and the
    world whose decoder reads it. *)
Definition tool_text : string :=
  ("<|channel|>commentary to=functions.execute_bash<|message|>"
   ++ Demo.payload_command "ls")%string.

Definition tool_decode_world : World :=
  Demo.world (fun _ => Ok [to_tool (Demo.payload_command "ls")]) [] Demo.shell.

(** A tool call in a message whose content and reasoning text are both
    [null], and a world whose first reply carries it. *)
Definition message_null_call : value :=
  JObj [("role", JStr "assistant"); ("content", JNull);
        ("reasoning_content", JNull);
        ("tool_calls",
         JList [Demo.tool_call "execute_bash" (Demo.payload_command "ls")])].

Definition reply_null_call : value :=
  Demo.reply message_null_call (JStr "tool_calls").

Definition null_reply_world : World :=
  Demo.world Demo.no_decoder
             [(3, reply_null_call);
              (5, Demo.reply (Demo.message_text "Two entries: README.md and src.")
                             (JStr "stop"))]
             Demo.shell.

(** Brackets nested deeper than [json.loads] follows, and a world in
    which reading them raises [RecursionError]. *)
Definition deep_text : string :=
  String.concat EmptyString (repeat "[" (100 * 1000)).

Definition recursion_error : exn :=
  Exn RecursionError "maximum recursion depth exceeded while decoding a JSON array from a unicode string".

Definition deep_world : World :=
  {| json_loads := fun s =>
       if (s =? deep_text)%string then Raise recursion_error
       else Demo.demo_json_loads s;
     py_repr := fun _ => "[...]";
     call_model := fun _ => Raise (Exn OtherError "connection refused");
     subprocess_run := fun _ _ => Raise (Exn OtherError "not used");
     harmony_decode := fun _ text => Demo.no_decoder text;
     harmony_content := Demo.demo_harmony_content;
     looks_like_hdl_code := Demo.demo_looks_like_hdl_code;
     looks_like_shell_command := fun _ => Ok false |}.


End Scenario.

(* ================================================================== *)
(** ** Facts about the exception monad and the Python operations       *)
(* ================================================================== *)

Lemma is_class_true (c : exn_class) (e : exn) :
  is_class c e = true <-> exn_cls e = c.
Proof.
  unfold is_class; destruct c, (exn_cls e); split; intro H;
    try reflexivity; discriminate H.
Qed.

Lemma is_class_false (c : exn_class) (e : exn) :
  is_class c e = false <-> exn_cls e <> c.
Proof.
  split.
  - intros H E. apply is_class_true in E. congruence.
  - intro H. destruct (is_class c e) eqn:E; [ | reflexivity ].
    apply is_class_true in E. contradiction.
Qed.

Lemma truthy_str (s : string) : truthy (JStr s) = true <-> s <> EmptyString.
Proof.
  simpl. destruct (String.eqb_spec s EmptyString); simpl; split; intro H;
    congruence.
Qed.

(* ================================================================== *)
(** ** The fuel of the string functions is enough                      *)
(* ================================================================== *)

Section FuelFacts.
Import Text.

Lemma length_append (a b : string) :
  String.length (a ++ b) = String.length a + String.length b.
Proof. induction a as [ | x a IH ]; cbn; [ | rewrite IH ]; reflexivity. Qed.

Lemma drop_prefix_app (p s rest : string) :
  drop_prefix p s = Some rest -> s = (p ++ rest)%string.
Proof.
  revert s. induction p as [ | a p IH ]; intros s H; cbn in H.
  - injection H as <-. reflexivity.
  - destruct s as [ | b s ]; [ discriminate H | ].
    destruct (Ascii.eqb_spec a b) as [ <- | ]; [ | discriminate H ].
    cbn. f_equal. apply IH. exact H.
Qed.

Lemma drop_prefix_ci_length (p s rest : string) :
  drop_prefix_ci p s = Some rest ->
  String.length s = String.length p + String.length rest.
Proof.
  revert s. induction p as [ | a p IH ]; intros s H; cbn in H.
  - injection H as <-. reflexivity.
  - destruct s as [ | b s ]; [ discriminate H | ].
    destruct (Ascii.eqb a (lower b)); [ | discriminate H ].
    cbn. f_equal. apply IH. exact H.
Qed.

Lemma find_app (p s before after : string) :
  find p s = Some (before, after) -> s = (before ++ p ++ after)%string.
Proof.
  revert before. induction s as [ | c s IH ]; intros before H; cbn [find] in H.
  - destruct (drop_prefix p EmptyString) as [ rest | ] eqn:Drop;
      [ | discriminate H ].
    injection H as <- <-. apply drop_prefix_app in Drop. exact Drop.
  - destruct (drop_prefix p (String c s)) as [ rest | ] eqn:Drop.
    + injection H as <- <-. apply drop_prefix_app in Drop. exact Drop.
    + destruct (find p s) as [ [ b a ] | ]; [ | discriminate H ].
      injection H as <- <-. cbn. f_equal. apply IH. reflexivity.
Qed.

Lemma find_length (p s before after : string) :
  find p s = Some (before, after) ->
  String.length s = String.length before + String.length p + String.length after.
Proof.
  intro H. rewrite (find_app _ _ _ _ H) at 1. rewrite !length_append. lia.
Qed.

Lemma nonempty_length (p : string) : p <> EmptyString -> 0 < String.length p.
Proof. destruct p; [ congruence | cbn; lia ]. Qed.

Lemma find_in_empty (p : string) : p <> EmptyString -> find p EmptyString = None.
Proof. destruct p; [ congruence | reflexivity ]. Qed.

Lemma length_zero (s : string) : String.length s <= 0 -> s = EmptyString.
Proof. destruct s; [ reflexivity | cbn; lia ]. Qed.

(** Any fuel from the length of the text on gives the same parts and the
    same count. *)
Lemma split_fuel_enough (sep : string) (n m : nat) (s : string) :
  sep <> EmptyString ->
  String.length s <= n -> String.length s <= m ->
  split_fuel n sep s = split_fuel m sep s.
Proof.
  intro Sep. revert m s.
  induction n as [ | n IH ]; intros [ | m ] s Hn Hm; cbn [split_fuel];
    try reflexivity;
    try (apply length_zero in Hn || apply length_zero in Hm; subst s;
         rewrite (find_in_empty _ Sep); reflexivity).
  destruct (find sep s) as [ [ before after ] | ] eqn:Find; [ | reflexivity ].
  pose proof (find_length _ _ _ _ Find) as Len.
  pose proof (nonempty_length _ Sep).
  f_equal. apply IH; lia.
Qed.

Lemma count_fuel_enough (sep : string) (n m : nat) (s : string) :
  sep <> EmptyString ->
  String.length s <= n -> String.length s <= m ->
  count_fuel n sep s = count_fuel m sep s.
Proof.
  intro Sep. revert m s.
  induction n as [ | n IH ]; intros [ | m ] s Hn Hm; cbn [count_fuel];
    try reflexivity;
    try (apply length_zero in Hn || apply length_zero in Hm; subst s;
         rewrite (find_in_empty _ Sep); reflexivity).
  destruct (find sep s) as [ [ before after ] | ] eqn:Find; [ | reflexivity ].
  pose proof (find_length _ _ _ _ Find) as Len.
  pose proof (nonempty_length _ Sep).
  f_equal. apply IH; lia.
Qed.

Lemma first_some_in {A : Type} (l : list (option A)) (a : A) :
  first_some l = Some a -> In (Some a) l.
Proof.
  induction l as [ | [ x | ] l IH ]; cbn; intro H.
  - discriminate H.
  - left. exact H.
  - right. apply IH. exact H.
Qed.

Lemma after_newlines_shorter (s t : string) :
  In t (after_newlines s) -> String.length t < String.length s.
Proof.
  induction s as [ | c s IH ]; cbn [after_newlines]; [ intros [] | ].
  destruct (isspace c); [ | intros [] ].
  intro H. apply in_app_or in H. cbn [String.length].
  destruct H as [ H | H ].
  - destruct (Ascii.eqb c LF); [ | destruct H ].
    destruct H as [ <- | [] ]. lia.
  - specialize (IH H). lia.
Qed.

Lemma match_block_body_shorter (s group after : string) :
  match_block_body s = Some (group, after) ->
  String.length after < String.length s.
Proof.
  unfold match_block_body. intro H.
  apply first_some_in, in_map_iff in H. destruct H as (t & Find & In_t).
  apply in_rev, after_newlines_shorter in In_t.
  apply find_length in Find. lia.
Qed.

Lemma match_code_block_shorter (s group after : string) :
  match_code_block s = Some (group, after) ->
  String.length after < String.length s.
Proof.
  unfold match_code_block. intro H.
  destruct (drop_prefix fence s) as [ rest | ] eqn:Fence; [ | discriminate H ].
  apply drop_prefix_app in Fence. apply (f_equal String.length) in Fence.
  rewrite length_append in Fence.
  apply first_some_in in H.
  assert (Tag : forall tag, match_tag tag rest = Some (group, after) ->
                            String.length after < String.length rest).
  { intros tag T. unfold match_tag in T.
    destruct (drop_prefix_ci tag rest) as [ rest' | ] eqn:Ci; [ | discriminate T ].
    apply drop_prefix_ci_length in Ci. apply match_block_body_shorter in T. lia. }
  destruct H as [ H | [ H | [ H | [] ] ] ]; apply Tag in H; lia.
Qed.

Lemma findall_fuel_enough (n m : nat) (s : string) :
  String.length s <= n -> String.length s <= m ->
  findall_fuel n s = findall_fuel m s.
Proof.
  revert m s.
  induction n as [ | n IH ]; intros [ | m ] s Hn Hm; cbn [findall_fuel];
    try reflexivity;
    try (apply length_zero in Hn || apply length_zero in Hm; subst s;
         reflexivity).
  destruct s as [ | c s ]; [ reflexivity | ].
  destruct (match_code_block (String c s)) as [ [ group after ] | ] eqn:Block.
  - apply match_code_block_shorter in Block. f_equal. apply IH; lia.
  - cbn [String.length] in Hn, Hm. apply IH; lia.
Qed.

Lemma match_channel_header_shorter (s after : string) :
  match_channel_header s = Some after ->
  String.length after < String.length s.
Proof.
  unfold match_channel_header. intro H.
  destruct (drop_prefix "<|channel|>" s) as [ rest | ] eqn:Open; [ | discriminate H ].
  apply drop_prefix_app in Open. apply (f_equal String.length) in Open.
  rewrite length_append in Open.
  destruct (find "<|message|>" rest) as [ [ skipped after' ] | ] eqn:Close;
    [ | discriminate H ].
  destruct (has_newline skipped); [ discriminate H | ].
  injection H as <-. apply find_length in Close.
  change (String.length "<|channel|>") with 11 in Open. lia.
Qed.

Lemma remove_channel_headers_fuel_enough (n m : nat) (s : string) :
  String.length s <= n -> String.length s <= m ->
  remove_channel_headers_fuel n s = remove_channel_headers_fuel m s.
Proof.
  revert m s.
  induction n as [ | n IH ]; intros [ | m ] s Hn Hm;
    cbn [remove_channel_headers_fuel];
    try reflexivity;
    try (apply length_zero in Hn || apply length_zero in Hm; subst s;
         reflexivity).
  destruct s as [ | c s ]; [ reflexivity | ].
  destruct (match_channel_header (String c s)) as [ after | ] eqn:Header.
  - apply match_channel_header_shorter in Header. apply IH; lia.
  - cbn [String.length] in Hn, Hm. f_equal. apply IH; lia.
Qed.

End FuelFacts.

(* ================================================================== *)
(** ** The shell executor                                              *)
(* ================================================================== *)

Section ExecutorFacts.
Context {W : World}.
Import BashAgent.

Lemma execute_bash_command_total (command : value) (cwd : string) :
  exists output code, execute_bash_command command cwd = Ok (output, code).
Proof.
  unfold execute_bash_command, try_except, any_exception.
  destruct (subprocess_run command cwd) as [ r | e ]; cbn [Py.bind].
  - do 2 eexists. reflexivity.
  - destruct (is_class TimeoutExpired e); do 2 eexists; reflexivity.
Qed.

(** C3.  Whatever the command and the working directory,
    [execute_bash_command] returns a pair and raises nothing.  When the
    subprocess call raises [TimeoutExpired] the pair is the time-out
    message with exit code -1; when it raises anything else the pair is
    "Error: " followed by the text of the exception, with exit code -1. *)
Theorem execute_bash_command_never_raises (command : value) (cwd : string) :
  (exists output code, execute_bash_command command cwd = Ok (output, code))
  /\ (forall e, subprocess_run command cwd = Raise e ->
                exn_cls e = TimeoutExpired ->
                execute_bash_command command cwd
                = Ok ("Error: Command timed out after 30 seconds", (-1)%Z))
  /\ (forall e, subprocess_run command cwd = Raise e ->
                exn_cls e <> TimeoutExpired ->
                execute_bash_command command cwd
                = Ok (("Error: " ++ exn_str e)%string, (-1)%Z)).
Proof.
  unfold execute_bash_command, try_except, any_exception.
  destruct (subprocess_run command cwd) as [r | e] eqn:Run; cbn [Py.bind].
  - split; [ do 2 eexists; reflexivity | split; intros e' E; discriminate E ].
  - destruct (is_class TimeoutExpired e) eqn:T.
    + apply is_class_true in T.
      split; [ do 2 eexists; reflexivity | ].
      split; intros e' E Cls; injection E as <-;
        [ reflexivity | contradiction ].
    + apply is_class_false in T.
      split; [ do 2 eexists; reflexivity | ].
      split; intros e' E Cls; injection E as <-;
        [ contradiction | reflexivity ].
Qed.

(** C7, as amended.  When the subprocess call completes,
    [execute_bash_command] returns the standard output followed by the
    standard error, with the white space removed at both ends of the
    combined text, and the exit code of the process. *)
Theorem execute_bash_command_completed
        (command : value) (cwd : string) (r : CompletedProcess) :
  subprocess_run command cwd = Ok r ->
  execute_bash_command command cwd
  = Ok (Text.rstrip (Text.lstrip (stdout r ++ stderr r)), returncode r).
Proof.
  intro Run. unfold execute_bash_command. rewrite Run. reflexivity.
Qed.

End ExecutorFacts.

(** The time-out of [sleep 60] and the failure to launch [nope] both come
    back as ordinary results. *)
Lemma execute_bash_command_never_raises_witness :
  BashAgent.execute_bash_command (W := Demo.shell_world)
    (JStr "sleep 60") BashAgent.default_cwd
  = Ok ("Error: Command timed out after 30 seconds", (-1)%Z)
  /\ BashAgent.execute_bash_command (W := Demo.shell_world)
       (JStr "nope") BashAgent.default_cwd
     = Ok ("Error: [Errno 2] No such file or directory", (-1)%Z).
Proof.
  split.
  - destruct (execute_bash_command_never_raises (W := Demo.shell_world)
                (JStr "sleep 60") BashAgent.default_cwd) as (_ & Timeout & _).
    apply (Timeout (Exn TimeoutExpired
                        "Command 'sleep 60' timed out after 30 seconds"));
      reflexivity.
  - destruct (execute_bash_command_never_raises (W := Demo.shell_world)
                (JStr "nope") BashAgent.default_cwd) as (_ & _ & Failure).
    apply (Failure (Exn OtherError "[Errno 2] No such file or directory"));
      [ reflexivity | discriminate ].
Defined.

(** [ls] completes: its two lines come back without the final line feed. *)
Lemma execute_bash_command_completed_witness :
  BashAgent.execute_bash_command (W := Demo.shell_world)
    (JStr "ls") BashAgent.default_cwd
  = Ok (("README.md" ++ Text.nl ++ "src")%string, 0%Z).
Proof.
  apply (execute_bash_command_completed (W := Demo.shell_world) (JStr "ls")
           BashAgent.default_cwd
           {| stdout := "README.md" ++ Text.nl ++ "src" ++ Text.nl;
              stderr := ""; returncode := 0 |}).
  reflexivity.
Defined.

(** C7 as stated fails: the output of [echo '  hi'] loses its two leading
    blanks, which trimming at the end alone would keep. *)
Lemma execute_bash_command_trims_leading_space :
  exists r,
    subprocess_run (World := Demo.shell_world) (JStr "echo '  hi'")
                   BashAgent.default_cwd = Ok r
    /\ BashAgent.execute_bash_command (W := Demo.shell_world)
         (JStr "echo '  hi'") BashAgent.default_cwd
       = Ok ("hi", 0%Z)
    /\ Spec.trailing_trimmed (stdout r ++ stderr r) = "  hi"
    /\ BashAgent.execute_bash_command (W := Demo.shell_world)
         (JStr "echo '  hi'") BashAgent.default_cwd
       <> Ok (Spec.trailing_trimmed (stdout r ++ stderr r), returncode r).
Proof.
  eexists. split; [ reflexivity | ].
  split; [ reflexivity | ].
  split; [ reflexivity | ].
  vm_compute. discriminate.
Qed.

(* ================================================================== *)
(** ** The command sniffing of the agent loop                          *)
(* ================================================================== *)

Section SniffFacts.
Context {W : World}.
Import BashAgent.

Lemma scan_tool_calls_app (command : value) (pre post : list value) :
  scan_tool_calls command (pre ++ post)
  = (command' <- scan_tool_calls command pre ;; scan_tool_calls command' post).
Proof.
  revert command. induction pre as [ | tc pre IH ]; intro command; simpl.
  - reflexivity.
  - destruct (scan_tool_call command tc) as [ command' | e ]; simpl.
    + apply IH.
    + reflexivity.
Qed.

(** Calls to other tools leave the command as it is. *)
Lemma scan_tool_calls_other_tools (command : value) (tcs : list value) :
  Forall (fun tc => names_shell_tool tc = Ok false) tcs ->
  scan_tool_calls command tcs = Ok command.
Proof.
  induction 1 as [ | tc tcs Other _ IH ]; simpl.
  - reflexivity.
  - unfold scan_tool_call. rewrite Other. simpl. exact IH.
Qed.

(** A call to the shell tool with a well-formed payload sets the command
    to the "command" field, whatever it was before. *)
Lemma scan_tool_call_shell (command : value)
      (tcf fn kv : list (string * value)) (fname arguments : string)
      (v : value) :
  Py.lookup "function" tcf = Some (JObj fn) ->
  Py.lookup "name" fn = Some (JStr fname) ->
  Text.contains "bash" fname = true ->
  Py.lookup "arguments" fn = Some (JStr arguments) ->
  json_loads arguments = Ok (JObj kv) ->
  Py.lookup "command" kv = Some v ->
  scan_tool_call command (JObj tcf) = Ok v.
Proof.
  intros Fn Name Bash Args Loads Cmd.
  unfold scan_tool_call, names_shell_tool, Py.get, Py.getitem, loads.
  rewrite Fn. cbn [Py.bind]. rewrite Name. cbn [Py.bind Py.contains].
  rewrite Bash. cbn [Py.bind]. rewrite Args. cbn [Py.bind].
  rewrite Loads. cbn [Py.bind try_except]. rewrite Cmd. reflexivity.
Qed.

Lemma truthy_list_middle (pre post : list value) (x : value) :
  truthy (JList (pre ++ x :: post)) = true.
Proof. destruct pre; reflexivity. Qed.

(** A truthy command closes the two later paths. *)
Lemma sniff_after_tool_calls (msg content_ reasoning_ command_ : value) :
  sniff_tool_calls msg = Ok command_ ->
  truthy command_ = true ->
  sniff msg content_ reasoning_ = Ok command_.
Proof.
  intros Tool Truthy. unfold sniff. rewrite Tool. cbn [Py.bind].
  unfold sniff_bare_json, tries_bare_json. rewrite Truthy. cbn [negb andb Py.bind].
  unfold sniff_harmony, tries_harmony. rewrite Truthy. reflexivity.
Qed.

(** C1, as amended.  Take a reply whose tool-call list is scanned without
    an exception up to a call whose function name contains "bash" and
    whose argument text parses to a JSON object with a non-empty string
    under "command", and let no later call of the list name the shell
    tool.  Then the sniffer returns exactly that string, and the guards of
    the bare-JSON path and of the multi-channel decode are both false. *)
Theorem last_shell_tool_call_is_the_command
        (fields tcf fn kv : list (string * value)) (pre post : list value)
        (fname arguments c : string) (content_ reasoning_ : value) :
  Py.lookup "tool_calls" fields = Some (JList (pre ++ JObj tcf :: post)) ->
  (exists c0, scan_tool_calls JNull pre = Ok c0) ->
  Py.lookup "function" tcf = Some (JObj fn) ->
  Py.lookup "name" fn = Some (JStr fname) ->
  Text.contains "bash" fname = true ->
  Py.lookup "arguments" fn = Some (JStr arguments) ->
  json_loads arguments = Ok (JObj kv) ->
  Py.lookup "command" kv = Some (JStr c) ->
  c <> EmptyString ->
  Forall (fun tc => names_shell_tool tc = Ok false) post ->
  sniff (JObj fields) content_ reasoning_ = Ok (JStr c)
  /\ sniff_tool_calls (JObj fields) = Ok (JStr c)
  /\ tries_bare_json (JStr c) content_ = false
  /\ tries_harmony (JStr c) = false.
Proof.
  intros Calls [c0 Pre] Fn Name Bash Args Loads Cmd Nonempty Others.
  assert (Truthy : truthy (JStr c) = true) by (apply truthy_str; exact Nonempty).
  assert (Tool : sniff_tool_calls (JObj fields) = Ok (JStr c)).
  { unfold sniff_tool_calls, Py.get, Py.getitem. rewrite Calls.
    cbn [Py.bind]. rewrite truthy_list_middle. cbn [Py.bind Py.iter].
    rewrite scan_tool_calls_app, Pre. cbn [Py.bind scan_tool_calls].
    rewrite (scan_tool_call_shell c0 tcf fn kv fname arguments (JStr c)
               Fn Name Bash Args Loads Cmd).
    cbn [Py.bind]. apply scan_tool_calls_other_tools. exact Others. }
  split; [ apply sniff_after_tool_calls; assumption | ].
  split; [ exact Tool | ].
  unfold tries_bare_json, tries_harmony. rewrite Truthy. split; reflexivity.
Qed.

End SniffFacts.

(** One call to [execute_bash] with the payload [{"command": "ls"}]. *)
Lemma last_shell_tool_call_is_the_command_witness :
  BashAgent.sniff (W := Demo.shell_world)
    (Demo.message_with_calls JNull
       [Demo.tool_call "read_file" "{}";
        Demo.tool_call "execute_bash" (Demo.payload_command "ls")])
    JNull (JStr "")
  = Ok (JStr "ls").
Proof.
  apply (last_shell_tool_call_is_the_command (W := Demo.shell_world)
           [("role", JStr "assistant"); ("content", JNull);
            ("tool_calls",
             JList [Demo.tool_call "read_file" "{}";
                    Demo.tool_call "execute_bash" (Demo.payload_command "ls")])]
           [("id", JStr "call_1"); ("type", JStr "function");
            ("function",
             JObj [("name", JStr "execute_bash");
                   ("arguments", JStr (Demo.payload_command "ls"))])]
           [("name", JStr "execute_bash");
            ("arguments", JStr (Demo.payload_command "ls"))]
           [("command", JStr "ls")]
           [Demo.tool_call "read_file" "{}"] []
           "execute_bash" (Demo.payload_command "ls") "ls"
           JNull (JStr "")).
  - reflexivity.
  - exists JNull. reflexivity.
  - reflexivity.
  - reflexivity.
  - reflexivity.
  - reflexivity.
  - reflexivity.
  - reflexivity.
  - discriminate.
  - constructor.
Defined.

(** C1 as stated fails in two ways.  With two calls to the shell tool the
    sniffer returns the command of the second, not that of the first; and an
    empty command string leaves the bare-JSON path open, which then supplies
    the command. *)
Lemma structured_tool_call_can_be_overridden :
  BashAgent.sniff (W := Demo.shell_world)
    (Demo.message_with_calls JNull
       [Demo.tool_call "execute_bash" (Demo.payload_command "ls");
        Demo.tool_call "execute_bash" (Demo.payload_command "pwd")])
    JNull (JStr "")
  = Ok (JStr "pwd")
  /\ BashAgent.sniff_tool_calls (W := Demo.shell_world)
       (Demo.message_with_calls (JStr (Demo.payload_command "ls"))
          [Demo.tool_call "execute_bash" (Demo.payload_command "")])
     = Ok (JStr "")
  /\ BashAgent.tries_bare_json (JStr "") (JStr (Demo.payload_command "ls")) = true
  /\ BashAgent.sniff (W := Demo.shell_world)
       (Demo.message_with_calls (JStr (Demo.payload_command "ls"))
          [Demo.tool_call "execute_bash" (Demo.payload_command "")])
       (JStr (Demo.payload_command "ls")) (JStr "")
     = Ok (JStr "ls").
Proof. repeat split; reflexivity. Qed.

(* ================================================================== *)
(** ** The agent loop                                                  *)
(* ================================================================== *)

Section LoopFacts.
Context {W : World}.
Import BashAgent.

Lemma first_message_inv (response choice_ : value)
      (fields : list (string * value)) :
  Spec.first_message response = Some (choice_, fields) ->
  exists kv ckv rest,
    response = JObj kv
    /\ Py.lookup "choices" kv = Some (JList (JObj ckv :: rest))
    /\ choice_ = JObj ckv
    /\ Py.lookup "message" ckv = Some (JObj fields).
Proof.
  unfold Spec.first_message. intro H.
  destruct response as [ | | | | | kv ]; try discriminate H.
  destruct (Py.lookup "choices" kv) as [ [ | | | | l | ] | ] eqn:Choices;
    try discriminate H.
  destruct l as [ | [ | | | | | ckv ] rest ]; try discriminate H.
  destruct (Py.lookup "message" ckv) as [ [ | | | | | fields' ] | ] eqn:Msg;
    try discriminate H.
  injection H as <- <-. exists kv, ckv, rest. auto.
Qed.

(** On a reply of the expected shape [analyse] comes down to sniffing the
    message. *)
Lemma analyse_first_message (verbose : bool) (response choice_ : value)
      (fields : list (string * value)) :
  Spec.first_message response = Some (choice_, fields) ->
  Spec.text_or_none (Py.lookup "reasoning_content" fields) = true ->
  let content_ :=
    match Py.lookup "content" fields with Some v => v | None => JStr "" end in
  let reasoning_ :=
    match Py.lookup "reasoning_content" fields with
    | Some v => v
    | None => JStr ""
    end in
  analyse verbose response
  = (command_ <- sniff (JObj fields) content_ reasoning_ ;;
     Ok (Some {| choice := choice_; reply_content := content_;
                 reasoning := reasoning_; command := command_ |})).
Proof.
  intros Shape Text.
  destruct (first_message_inv _ _ _ Shape) as (kv & ckv & rest & -> & Choices & -> & Msg).
  unfold analyse, Py.contains, Py.getitem, Py.getitem0, Py.get.
  rewrite Choices. cbn [Py.bind truthy negb]. rewrite Msg. cbn [Py.bind].
  destruct (Py.lookup "reasoning_content" fields) as [ [ | | | s | | ] | ];
    try discriminate Text; cbn [Py.bind];
    destruct verbose; cbn [andb truthy String.eqb negb]; try reflexivity.
  destruct (s =? "")%string; reflexivity.
Qed.

(** A reply that [analyse] accepts has a dict as its first choice. *)
Lemma analyse_choice (verbose : bool) (response : value) (r : Reply) :
  analyse verbose response = Ok (Some r) ->
  exists ckv, choice r = JObj ckv.
Proof.
  unfold analyse. intro H.
  destruct (Py.contains "choices" response) as [ has | ]; [ | discriminate H ].
  cbn [Py.bind] in H.
  destruct (if has then _ else _) as [ [ | ] | ]; try discriminate H.
  cbn [Py.bind] in H.
  destruct (Py.getitem response "choices") as [ choices | ]; [ | discriminate H ].
  cbn [Py.bind] in H.
  destruct (Py.getitem0 choices) as [ choice_ | ]; [ | discriminate H ].
  cbn [Py.bind] in H.
  destruct choice_ as [ | | | | | ckv ]; try discriminate H.
  destruct (Py.getitem (JObj ckv) "message") as [ msg | ]; [ | discriminate H ].
  cbn [Py.bind] in H.
  destruct (Py.get msg "content" (JStr "")) as [ c | ]; [ | discriminate H ].
  cbn [Py.bind] in H.
  destruct (Py.get msg "reasoning_content" (JStr "")) as [ rs | ];
    [ | discriminate H ].
  cbn [Py.bind] in H.
  destruct (if (verbose && truthy rs)%bool then _ else _); [ | discriminate H ].
  cbn [Py.bind] in H.
  destruct (sniff msg c rs); [ | discriminate H ].
  cbn [Py.bind] in H. injection H as <-. exists ckv. reflexivity.
Qed.

(** A scalar under the bare-JSON path: the membership test raises, and the
    handler for [JSONDecodeError] lets the exception through. *)
Lemma sniff_bare_json_scalar (command_ : value) (text : string) (v : value) :
  truthy command_ = false ->
  text <> EmptyString ->
  json_loads (Text.strip text) = Ok v ->
  Spec.is_scalar v = true ->
  sniff_bare_json command_ (JStr text) = Raise (Exn TypeError "").
Proof.
  intros Falsy Nonempty Loads Scalar.
  unfold sniff_bare_json, tries_bare_json. rewrite Falsy.
  apply truthy_str in Nonempty. rewrite Nonempty. cbn [negb andb].
  unfold Py.str_strip, loads. cbn [Py.bind]. rewrite Loads. cbn [Py.bind].
  destruct v; try discriminate Scalar; reflexivity.
Qed.

(** C10.  Let the endpoint answer with a reply of the expected shape whose
    tool calls give no command and whose content is a non-empty string
    that, once stripped, parses to a JSON number, boolean or [null].  Then
    the pass through the loop body raises [TypeError] out of the loop:
    the run ends there with that exception and the conversation is left
    as it was. *)
Theorem bare_json_scalar_aborts_the_loop
        (verbose : bool) (remaining done : nat) (st : State)
        (response choice_ c1 v : value) (fields : list (string * value))
        (text : string) :
  call_model (conversation st) = Ok response ->
  Spec.first_message response = Some (choice_, fields) ->
  Spec.text_or_none (Py.lookup "reasoning_content" fields) = true ->
  sniff_tool_calls (JObj fields) = Ok c1 ->
  truthy c1 = false ->
  Py.lookup "content" fields = Some (JStr text) ->
  text <> EmptyString ->
  json_loads (Text.strip text) = Ok v ->
  Spec.is_scalar v = true ->
  let run := agent_loop verbose (S remaining) done st in
  (exists e, returned run = Raise e /\ exn_cls e = TypeError)
  /\ iterations run = S done
  /\ log run = conversation st.
Proof.
  intros Call Shape Text Tool Falsy Content Nonempty Loads Scalar.
  cbn [agent_loop]. unfold iteration. rewrite Call.
  rewrite (analyse_first_message verbose _ _ _ Shape Text).
  rewrite Content. unfold sniff. rewrite Tool. cbn [Py.bind].
  rewrite (sniff_bare_json_scalar c1 _ _ Falsy Nonempty Loads Scalar).
  split; [ eexists; split; reflexivity | split; reflexivity ].
Qed.

(** *** One pass through the loop body *)

Lemma assistant_turn_is_call (r : Reply) (call : Message) :
  assistant_turn r = Ok call -> is_call_turn call = true.
Proof.
  unfold assistant_turn.
  destruct (content_of_value (py_or (reply_content r) (reasoning r)));
    cbn [Py.bind]; intro Built; [ injection Built as <- | discriminate Built ].
  reflexivity.
Qed.

Lemma final_turn_is_final (answer : value) (f : Message) :
  final_turn answer = Ok f -> is_final_turn f = true.
Proof.
  unfold final_turn.
  destruct (content_of_value answer);
    cbn [Py.bind]; intro Built; [ injection Built as <- | discriminate Built ].
  reflexivity.
Qed.


Lemma assistant_turn_of_none (r : Reply) :
  py_or (reply_content r) (reasoning r) = JNull ->
  assistant_turn r = Raise (Exn ValidationError "").
Proof. intro Nothing. unfold assistant_turn. rewrite Nothing. reflexivity. Qed.

Lemma final_turn_of_text (s : string) :
  final_turn (JStr s)
  = Ok (with_channel "final" (from_role_and_content ASSISTANT (TextContent s))).
Proof. reflexivity. Qed.

Lemma iteration_command (verbose : bool) (st : State) (response : value)
      (r : Reply) (output : string) (code : Z) (call : Message) :
  call_model (conversation st) = Ok response ->
  analyse verbose response = Ok (Some r) ->
  truthy (command r) = true ->
  execute_bash_command (command r) default_cwd = Ok (output, code) ->
  assistant_turn r = Ok call ->
  iteration verbose st
  = ({| conversation :=
          conversation st ++ [call; tool_turn (command r) code output];
        final_response := final_response st |}, Continue).
Proof.
  intros Call An Truthy Exec Built. unfold iteration, act.
  rewrite Call, An, Truthy, Exec, Built. reflexivity.
Qed.

Lemma iteration_command_refused (verbose : bool) (st : State) (response : value)
      (r : Reply) (e : exn) :
  call_model (conversation st) = Ok response ->
  analyse verbose response = Ok (Some r) ->
  truthy (command r) = true ->
  assistant_turn r = Raise e ->
  iteration verbose st = (st, Raised e).
Proof.
  intros Call An Truthy Refused. unfold iteration, act.
  destruct (execute_bash_command_total (command r) default_cwd)
    as (output & code & Exec).
  rewrite Call, An, Truthy, Exec, Refused. reflexivity.
Qed.

Lemma iteration_final (verbose : bool) (st : State) (response reason : value)
      (r : Reply) (f : Message) :
  call_model (conversation st) = Ok response ->
  analyse verbose response = Ok (Some r) ->
  truthy (command r) = false ->
  (truthy (py_or (reply_content r) (reasoning r)) = true ->
   final_turn (py_or (reply_content r) (reasoning r)) = Ok f) ->
  Py.get (choice r) "finish_reason" JNull = Ok reason ->
  iteration verbose st
  = ({| conversation :=
          if truthy (py_or (reply_content r) (reasoning r))
          then conversation st ++ [f]
          else conversation st;
        final_response := py_or (reply_content r) (reasoning r) |},
     if Py.eq_str reason "stop" then Break else Continue).
Proof.
  intros Call An Falsy Built Finish. unfold iteration, act.
  rewrite Call, An, Falsy. cbv zeta.
  destruct (truthy (py_or (reply_content r) (reasoning r))).
  - rewrite (Built eq_refl). cbn [Py.bind]. rewrite Finish. reflexivity.
  - rewrite Finish. reflexivity.
Qed.

Lemma iteration_final_refused (verbose : bool) (st : State) (response : value)
      (r : Reply) (e : exn) :
  call_model (conversation st) = Ok response ->
  analyse verbose response = Ok (Some r) ->
  truthy (command r) = false ->
  truthy (py_or (reply_content r) (reasoning r)) = true ->
  final_turn (py_or (reply_content r) (reasoning r)) = Raise e ->
  iteration verbose st
  = ({| conversation := conversation st;
        final_response := py_or (reply_content r) (reasoning r) |}, Raised e).
Proof.
  intros Call An Falsy Answer Refused. unfold iteration, act.
  rewrite Call, An, Falsy. cbv zeta. rewrite Answer, Refused. reflexivity.
Qed.

(** What one pass adds to the conversation. *)
Lemma act_appends (st : State) (r : Reply) :
  exists added,
    conversation (fst (act st r)) = conversation st ++ added
    /\ ((exists a t, added = [a; t]
                     /\ is_call_turn a = true /\ is_tool_turn t = true)
        \/ (exists f, added = [f] /\ is_final_turn f = true)
        \/ added = []).
Proof.
  assert (Nothing : exists added,
             conversation st = conversation st ++ added
             /\ ((exists a t, added = [a; t]
                              /\ is_call_turn a = true /\ is_tool_turn t = true)
                 \/ (exists f, added = [f] /\ is_final_turn f = true)
                 \/ added = [])).
  { exists []. split; [ symmetry; apply app_nil_r | right; right; reflexivity ]. }
  unfold act. destruct (truthy (command r)).
  - destruct (execute_bash_command (command r) default_cwd)
      as [ [output code] | e ]; [ | exact Nothing ].
    destruct (assistant_turn r) as [ call | e ] eqn:Built; [ | exact Nothing ].
    cbn [fst conversation].
    eexists. split; [ reflexivity | ]. left. do 2 eexists.
    split; [ reflexivity | ].
    split; [ exact (assistant_turn_is_call r call Built) | reflexivity ].
  - cbv zeta. destruct (truthy (py_or (reply_content r) (reasoning r))).
    + destruct (final_turn (py_or (reply_content r) (reasoning r)))
        as [ f | e ] eqn:Built; cbn [Py.bind]; [ | exact Nothing ].
      destruct (Py.get (choice r) "finish_reason" JNull); cbn [fst conversation];
        (eexists; split;
         [ reflexivity
         | right; left; eexists; split;
           [ reflexivity | exact (final_turn_is_final _ f Built) ] ]).
    + destruct (Py.get (choice r) "finish_reason" JNull); exact Nothing.
Qed.

Lemma iteration_appends_group (verbose : bool) (st : State) :
  exists added,
    conversation (fst (iteration verbose st)) = conversation st ++ added
    /\ appended 1 added.
Proof.
  assert (Nothing : exists added,
             conversation st = conversation st ++ added /\ appended 1 added).
  { exists []. split; [ symmetry; apply app_nil_r | ].
    apply appended_nothing, appended_start. }
  unfold iteration.
  destruct (call_model (conversation st)) as [ response | e ]; [ | exact Nothing ].
  destruct (analyse verbose response) as [ [ r | ] | e ]; try exact Nothing.
  destruct (act_appends st r) as (added & Eq & [ (a & t & -> & Ha & Ht) | [ (f & -> & Hf) | -> ] ]);
    eexists; (split; [ exact Eq | ]).
  - apply appended_command; [ exact Ha | exact Ht | apply appended_start ].
  - apply appended_final; [ exact Hf | apply appended_start ].
  - apply appended_nothing, appended_start.
Qed.

Lemma appended_app (n : nat) (first rest : list Message) :
  appended 1 first -> appended n rest -> appended (S n) (first ++ rest).
Proof.
  intros First Rest. inversion First as [ | k turns a t Ha Ht Tail | k turns f Hf Tail | k turns Tail ];
    subst; inversion Tail; subst; cbn [app].
  - apply appended_command; assumption.
  - apply appended_final; assumption.
  - apply appended_nothing; assumption.
Qed.

(** The loop only appends, one group for each pass it starts. *)
Lemma agent_loop_appends (verbose : bool) (remaining done : nat) (st : State) :
  exists k tail,
    iterations (agent_loop verbose remaining done st) = done + k
    /\ k <= remaining
    /\ log (agent_loop verbose remaining done st) = conversation st ++ tail
    /\ appended k tail.
Proof.
  revert done st. induction remaining as [ | remaining IH ]; intros done st.
  - exists 0, []. cbn [agent_loop iterations log].
    repeat split; [ lia | lia | symmetry; apply app_nil_r | apply appended_start ].
  - cbn [agent_loop].
    destruct (iteration_appends_group verbose st) as (added & Eq & Group).
    destruct (iteration verbose st) as [ st' signal ]. cbn [fst] in Eq.
    destruct signal as [ | | v | e ];
      try (exists 1, added; cbn [iterations log];
           repeat split; [ lia | lia | exact Eq | exact Group ]).
    destruct (IH (S done) st') as (k & tail & Iter & Bound & Log & Tail).
    exists (S k), (added ++ tail). rewrite Iter, Log, Eq.
    repeat split; [ lia | lia | symmetry; apply app_assoc | ].
    apply appended_app; assumption.
Qed.

(** What one pass adds is what the reply to the conversation calls for. *)
Lemma iteration_pass (verbose : bool) (st : State) :
  exists added,
    conversation (fst (iteration verbose st)) = conversation st ++ added
    /\ Spec.pass_appends verbose (conversation st) added.
Proof.
  destruct (call_model (conversation st)) as [ response | e ] eqn:Call.
  - destruct (analyse verbose response) as [ [ r | ] | e ] eqn:An.
    + destruct (truthy (command r)) eqn:Cmd.
      * destruct (execute_bash_command_total (command r) default_cwd)
          as (output & code & Exec).
        destruct (assistant_turn r) as [ call | e ] eqn:Built.
        -- rewrite (iteration_command verbose st response r output code call
                      Call An Cmd Exec Built).
           eexists. split; [ reflexivity | ].
           exact (Spec.pass_command verbose _ response r output code call
                    Call An Cmd Exec Built).
        -- rewrite (iteration_command_refused verbose st response r e
                      Call An Cmd Built).
           exists []. split; [ symmetry; apply app_nil_r | ].
           exact (Spec.pass_command_refused verbose _ response r e
                    Call An Cmd Built).
      * destruct (truthy (py_or (reply_content r) (reasoning r))) eqn:Answer.
        -- destruct (final_turn (py_or (reply_content r) (reasoning r)))
             as [ f | e ] eqn:Built.
           ++ exists [f]. split.
              ** unfold iteration, act. rewrite Call, An, Cmd. cbv zeta.
                 rewrite Answer, Built. cbn [Py.bind].
                 destruct (Py.get (choice r) "finish_reason" JNull); reflexivity.
              ** exact (Spec.pass_final verbose _ response r f
                          Call An Cmd Answer Built).
           ++ rewrite (iteration_final_refused verbose st response r e
                         Call An Cmd Answer Built).
              exists []. split; [ symmetry; apply app_nil_r | ].
              exact (Spec.pass_final_refused verbose _ response r e
                       Call An Cmd Answer Built).
        -- exists []. split.
           ++ unfold iteration, act. rewrite Call, An, Cmd. cbv zeta.
              rewrite Answer.
              destruct (Py.get (choice r) "finish_reason" JNull);
                symmetry; apply app_nil_r.
           ++ exact (Spec.pass_empty_answer verbose _ response r
                       Call An Cmd Answer).
    + exists []. split.
      * unfold iteration. rewrite Call, An. symmetry. apply app_nil_r.
      * apply Spec.pass_unread. intros response' r' Call'.
        rewrite Call in Call'. injection Call' as <-. rewrite An. discriminate.
    + exists []. split.
      * unfold iteration. rewrite Call, An. symmetry. apply app_nil_r.
      * apply Spec.pass_unread. intros response' r' Call'.
        rewrite Call in Call'. injection Call' as <-. rewrite An. discriminate.
  - exists []. split.
    + unfold iteration. rewrite Call. symmetry. apply app_nil_r.
    + apply Spec.pass_unread. intros response' r' Call'.
      rewrite Call in Call'. discriminate Call'.
Qed.







(** C8, as amended.  Let the loop be allowed at least two passes.  If the
    first reply yields a command and the library accepts the text of the
    call turn, the second reply yields no command and the library accepts
    its answer when it is not empty, and the second reply has the finish
    reason "stop" or the bound is two, then the run makes exactly two
    passes and returns the content of the second reply, or its reasoning
    text when the content is empty. *)
Theorem command_then_answer_takes_two_iterations
        (user_task : string) (max_iterations : Z) (verbose : bool)
        (response1 response2 : value) (reply1 reply2 : Reply)
        (output : string) (code : Z) (call : Message) :
  (2 <= max_iterations)%Z ->
  call_model (initial_messages user_task) = Ok response1 ->
  analyse verbose response1 = Ok (Some reply1) ->
  truthy (command reply1) = true ->
  execute_bash_command (command reply1) default_cwd = Ok (output, code) ->
  assistant_turn reply1 = Ok call ->
  call_model (initial_messages user_task
              ++ [call; tool_turn (command reply1) code output])
  = Ok response2 ->
  analyse verbose response2 = Ok (Some reply2) ->
  truthy (command reply2) = false ->
  (truthy (py_or (reply_content reply2) (reasoning reply2)) = true ->
   exists f, final_turn (py_or (reply_content reply2) (reasoning reply2)) = Ok f) ->
  (Py.get (choice reply2) "finish_reason" JNull = Ok (JStr "stop")
   \/ max_iterations = 2%Z) ->
  iterations (run_bash_agent user_task max_iterations verbose) = 2
  /\ returned (run_bash_agent user_task max_iterations verbose)
     = Ok (if truthy (reply_content reply2)
           then reply_content reply2 else reasoning reply2).
Proof.
  intros Bound Call1 An1 Cmd1 Exec Built1 Call2 An2 Cmd2 Built2 Finish.
  unfold run_bash_agent.
  destruct (Z.to_nat max_iterations) as [ | [ | remaining ] ] eqn:Fuel;
    try lia.
  cbn [agent_loop].
  rewrite (iteration_command verbose (initial_state user_task) response1
             reply1 output code call Call1 An1 Cmd1 Exec Built1).
  destruct (analyse_choice _ _ _ An2) as (ckv & Choice).
  assert (Get : exists reason,
             Py.get (choice reply2) "finish_reason" JNull = Ok reason).
  { rewrite Choice. eexists. reflexivity. }
  destruct Get as (reason & Get).
  assert (Turn : exists f,
             truthy (py_or (reply_content reply2) (reasoning reply2)) = true ->
             final_turn (py_or (reply_content reply2) (reasoning reply2)) = Ok f).
  { destruct (truthy (py_or (reply_content reply2) (reasoning reply2))).
    - destruct (Built2 eq_refl) as (f & Built). exists f. intros _. exact Built.
    - exists call. discriminate. }
  destruct Turn as (f & Turn).
  rewrite (iteration_final verbose
             {| conversation :=
                  conversation (initial_state user_task)
                  ++ [call; tool_turn (command reply1) code output];
                final_response := final_response (initial_state user_task) |}
             response2 reason reply2 f Call2 An2 Cmd2 Turn Get).
  destruct Finish as [ Stop | Two ].
  - rewrite Stop in Get. injection Get as <-. cbn. split; reflexivity.
  - assert (remaining = 0) by lia. subst remaining.
    destruct (Py.eq_str reason "stop"); cbn; split; reflexivity.
Qed.

End LoopFacts.

(** The reply whose content is the text [42]. *)
Lemma bare_json_scalar_aborts_the_loop_witness :
  let run := BashAgent.run_bash_agent (W := Demo.scalar_world)
               "list the files" 5 true in
  (exists e, BashAgent.returned run = Raise e /\ exn_cls e = TypeError)
  /\ BashAgent.iterations run = 1
  /\ BashAgent.log run = BashAgent.initial_messages "list the files".
Proof.
  apply (bare_json_scalar_aborts_the_loop (W := Demo.scalar_world)
           true 4 0 (BashAgent.initial_state "list the files")
           (Demo.reply (Demo.message_text "42") (JStr "stop"))
           (JObj [("index", JNum 0); ("message", Demo.message_text "42");
                  ("finish_reason", JStr "stop")])
           JNull (JNum 42)
           [("role", JStr "assistant"); ("content", JStr "42")]
           "42");
    try reflexivity.
  discriminate.
Defined.

(** The three seed turns, the call and its result, and the final answer. *)
Lemma command_then_answer_takes_two_iterations_witness :
  BashAgent.iterations
    (BashAgent.run_bash_agent (W := Demo.two_step_world) "list the files" 5 true)
  = 2
  /\ BashAgent.returned
       (BashAgent.run_bash_agent (W := Demo.two_step_world) "list the files" 5 true)
     = Ok (JStr "Two entries: README.md and src.").
Proof.
  apply (command_then_answer_takes_two_iterations (W := Demo.two_step_world)
           "list the files" 5 true
           Demo.reply_ls
           (Demo.reply (Demo.message_text "Two entries: README.md and src.")
                       (JStr "stop"))
           {| BashAgent.choice :=
                JObj [("index", JNum 0);
                      ("message",
                       Demo.message_with_calls JNull
                         [Demo.tool_call "execute_bash" (Demo.payload_command "ls")]);
                      ("finish_reason", JStr "tool_calls")];
              BashAgent.reply_content := JNull;
              BashAgent.reasoning := JStr "";
              BashAgent.command := JStr "ls" |}
           {| BashAgent.choice :=
                JObj [("index", JNum 0);
                      ("message",
                       Demo.message_text "Two entries: README.md and src.");
                      ("finish_reason", JStr "stop")];
              BashAgent.reply_content := JStr "Two entries: README.md and src.";
              BashAgent.reasoning := JStr "";
              BashAgent.command := JNull |}
           ("README.md" ++ Text.nl ++ "src")%string 0%Z
           (with_recipient "functions.execute_bash"
              (with_channel "commentary"
                 (from_role_and_content ASSISTANT (TextContent "")))));
    try reflexivity.
  - lia.
  - intros _. eexists. reflexivity.
  - left. reflexivity.
Defined.

(** C8 as stated fails in three ways.  When the second reply does not
    carry the finish reason "stop" the loop goes on: here it makes a third
    pass and returns the third reply.  When the content of the second
    reply is empty the run returns its reasoning text instead.  And when
    the first reply carries a tool call with [null] for both its content
    and its reasoning text, the command runs, the library refuses [None]
    as the text of the call turn, and the run ends in its first pass with
    that exception: the endpoint is never asked for the second reply. *)
Lemma command_then_answer_can_take_three_iterations :
  (BashAgent.iterations
     (BashAgent.run_bash_agent (W := Demo.three_step_world) "list the files" 5 true)
   = 3
   /\ BashAgent.returned
        (BashAgent.run_bash_agent (W := Demo.three_step_world) "list the files" 5 true)
      = Ok (JStr "Two entries: README.md and src."))
  /\ BashAgent.returned
       (BashAgent.run_bash_agent (W := Demo.reasoning_world) "list the files" 5 true)
     = Ok (JStr "Two entries: README.md and src.")
  /\ (BashAgent.analyse (W := Scenario.null_reply_world) true Scenario.reply_null_call
      = Ok (Some {| BashAgent.choice :=
                      JObj [("index", JNum 0);
                            ("message", Scenario.message_null_call);
                            ("finish_reason", JStr "tool_calls")];
                    BashAgent.reply_content := JNull;
                    BashAgent.reasoning := JNull;
                    BashAgent.command := JStr "ls" |})
      /\ exists e,
          exn_cls e = ValidationError
          /\ BashAgent.run_bash_agent (W := Scenario.null_reply_world)
               "list the files" 5 true
             = {| BashAgent.log := BashAgent.initial_messages "list the files";
                  BashAgent.iterations := 1;
                  BashAgent.returned := Raise e |}).
Proof.
  repeat split; try (vm_compute; reflexivity).
  exists (Exn ValidationError ""). split; vm_compute; reflexivity.
Qed.


(* ================================================================== *)
(** ** The sniffer over decoded text                                   *)
(* ================================================================== *)

Section TextSnifferFacts.
Context {W : World}.
Import Temp.


Lemma scan_messages_app (flag : bool) (pre post : list Message) :
  scan_messages flag (pre ++ post)
  = (o <- scan_messages flag pre ;;
     match o with
     | MessageReturn command => Ok (MessageReturn command)
     | MessageNext hdl => scan_messages hdl post
     end).
Proof.
  revert flag. induction pre as [ | msg pre IH ]; intro flag;
    cbn [app scan_messages Py.bind].
  - reflexivity.
  - destruct (scan_message msg) as [ [ command | hdl ] | e ]; cbn [Py.bind];
      try reflexivity.
    apply IH.
Qed.


Lemma extract_of_answer (text : string) (v : value) :
  Text.strip text <> EmptyString ->
  harmony_path text = Ok (Answer v) ->
  extract_command_from_text text = Ok v.
Proof.
  intros Nonempty Path. unfold extract_command_from_text, harmony_guarded.
  destruct (String.eqb_spec (Text.strip text) EmptyString); [ contradiction | ].
  rewrite Path. reflexivity.
Qed.

(** The call never raises. *)
Lemma extract_command_from_text_never_raises (text : string) :
  exists v, extract_command_from_text text = Ok v.
Proof.
  unfold extract_command_from_text, harmony_guarded, try_except, any_exception.
  destruct (Text.strip text =? "")%string; [ eexists; reflexivity | ].
  destruct (harmony_path text) as [ [ v | ] | e ]; eexists; reflexivity.
Qed.

(** C2, as amended.  For a text that is not blank: when the decoder
    returns at least one message and the scan of the messages ends
    without a command and without an exception, the sniffer returns "no
    command", whatever the fallback would find; and the [try] block falls
    through to the fallback exactly when the decoder raised, or returned
    no message, or the scan of the messages raised. *)
Theorem fallback_needs_a_failed_or_empty_decode (text : string) :
  Text.strip text <> EmptyString ->
  (forall msgs hdl,
      harmony_decode (Some ASSISTANT) (truncate_calls text) = Ok msgs ->
      msgs <> [] ->
      scan_messages false msgs = Ok (MessageNext hdl) ->
      harmony_guarded text = Ok (Answer JNull)
      /\ extract_command_from_text text = Ok JNull)
  /\ (harmony_guarded text = Ok FallThrough <->
      (exists e, harmony_decode (Some ASSISTANT) (truncate_calls text) = Raise e)
      \/ harmony_decode (Some ASSISTANT) (truncate_calls text) = Ok []
      \/ (exists msgs e,
             harmony_decode (Some ASSISTANT) (truncate_calls text) = Ok msgs
             /\ scan_messages false msgs = Raise e))
  /\ (harmony_guarded text = Ok FallThrough ->
      extract_command_from_text text = Ok (fallback_scan (Text.strip text))).
Proof.
  intro Nonempty. split; [ | split ].
  - intros msgs hdl Decode Some_ Scan.
    assert (Path : harmony_path text = Ok (Answer JNull)).
    { unfold harmony_path. rewrite Decode. cbn [Py.bind]. rewrite Scan.
      cbn [Py.bind]. destruct msgs; [ contradiction | reflexivity ]. }
    split; [ unfold harmony_guarded; rewrite Path; reflexivity | ].
    apply extract_of_answer; assumption.
  - unfold harmony_guarded, harmony_path, try_except, any_exception.
    destruct (harmony_decode (Some ASSISTANT) (truncate_calls text))
      as [ msgs | e ]; cbn [Py.bind].
    + destruct (scan_messages false msgs) as [ [ command | hdl ] | e ] eqn:Scan;
        cbn [Py.bind].
      * split; [ discriminate | ].
        intros [ (e & E) | [ E | (msgs' & e & E & Scan') ] ];
          [ discriminate E
          | injection E as ->; discriminate Scan
          | injection E as <-; rewrite Scan in Scan'; discriminate Scan' ].
      * destruct msgs as [ | m msgs ].
        -- cbn [scan_messages] in Scan. injection Scan as <-. cbn.
           split; [ intros _; right; left; reflexivity | reflexivity ].
        -- cbn [nonempty orb]. split; [ discriminate | ].
           intros [ (e & E) | [ E | (msgs' & e & E & Scan') ] ];
             [ discriminate E
             | discriminate E
             | injection E as <-; rewrite Scan in Scan'; discriminate Scan' ].
      * split; [ | reflexivity ].
        intros _. right. right. exists msgs, e. split; [ reflexivity | exact Scan ].
    + split; [ | reflexivity ]. intros _. left. exists e. reflexivity.
  - intro Fall. unfold extract_command_from_text.
    destruct (String.eqb_spec (Text.strip text) EmptyString); [ contradiction | ].
    rewrite Fall. reflexivity.
Qed.



End TextSnifferFacts.

(** A decode with one message and no command is final, although the
    fallback would find the fenced [ls]. *)
Lemma fallback_needs_a_failed_or_empty_decode_witness :
  Temp.extract_command_from_text (W := Demo.commentary_world) Demo.fenced_ls
  = Ok JNull
  /\ Temp.fallback_scan (Text.strip Demo.fenced_ls) = JStr "ls".
Proof.
  split; [ | reflexivity ].
  destruct (fallback_needs_a_failed_or_empty_decode (W := Demo.commentary_world)
              Demo.fenced_ls) as (Final & _ & _).
  - vm_compute. discriminate.
  - destruct (Final [Demo.decoded "commentary" Demo.fenced_ls] false) as (_ & Result).
    + reflexivity.
    + discriminate.
    + reflexivity.
    + exact Result.
Defined.

(** C2 as stated fails: the decoder runs without an exception and returns
    no message, hence no command, and the sniffer falls through to the
    fallback, which returns the fenced [ls]. *)
Lemma empty_decode_falls_through :
  harmony_decode (World := Demo.empty_decode_world) (Some ASSISTANT)
                 (Temp.truncate_calls Demo.fenced_ls) = Ok []
  /\ Temp.harmony_guarded (W := Demo.empty_decode_world) Demo.fenced_ls
     = Ok Temp.FallThrough
  /\ Temp.extract_command_from_text (W := Demo.empty_decode_world) Demo.fenced_ls
     = Ok (JStr "ls").
Proof. repeat split; vm_compute; reflexivity. Qed.





(* ================================================================== *)
(** ** The truncation of runaway call markers                          *)
(* ================================================================== *)

Section TruncationFacts.
Import Text.

Lemma append_assoc (a b c : string) :
  ((a ++ b) ++ c = a ++ (b ++ c))%string.
Proof. induction a as [ | x a IH ]; cbn; [ | rewrite IH ]; reflexivity. Qed.

Lemma split_fuel_cons (fuel : nat) (sep s : string) :
  exists part parts, split_fuel fuel sep s = part :: parts.
Proof.
  destruct fuel as [ | fuel ]; cbn [split_fuel].
  - eexists _, _. reflexivity.
  - destruct (find sep s) as [ [ before after ] | ]; eexists _, _; reflexivity.
Qed.

(** Joining the parts gives the text back, whatever the fuel. *)
Lemma join_split_fuel (fuel : nat) (sep s : string) :
  join sep (split_fuel fuel sep s) = s.
Proof.
  revert s. induction fuel as [ | fuel IH ]; intro s; cbn [split_fuel].
  - reflexivity.
  - destruct (find sep s) as [ [ before after ] | ] eqn:Find; [ | reflexivity ].
    apply find_app in Find. specialize (IH after).
    destruct (split_fuel_cons fuel sep after) as (part & parts & Parts).
    rewrite Parts in IH |- *. unfold join in IH |- *.
    change (before ++ sep ++ String.concat sep (part :: parts) = s)%string.
    rewrite IH. symmetry. exact Find.
Qed.

(** With more than [k] markers counted, the first [k + 1] parts joined
    are the prefix ending at the [k]-th marker followed by the text that
    lies between that marker and the next one. *)
Lemma join_firstn_split (k fuel : nat) (sep s : string) :
  k < count_fuel fuel sep s ->
  exists through mid rest,
    Spec.prefix_through_occurrence k sep s = Some through
    /\ s = (through ++ mid ++ sep ++ rest)%string
    /\ find sep (mid ++ sep ++ rest) = Some (mid, rest)
    /\ join sep (firstn (S k) (split_fuel fuel sep s)) = (through ++ mid)%string.
Proof.
  revert fuel s. induction k as [ | k IH ]; intros fuel s Count;
    (destruct fuel as [ | fuel ]; [ cbn in Count; lia | ]);
    cbn [count_fuel split_fuel] in *;
    destruct (find sep s) as [ [ before after ] | ] eqn:Find;
    try (cbn in Count; lia).
  - exists EmptyString, before, after. pose proof (find_app _ _ _ _ Find) as Eq.
    split; [ reflexivity | ].
    split; [ exact Eq | ].
    split; [ rewrite <- Eq; exact Find | reflexivity ].
  - apply PeanoNat.lt_S_n in Count.
    destruct (IH fuel after Count) as (through & mid & rest & Pre & Eq & Next & Join).
    exists (before ++ sep ++ through)%string, mid, rest.
    cbn [Spec.prefix_through_occurrence]. rewrite Find, Pre.
    split; [ reflexivity | ].
    split; [ rewrite (find_app _ _ _ _ Find), Eq at 1;
             rewrite !append_assoc; reflexivity | ].
    split; [ exact Next | ].
    destruct (split_fuel_cons fuel sep after) as (part & parts & Parts).
    rewrite Parts in Join |- *. unfold join in Join |- *.
    cbn [firstn] in Join |- *.
    change (before ++ sep ++ String.concat sep (part :: firstn k parts)
            = (before ++ sep ++ through) ++ mid)%string.
    rewrite Join, !append_assoc. reflexivity.
Qed.

(** What [truncate_calls] keeps when it truncates: the prefix ending at
    the tenth marker, and after it the text up to the eleventh marker. *)
Lemma truncate_calls_long (text : string) :
  10 < count Temp.call_marker text ->
  exists through mid rest,
    Spec.prefix_through_occurrence 10 Temp.call_marker text = Some through
    /\ text = (through ++ mid ++ Temp.call_marker ++ rest)%string
    /\ find Temp.call_marker (mid ++ Temp.call_marker ++ rest) = Some (mid, rest)
    /\ Temp.truncate_calls text = (through ++ mid)%string.
Proof.
  intro Count. unfold Temp.truncate_calls.
  destruct (Nat.ltb_spec 10 (count Temp.call_marker text)) as [ _ | ]; [ | lia ].
  apply join_firstn_split. exact Count.
Qed.

Lemma truncate_calls_short (text : string) :
  count Temp.call_marker text <= 10 -> Temp.truncate_calls text = text.
Proof.
  intro Count. unfold Temp.truncate_calls.
  destruct (Nat.ltb_spec 10 (count Temp.call_marker text)); [ lia | reflexivity ].
Qed.

(** Fifty markers in a row are cut down to ten. *)
Lemma truncate_fifty_markers :
  Temp.truncate_calls Demo.fifty_markers = Demo.ten_markers.
Proof. vm_compute. reflexivity. Qed.

(** C6, at the text made of ten call markers, the letter X and an
    eleventh marker.  The text has eleven markers, so it is truncated;
    the prefix ending at the tenth marker is the ten markers alone, but
    the text handed to the encoder keeps the X that follows them. *)
Theorem truncation_keeps_text_after_tenth_marker :
  count Temp.call_marker Demo.eleven_markers_text = 11
  /\ Spec.prefix_through_occurrence 10 Temp.call_marker Demo.eleven_markers_text
     = Some Demo.ten_markers
  /\ Temp.truncate_calls Demo.eleven_markers_text
     = (Demo.ten_markers ++ "X")%string
  /\ Temp.truncate_calls Demo.eleven_markers_text <> Demo.ten_markers.
Proof.
  split; [ vm_compute; reflexivity | ].
  split; [ vm_compute; reflexivity | ].
  split; [ vm_compute; reflexivity | ].
  vm_compute. discriminate.
Qed.

End TruncationFacts.


(* ================================================================== *)
(** ** More on the sniffing paths of the agent loop                    *)
(* ================================================================== *)

Section MoreSniffFacts.
Context {W : World}.
Import BashAgent.

(** A message that is not addressed to the tool, or whose payload cannot be
    used, is passed over. *)
Lemma extract_command_skip (m : Message) (rest : list Message) :
  addressed_to_tool m = false \/ Conditions.unusable_payload m = true ->
  extract_command (m :: rest) = extract_command rest.
Proof.
  intro Skip. cbn [extract_command].
  destruct (addressed_to_tool m); [ | reflexivity ].
  destruct Skip as [ Skip | Skip ]; [ discriminate Skip | ].
  unfold Conditions.unusable_payload in Skip. unfold extract_command_try, loads.
  destruct (content m) as [ | [ text | | | ] items ]; try reflexivity.
  destruct (json_loads text) as [ [ | | | | | kv ] | e ];
    try discriminate Skip; try reflexivity.
  cbn [Py.bind]. unfold try_except. rewrite Skip. reflexivity.
Qed.

Lemma extract_command_skip_all (pre rest : list Message) :
  Forall (fun m => addressed_to_tool m = false
                   \/ Conditions.unusable_payload m = true) pre ->
  extract_command (pre ++ rest) = extract_command rest.
Proof.
  induction 1 as [ | m pre Skip _ IH ]; [ reflexivity | ].
  cbn [app]. rewrite (extract_command_skip m (pre ++ rest) Skip). exact IH.
Qed.

(** X1.  [extract_command] returns what the first usable message gives: the
    first message addressed to the tool whose first segment parses to a JSON
    object decides, with the value under "command" or with [None] when the
    object has no such key.  The messages after it are not looked at. *)
Theorem extract_command_first_object_decides
        (pre post : list Message) (m : Message) (text : string)
        (items : list Content) (kv : list (string * value)) :
  Forall (fun m => addressed_to_tool m = false
                   \/ Conditions.unusable_payload m = true) pre ->
  addressed_to_tool m = true ->
  content m = TextContent text :: items ->
  json_loads text = Ok (JObj kv) ->
  extract_command (pre ++ m :: post)
  = Ok (match Py.lookup "command" kv with Some v => v | None => JNull end).
Proof.
  intros Pre Addressed Items Loads.
  rewrite (extract_command_skip_all pre (m :: post) Pre).
  cbn [extract_command]. rewrite Addressed.
  unfold extract_command_try, loads. rewrite Items, Loads. reflexivity.
Qed.

(** An exception that [json.loads] raises outside the three handled
    classes leaves [extract_command]. *)
Lemma extract_command_lets_through (m : Message) (rest : list Message)
      (text : string) (items : list Content) (e : exn) :
  addressed_to_tool m = true ->
  content m = TextContent text :: items ->
  json_loads text = Raise e ->
  extract_command_handles e = false ->
  extract_command (m :: rest) = Raise e.
Proof.
  intros Addressed Items Loads Unhandled.
  cbn [extract_command]. rewrite Addressed.
  unfold extract_command_try, loads. rewrite Items, Loads.
  cbn [Py.bind]. unfold try_except. rewrite Unhandled. reflexivity.
Qed.

(** Whatever [extract_command] raises comes from [json.loads]. *)
Lemma extract_command_raise (messages : list Message) (e : exn) :
  extract_command messages = Raise e ->
  exists m text items,
    In m messages
    /\ addressed_to_tool m = true
    /\ content m = TextContent text :: items
    /\ json_loads text = Raise e
    /\ extract_command_handles e = false.
Proof.
  induction messages as [ | m rest IH ]; [ discriminate | ].
  intro Raised.
  assert (Rest : extract_command rest = Raise e ->
                 exists m' text items,
                   In m' (m :: rest)
                   /\ addressed_to_tool m' = true
                   /\ content m' = TextContent text :: items
                   /\ json_loads text = Raise e
                   /\ extract_command_handles e = false).
  { intro Later. destruct (IH Later) as (m' & text & items & Here & Facts).
    exists m', text, items. split; [ right; exact Here | exact Facts ]. }
  destruct (addressed_to_tool m) eqn:Addressed.
  - destruct (Conditions.unusable_payload m) eqn:Unusable.
    + rewrite (extract_command_skip m rest (or_intror Unusable)) in Raised.
      exact (Rest Raised).
    + unfold Conditions.unusable_payload in Unusable.
      destruct (content m) as [ | [ text | | | ] items ] eqn:Items;
        try discriminate Unusable.
      destruct (json_loads text) as [ [ | | | | | kv ] | e' ] eqn:Loads;
        try discriminate Unusable.
      * cbn [extract_command] in Raised. rewrite Addressed in Raised.
        unfold extract_command_try, loads in Raised.
        rewrite Items, Loads in Raised. discriminate Raised.
      * rewrite (extract_command_lets_through m rest text items e'
                   Addressed Items Loads Unusable) in Raised.
        injection Raised as <-.
        exists m, text, items.
        split; [ left; reflexivity | ].
        split; [ exact Addressed | ].
        split; [ exact Items | ].
        split; [ exact Loads | exact Unusable ].
  - rewrite (extract_command_skip m rest (or_introl Addressed)) in Raised.
    exact (Rest Raised).
Qed.

(** X2.  [extract_command] raises only what [json.loads] raises outside
    the three classes its handler names.  If it raises, a message addressed
    to the tool has a text in its first segment on which [json.loads]
    raises that exception, which is neither a [JSONDecodeError], an
    [AttributeError] nor a [KeyError]; and such an exception on the first
    message does leave the function.  So [extract_command] returns
    whenever [json.loads] raises nothing but the handled classes on the
    first segments.  A payload on which [json.loads] raises
    [JSONDecodeError], a JSON value that is not an object and a first
    segment without text are all passed over, and the scan goes on with
    the next message. *)
Theorem extract_command_raises_only_from_json_loads :
  (forall messages e,
      extract_command messages = Raise e ->
      exists m text items,
        In m messages
        /\ addressed_to_tool m = true
        /\ content m = TextContent text :: items
        /\ json_loads text = Raise e
        /\ extract_command_handles e = false)
  /\ (forall m rest text items e,
         addressed_to_tool m = true ->
         content m = TextContent text :: items ->
         json_loads text = Raise e ->
         extract_command_handles e = false ->
         extract_command (m :: rest) = Raise e)
  /\ (forall messages,
         (forall m text items e,
             In m messages ->
             content m = TextContent text :: items ->
             json_loads text = Raise e ->
             extract_command_handles e = true) ->
         exists v, extract_command messages = Ok v)
  /\ (forall m rest,
         Conditions.unusable_payload m = true ->
         extract_command (m :: rest) = extract_command rest).
Proof.
  split; [ exact extract_command_raise | ].
  split; [ exact extract_command_lets_through | ].
  split.
  - intros messages Handled.
    destruct (extract_command messages) as [ v | e ] eqn:Outcome;
      [ exists v; reflexivity | ].
    destruct (extract_command_raise messages e Outcome)
      as (m & text & items & Here & _ & Items & Loads & Unhandled).
    rewrite (Handled m text items e Here Items Loads) in Unhandled.
    discriminate Unhandled.
  - intros m rest Unusable. apply extract_command_skip. right. exact Unusable.
Qed.

(** With no command from the tool calls, a content on which [json.loads]
    raises [JSONDecodeError] leaves the command as it was. *)
Lemma sniff_bare_json_not_json (c1 : value) (text : string) (e : exn) :
  json_loads (Text.strip text) = Raise e ->
  exn_cls e = JSONDecodeError ->
  sniff_bare_json c1 (JStr text) = Ok c1.
Proof.
  intros Loads Class.
  unfold sniff_bare_json, tries_bare_json.
  destruct (negb (truthy c1) && truthy (JStr text))%bool; [ | reflexivity ].
  unfold Py.str_strip, loads. cbn [Py.bind]. rewrite Loads.
  cbn [Py.bind]. unfold try_except.
  apply is_class_true in Class. rewrite Class. reflexivity.
Qed.

(** X20.  The multi-channel path of the agent loop returns what
    [extract_command] finds.  When the tool calls give no command,
    [json.loads] raises [JSONDecodeError] on the stripped content, the
    text built from reasoning and content holds "execute_bash" and the
    decoder returns messages, the sniffer returns what [extract_command]
    returns on them; and where [extract_command] raises, the bare [except]
    keeps the command as it was. *)
Theorem decoded_reply_goes_through_extract_command
        (msg c1 reasoning_ : value) (text : string) (msgs : list Message)
        (e : exn) :
  sniff_tool_calls msg = Ok c1 ->
  truthy c1 = false ->
  json_loads (Text.strip text) = Raise e ->
  exn_cls e = JSONDecodeError ->
  Text.contains "execute_bash"
    (Text.strip (py_str reasoning_ ++ Text.nl ++ text)) = true ->
  harmony_decode None (Text.strip (py_str reasoning_ ++ Text.nl ++ text))
  = Ok msgs ->
  sniff msg (JStr text) reasoning_
  = match extract_command msgs with
    | Ok v => extract_command msgs
    | Raise _ => Ok c1
    end.
Proof.
  intros Tool Falsy Loads Class Marker Decode.
  unfold sniff. rewrite Tool. cbn [Py.bind].
  rewrite (sniff_bare_json_not_json c1 text e Loads Class). cbn [Py.bind].
  unfold sniff_harmony, tries_harmony. rewrite Falsy. cbn [negb py_str].
  rewrite Marker, Decode. cbn [Py.bind].
  destruct (extract_command msgs); reflexivity.
Qed.

(** The guard of the tool-call scan holds only for a dict with a dict under
    "function". *)
Lemma names_shell_tool_true (tc : value) :
  names_shell_tool tc = Ok true ->
  exists tcf fn, tc = JObj tcf /\ Py.lookup "function" tcf = Some (JObj fn).
Proof.
  unfold names_shell_tool, Py.get. intro Guard.
  destruct tc as [ | | | | | tcf ]; try discriminate Guard.
  destruct (Py.lookup "function" tcf) as [ [ | | | | | fn ] | ] eqn:Fn;
    try discriminate Guard.
  exists tcf, fn. split; [ reflexivity | exact Fn ].
Qed.

(** X3.  Once its guard has been evaluated, one round of the tool-call scan
    raises nothing; and when the argument text of the call is not JSON, or
    is JSON but not an object, the round leaves the command as it was. *)
Theorem tool_call_arguments_never_raise (command_ tc : value) (is_bash : bool) :
  names_shell_tool tc = Ok is_bash ->
  (exists command', scan_tool_call command_ tc = Ok command')
  /\ (forall tcf fn arguments,
         tc = JObj tcf ->
         Py.lookup "function" tcf = Some (JObj fn) ->
         Py.lookup "arguments" fn = Some (JStr arguments) ->
         (forall kv, json_loads arguments <> Ok (JObj kv)) ->
         scan_tool_call command_ tc = Ok command_).
Proof.
  intro Guard. split.
  - unfold scan_tool_call. rewrite Guard. cbn [Py.bind].
    destruct is_bash; [ | eexists; reflexivity ].
    destruct (names_shell_tool_true tc Guard) as (tcf & fn & -> & Fn).
    unfold Py.getitem, Py.get. rewrite Fn. cbn [Py.bind].
    unfold try_except, any_exception.
    match goal with
    | |- exists c, match ?body with Ok a => _ | Raise e => _ end = _ =>
        destruct body; eexists; reflexivity
    end.
  - intros tcf fn arguments -> Fn Args Bad.
    unfold scan_tool_call. rewrite Guard. cbn [Py.bind].
    destruct is_bash; [ | reflexivity ].
    unfold Py.getitem, Py.get, loads. rewrite Fn. cbn [Py.bind].
    rewrite Args. cbn [Py.bind].
    destruct (json_loads arguments) as [ [ | | | | | kv ] | ]; try reflexivity.
    exfalso. exact (Bad kv eq_refl).
Qed.

(** X4.  A reply whose tool calls give no command and whose content is a
    string that, once stripped, parses to a JSON object with a truthy value
    under "command": the sniffer returns that value and does not try the
    multi-channel decode. *)
Theorem bare_json_content_is_the_command
        (msg c1 v reasoning_ : value) (text : string)
        (kv : list (string * value)) :
  sniff_tool_calls msg = Ok c1 ->
  truthy c1 = false ->
  text <> EmptyString ->
  json_loads (Text.strip text) = Ok (JObj kv) ->
  Py.lookup "command" kv = Some v ->
  truthy v = true ->
  sniff_bare_json c1 (JStr text) = Ok v
  /\ tries_harmony v = false
  /\ sniff msg (JStr text) reasoning_ = Ok v.
Proof.
  intros Tool Falsy Nonempty Loads Cmd Truthy.
  assert (Bare : sniff_bare_json c1 (JStr text) = Ok v).
  { unfold sniff_bare_json, tries_bare_json. rewrite Falsy.
    apply truthy_str in Nonempty. rewrite Nonempty. cbn [negb andb].
    unfold Py.str_strip, loads. cbn [Py.bind]. rewrite Loads.
    cbn [Py.bind Py.contains Py.getitem]. rewrite Cmd. reflexivity. }
  split; [ exact Bare | ].
  split; [ unfold tries_harmony; rewrite Truthy; reflexivity | ].
  unfold sniff. rewrite Tool. cbn [Py.bind]. rewrite Bare. cbn [Py.bind].
  unfold sniff_harmony, tries_harmony. rewrite Truthy. reflexivity.
Qed.

(** X5.  A reply in plain text gives no command.  When the tool calls give
    none, [json.loads] raises [JSONDecodeError] on the stripped content,
    and either the text built from reasoning and content lacks
    "execute_bash" or the decoder raises, the sniffer returns the falsy
    command it had, without raising.  The handler names that class only:
    when [json.loads] raises anything else on a content that is not empty,
    as it does on brackets nested too deep, the sniffer raises it, and so
    does the pass of the loop that reads the reply. *)
Theorem plain_reply_has_no_command
        (msg c1 reasoning_ : value) (text : string) (e : exn) :
  sniff_tool_calls msg = Ok c1 ->
  truthy c1 = false ->
  json_loads (Text.strip text) = Raise e ->
  (exn_cls e = JSONDecodeError ->
   Text.contains "execute_bash"
     (Text.strip (py_str reasoning_ ++ Text.nl ++ text)) = false
   \/ (exists e',
          harmony_decode None (Text.strip (py_str reasoning_ ++ Text.nl ++ text))
          = Raise e') ->
   sniff msg (JStr text) reasoning_ = Ok c1)
  /\ (exn_cls e <> JSONDecodeError ->
      text <> EmptyString ->
      sniff msg (JStr text) reasoning_ = Raise e).
Proof.
  intros Tool Falsy Loads. split.
  - intros Class Marker.
    unfold sniff. rewrite Tool. cbn [Py.bind].
    rewrite (sniff_bare_json_not_json c1 text e Loads Class). cbn [Py.bind].
    unfold sniff_harmony, tries_harmony. rewrite Falsy. cbn [negb py_str].
    destruct Marker as [ Marker | (e' & Decode) ].
    + rewrite Marker. reflexivity.
    + rewrite Decode.
      destruct (Text.contains _ _); reflexivity.
  - intros Class Nonempty.
    unfold sniff. rewrite Tool. cbn [Py.bind].
    unfold sniff_bare_json, tries_bare_json. rewrite Falsy.
    apply truthy_str in Nonempty. rewrite Nonempty. cbn [negb andb].
    unfold Py.str_strip, loads. cbn [Py.bind]. rewrite Loads.
    cbn [Py.bind]. unfold try_except.
    apply is_class_false in Class. rewrite Class. reflexivity.
Qed.

End MoreSniffFacts.

(** A message for another recipient and one with a payload that is not
    JSON are passed over; the third message decides, the fourth is not
    read. *)
Lemma extract_command_first_object_decides_witness :
  BashAgent.extract_command (W := Demo.shell_world)
    [Demo.decoded "analysis" "thinking";
     Scenario.to_tool "not json";
     Scenario.to_tool (Demo.payload_command "ls");
     Scenario.to_tool (Demo.payload_command "pwd")]
  = Ok (JStr "ls").
Proof.
  apply (extract_command_first_object_decides (W := Demo.shell_world)
           [Demo.decoded "analysis" "thinking"; Scenario.to_tool "not json"]
           [Scenario.to_tool (Demo.payload_command "pwd")]
           (Scenario.to_tool (Demo.payload_command "ls"))
           (Demo.payload_command "ls") [] [("command", JStr "ls")]);
    try reflexivity.
  constructor; [ left; reflexivity | ].
  constructor; [ right; reflexivity | constructor ].
Defined.

(** A payload that is not JSON is passed over; a payload of brackets
    nested too deep makes [extract_command] raise [RecursionError], with
    a usable message behind it. *)
Lemma extract_command_raises_only_from_json_loads_witness :
  BashAgent.extract_command (W := Scenario.deep_world)
    [Scenario.to_tool "not json"; Scenario.to_tool (Demo.payload_command "ls")]
  = BashAgent.extract_command (W := Scenario.deep_world)
      [Scenario.to_tool (Demo.payload_command "ls")]
  /\ BashAgent.extract_command (W := Scenario.deep_world)
       [Scenario.to_tool Scenario.deep_text;
        Scenario.to_tool (Demo.payload_command "ls")]
     = Raise Scenario.recursion_error.
Proof.
  destruct (extract_command_raises_only_from_json_loads (W := Scenario.deep_world))
    as (_ & Through & _ & Skip).
  split.
  - apply Skip. vm_compute. reflexivity.
  - apply (Through (Scenario.to_tool Scenario.deep_text)
                   [Scenario.to_tool (Demo.payload_command "ls")]
                   Scenario.deep_text [] Scenario.recursion_error);
      [ reflexivity | reflexivity | vm_compute; reflexivity | reflexivity ].
Defined.

(** A call to the shell tool whose arguments are not JSON keeps the command
    found before it. *)
Lemma tool_call_arguments_never_raise_witness :
  BashAgent.scan_tool_call (W := Demo.shell_world) (JStr "ls")
    (Demo.tool_call "execute_bash" "not json")
  = Ok (JStr "ls").
Proof.
  destruct (tool_call_arguments_never_raise (W := Demo.shell_world) (JStr "ls")
              (Demo.tool_call "execute_bash" "not json") true eq_refl)
    as (_ & Kept).
  apply (Kept [("id", JStr "call_1"); ("type", JStr "function");
               ("function", JObj [("name", JStr "execute_bash");
                                  ("arguments", JStr "not json")])]
              [("name", JStr "execute_bash"); ("arguments", JStr "not json")]
              "not json");
    try reflexivity.
  intros kv Loaded. discriminate Loaded.
Defined.

Lemma bare_json_content_is_the_command_witness :
  BashAgent.sniff (W := Demo.shell_world)
    (Demo.message_text (Demo.payload_command "ls"))
    (JStr (Demo.payload_command "ls")) (JStr "")
  = Ok (JStr "ls").
Proof.
  apply (bare_json_content_is_the_command (W := Demo.shell_world)
           (Demo.message_text (Demo.payload_command "ls")) JNull (JStr "ls")
           (JStr "") (Demo.payload_command "ls") [("command", JStr "ls")]);
    try reflexivity.
  discriminate.
Defined.

(** A plain answer gives no command; a content of brackets nested too
    deep makes the sniffer raise [RecursionError]. *)
Lemma plain_reply_has_no_command_witness :
  BashAgent.sniff (W := Scenario.deep_world)
    (Demo.message_text "All done.") (JStr "All done.") (JStr "")
  = Ok JNull
  /\ BashAgent.sniff (W := Scenario.deep_world)
       (Demo.message_text Scenario.deep_text) (JStr Scenario.deep_text) (JStr "")
     = Raise Scenario.recursion_error.
Proof.
  split.
  - apply (plain_reply_has_no_command (W := Scenario.deep_world)
             (Demo.message_text "All done.") JNull (JStr "") "All done."
             (Exn JSONDecodeError "Expecting value: line 1 column 1 (char 0)")
             eq_refl eq_refl);
      [ vm_compute; reflexivity | reflexivity | left; vm_compute; reflexivity ].
  - apply (plain_reply_has_no_command (W := Scenario.deep_world)
             (Demo.message_text Scenario.deep_text) JNull (JStr "")
             Scenario.deep_text Scenario.recursion_error eq_refl eq_refl);
      [ vm_compute; reflexivity | discriminate | ].
    intro Empty.
    apply (f_equal (fun s => match s with EmptyString => true | _ => false end))
      in Empty.
    vm_compute in Empty. discriminate Empty.
Defined.

(* ================================================================== *)
(** ** More on the agent loop                                          *)
(* ================================================================== *)

Section MoreLoopFacts.
Context {W : World}.
Import BashAgent.

Lemma appended_length (k : nat) (tail : list Message) :
  appended k tail -> List.length tail <= 2 * k.
Proof.
  induction 1 as [ | n turns a t _ _ _ IH | n turns f _ _ IH | n turns _ IH ];
    cbn [List.length]; lia.
Qed.

(** X6.  A run makes at most [max_iterations] passes, and none when the
    bound is zero or negative: it then returns [None] with the three seed
    turns untouched.  The conversation it leaves has the three seed turns
    and at most two more for each pass. *)
Theorem run_is_bounded (user_task : string) (max_iterations : Z) (verbose : bool) :
  iterations (run_bash_agent user_task max_iterations verbose)
  <= Z.to_nat max_iterations
  /\ 3 <= List.length (log (run_bash_agent user_task max_iterations verbose))
  /\ List.length (log (run_bash_agent user_task max_iterations verbose))
     <= 3 + 2 * iterations (run_bash_agent user_task max_iterations verbose)
  /\ ((max_iterations <= 0)%Z ->
      run_bash_agent user_task max_iterations verbose
      = {| log := initial_messages user_task; iterations := 0;
           returned := Ok JNull |}).
Proof.
  unfold run_bash_agent.
  destruct (agent_loop_appends verbose (Z.to_nat max_iterations) 0
                               (initial_state user_task))
    as (k & tail & Iter & Bound & Log & Tail).
  apply appended_length in Tail.
  rewrite Iter, Log, length_app. cbn [initial_state conversation plus].
  change (List.length (initial_messages user_task)) with 3.
  repeat split; try lia.
  intro Nonpositive.
  replace (Z.to_nat max_iterations) with 0 by lia. reflexivity.
Qed.

(** X7.  An answer found in one pass is lost when the endpoint fails in the
    next.  If the first reply gives no command and an answer that the
    library takes as the text of a final turn, its finish reason is not
    "stop", and the call that follows raises, the run returns [None] after
    two passes, although the answer stays in the conversation. *)
Theorem endpoint_failure_discards_the_answer
        (user_task : string) (max_iterations : Z) (verbose : bool)
        (response reason : value) (r : Reply) (answer_turn : Message)
        (e : exn) :
  (2 <= max_iterations)%Z ->
  call_model (initial_messages user_task) = Ok response ->
  analyse verbose response = Ok (Some r) ->
  truthy (command r) = false ->
  truthy (py_or (reply_content r) (reasoning r)) = true ->
  final_turn (py_or (reply_content r) (reasoning r)) = Ok answer_turn ->
  Py.get (choice r) "finish_reason" JNull = Ok reason ->
  Py.eq_str reason "stop" = false ->
  call_model (initial_messages user_task ++ [answer_turn]) = Raise e ->
  run_bash_agent user_task max_iterations verbose
  = {| log := initial_messages user_task ++ [answer_turn];
       iterations := 2;
       returned := Ok JNull |}.
Proof.
  intros Bound Call An Falsy Answer Built Finish Goes_on Fails.
  unfold run_bash_agent.
  destruct (Z.to_nat max_iterations) as [ | [ | remaining ] ] eqn:Fuel; try lia.
  cbn [agent_loop].
  rewrite (iteration_final verbose (initial_state user_task) response reason r
             answer_turn Call An Falsy (fun _ => Built) Finish).
  rewrite Goes_on, Answer. cbn [initial_state conversation].
  unfold iteration. cbn [conversation]. rewrite Fails. reflexivity.
Qed.

(** When every reply gives a command and a text the library takes for the
    call turn, the loop runs to its bound. *)
Lemma agent_loop_commands_only (verbose : bool) (remaining done : nat) (st : State) :
  (forall conv, exists response r call,
        call_model conv = Ok response
        /\ analyse verbose response = Ok (Some r)
        /\ truthy (command r) = true
        /\ assistant_turn r = Ok call) ->
  iterations (agent_loop verbose remaining done st) = done + remaining
  /\ returned (agent_loop verbose remaining done st) = Ok (final_response st)
  /\ List.length (log (agent_loop verbose remaining done st))
     = List.length (conversation st) + 2 * remaining.
Proof.
  intro Always. revert done st.
  induction remaining as [ | remaining IH ]; intros done st.
  - cbn. repeat split; lia.
  - destruct (Always (conversation st))
      as (response & r & call & Call & An & Truthy & Built).
    destruct (execute_bash_command_total (command r) default_cwd)
      as (output & code & Exec).
    cbn [agent_loop].
    rewrite (iteration_command verbose st response r output code call
               Call An Truthy Exec Built).
    destruct (IH (S done)
                 {| conversation :=
                      conversation st
                      ++ [call; tool_turn (command r) code output];
                    final_response := final_response st |})
      as (Iter & Ret & Len).
    rewrite Iter, Ret, Len. cbn [conversation final_response].
    rewrite length_app. cbn [List.length]. repeat split; lia.
Qed.

(** X8.  A model that asks for a command in every reply, each time with a
    text the library takes for the call turn, gets no answer out of the
    loop: the run uses all its passes, appends two turns in each, and
    returns [None].  A string is such a text, [None] is not: the first
    reply that asks for a command with [null] for both its content and its
    reasoning text ends the run with the exception of the library. *)
Theorem commands_only_exhaust_the_bound
        (user_task : string) (max_iterations : Z) (verbose : bool) :
  ((forall conv, exists response r call,
         call_model conv = Ok response
         /\ analyse verbose response = Ok (Some r)
         /\ truthy (command r) = true
         /\ assistant_turn r = Ok call) ->
   iterations (run_bash_agent user_task max_iterations verbose)
   = Z.to_nat max_iterations
   /\ returned (run_bash_agent user_task max_iterations verbose) = Ok JNull
   /\ List.length (log (run_bash_agent user_task max_iterations verbose))
      = 3 + 2 * Z.to_nat max_iterations)
  /\ (forall response r,
         (1 <= max_iterations)%Z ->
         call_model (initial_messages user_task) = Ok response ->
         analyse verbose response = Ok (Some r) ->
         truthy (command r) = true ->
         py_or (reply_content r) (reasoning r) = JNull ->
         exists e,
           exn_cls e = ValidationError
           /\ run_bash_agent user_task max_iterations verbose
              = {| log := initial_messages user_task;
                   iterations := 1;
                   returned := Raise e |}).
Proof.
  split.
  - intro Always. unfold run_bash_agent.
    destruct (agent_loop_commands_only verbose (Z.to_nat max_iterations) 0
                (initial_state user_task) Always) as (Iter & Ret & Len).
    rewrite Iter, Ret, Len. repeat split.
  - intros response r Bound Call An Truthy Nothing.
    unfold run_bash_agent.
    destruct (Z.to_nat max_iterations) as [ | remaining ] eqn:Fuel; try lia.
    cbn [agent_loop].
    rewrite (iteration_command_refused verbose (initial_state user_task)
               response r (Exn ValidationError "") Call An Truthy
               (assistant_turn_of_none r Nothing)).
    exists (Exn ValidationError ""). split; reflexivity.
Qed.

Lemma assistant_turn_one_segment (r : Reply) (call : Message) :
  assistant_turn r = Ok call -> Conditions.one_segment call = true.
Proof.
  unfold assistant_turn.
  destruct (content_of_value (py_or (reply_content r) (reasoning r)));
    cbn [Py.bind]; intro Built; [ injection Built as <- | discriminate Built ].
  reflexivity.
Qed.

Lemma final_turn_one_segment (answer : value) (f : Message) :
  final_turn answer = Ok f -> Conditions.one_segment f = true.
Proof.
  unfold final_turn.
  destruct (content_of_value answer);
    cbn [Py.bind]; intro Built; [ injection Built as <- | discriminate Built ].
  reflexivity.
Qed.

(** Every turn the loop handles has exactly one segment. *)
Lemma agent_loop_one_segment (verbose : bool) (remaining done : nat) (st : State) :
  Forall (fun m => Conditions.one_segment m = true) (conversation st) ->
  Forall (fun m => Conditions.one_segment m = true)
         (log (agent_loop verbose remaining done st)).
Proof.
  revert done st. induction remaining as [ | remaining IH ]; intros done st Inv.
  - exact Inv.
  - cbn [agent_loop].
    assert (Step : Forall (fun m => Conditions.one_segment m = true)
                          (conversation (fst (iteration verbose st)))).
    { destruct (iteration_pass verbose st) as (added & -> & Pass).
      apply Forall_app. split; [ exact Inv | ].
      destruct Pass as [ response r output code call _ _ _ _ Built
                       | response r e _ _ _ _
                       | response r f _ _ _ _ Built
                       | response r e _ _ _ _ _
                       | response r _ _ _ _
                       | _ ];
        repeat constructor.
      - exact (assistant_turn_one_segment r call Built).
      - exact (final_turn_one_segment _ f Built). }
    destruct (iteration verbose st) as [ st' signal ]. cbn [fst] in Step.
    destruct signal; cbn [log]; try exact Step.
    apply IH. exact Step.
Qed.

End MoreLoopFacts.

Lemma run_is_bounded_witness :
  BashAgent.run_bash_agent (W := Demo.two_step_world) "list the files" (-1) true
  = {| BashAgent.log := BashAgent.initial_messages "list the files";
       BashAgent.iterations := 0;
       BashAgent.returned := Ok JNull |}.
Proof.
  destruct (run_is_bounded (W := Demo.two_step_world) "list the files" (-1) true)
    as (_ & _ & _ & Nothing).
  apply Nothing. lia.
Defined.

(** The partial answer is appended as a final turn, the next call cannot
    reach the endpoint, and the run returns [None]. *)
Lemma endpoint_failure_discards_the_answer_witness :
  BashAgent.run_bash_agent (W := Scenario.lost_answer_world) "list the files" 5 true
  = {| BashAgent.log :=
         BashAgent.initial_messages "list the files"
         ++ [with_channel "final"
               (from_role_and_content ASSISTANT (TextContent "Partial answer."))];
       BashAgent.iterations := 2;
       BashAgent.returned := Ok JNull |}.
Proof.
  apply (endpoint_failure_discards_the_answer (W := Scenario.lost_answer_world)
           "list the files" 5 true
           (Demo.reply (Demo.message_text "Partial answer.") (JStr "length"))
           (JStr "length")
           {| BashAgent.choice :=
                JObj [("index", JNum 0);
                      ("message", Demo.message_text "Partial answer.");
                      ("finish_reason", JStr "length")];
              BashAgent.reply_content := JStr "Partial answer.";
              BashAgent.reasoning := JStr "";
              BashAgent.command := JNull |}
           (with_channel "final"
              (from_role_and_content ASSISTANT (TextContent "Partial answer.")))
           (Exn OtherError "connection refused"));
    try reflexivity.
  lia.
Defined.

Lemma commands_only_exhaust_the_bound_witness :
  (BashAgent.iterations
     (BashAgent.run_bash_agent (W := Scenario.always_command_world)
        "list the files" 3 true) = 3
   /\ BashAgent.returned
        (BashAgent.run_bash_agent (W := Scenario.always_command_world)
           "list the files" 3 true) = Ok JNull
   /\ List.length
        (BashAgent.log
           (BashAgent.run_bash_agent (W := Scenario.always_command_world)
              "list the files" 3 true)) = 9)
  /\ exists e,
      exn_cls e = ValidationError
      /\ BashAgent.run_bash_agent (W := Scenario.null_reply_world)
           "list the files" 3 true
         = {| BashAgent.log := BashAgent.initial_messages "list the files";
              BashAgent.iterations := 1;
              BashAgent.returned := Raise e |}.
Proof.
  split.
  - apply (commands_only_exhaust_the_bound (W := Scenario.always_command_world)
             "list the files" 3 true).
    intro conv. exists Demo.reply_ls. do 2 eexists.
    split; [ reflexivity | ]. split; [ reflexivity | ]. split; reflexivity.
  - destruct (commands_only_exhaust_the_bound (W := Scenario.null_reply_world)
                "list the files" 3 true) as (_ & Refused).
    apply (Refused Scenario.reply_null_call
             {| BashAgent.choice :=
                  JObj [("index", JNum 0);
                        ("message", Scenario.message_null_call);
                        ("finish_reason", JStr "tool_calls")];
                BashAgent.reply_content := JNull;
                BashAgent.reasoning := JNull;
                BashAgent.command := JStr "ls" |});
      [ lia | reflexivity | reflexivity | reflexivity | reflexivity ].
Defined.

(* ================================================================== *)
(** ** The request sent to the endpoint                                *)
(* ================================================================== *)

Section EndpointFacts.
Context {H : Endpoint.Http} {W : World}.
Import BashAgent.

(** X9.  Without an API key, or with an empty one, [call_model] raises
    before any request is made, whatever the endpoint would answer; and a
    run allowed at least one pass then makes exactly one, returns [None]
    and leaves the three seed turns as they were. *)
Theorem missing_key_ends_the_run
        (user_task : string) (max_iterations : Z) (verbose : bool) :
  Endpoint.getenv "GPT_OSS_API_KEY" = None
  \/ Endpoint.getenv "GPT_OSS_API_KEY" = Some EmptyString ->
  (1 <= max_iterations)%Z ->
  (forall conversation,
      Endpoint.call_model conversation
      = Raise (Exn OtherError Endpoint.missing_key_message))
  /\ run_bash_agent (W := with_endpoint H W) user_task max_iterations verbose
     = {| log := initial_messages user_task; iterations := 1;
          returned := Ok JNull |}.
Proof.
  intros Key Bound.
  assert (Raises : forall conversation,
             Endpoint.call_model conversation
             = Raise (Exn OtherError Endpoint.missing_key_message)).
  { intro conversation. unfold Endpoint.call_model.
    destruct Key as [ -> | -> ]; reflexivity. }
  split; [ exact Raises | ].
  unfold run_bash_agent.
  destruct (Z.to_nat max_iterations) as [ | remaining ] eqn:Fuel; [ lia | ].
  cbn [agent_loop]. unfold iteration.
  change (@call_model (with_endpoint H W)) with (@Endpoint.call_model H).
  rewrite Raises. reflexivity.
Qed.

Lemma api_roles (conversation : list Message) :
  map Endpoint.api_role (Endpoint.api_messages conversation)
  = map (fun m => Endpoint.role_value (role (author m)))
        (filter Conditions.has_content conversation).
Proof.
  induction conversation as [ | msg rest IH ]; [ reflexivity | ].
  cbn [Endpoint.api_messages filter]. unfold Conditions.has_content at 1.
  destruct (content msg) as [ | c cs ]; [ exact IH | ].
  cbn [map Endpoint.api_role]. f_equal. exact IH.
Qed.

(** X10.  The request lists the messages that have content, in the order
    of the conversation and each under the name of its role; a message
    without content is left out, and a message made of text segments is
    sent as its texts joined by single blanks. *)
Theorem api_messages_keep_order (conversation : list Message) :
  map Endpoint.api_role (Endpoint.api_messages conversation)
  = map (fun m => Endpoint.role_value (role (author m)))
        (filter Conditions.has_content conversation)
  /\ (forall msg rest,
         content msg = [] ->
         Endpoint.api_messages (msg :: rest) = Endpoint.api_messages rest)
  /\ (forall msg rest text texts,
         content msg = map TextContent (text :: texts) ->
         Endpoint.api_messages (msg :: rest)
         = {| Endpoint.api_role := Endpoint.role_value (role (author msg));
              Endpoint.api_content := Text.join " " (text :: texts) |}
           :: Endpoint.api_messages rest).
Proof.
  split; [ apply api_roles | split ].
  - intros msg rest Empty. cbn [Endpoint.api_messages]. rewrite Empty. reflexivity.
  - intros msg rest text texts Texts. cbn [Endpoint.api_messages]. rewrite Texts.
    cbn [map]. f_equal. f_equal.
    assert (Parts : forall ts, Endpoint.content_parts (map TextContent ts) = ts).
    { induction ts as [ | t ts IH ]; [ reflexivity | ].
      cbn [map Endpoint.content_parts Endpoint.content_part]. rewrite IH.
      reflexivity. }
    change (TextContent text :: map TextContent texts)
      with (map TextContent (text :: texts)).
    rewrite Parts. reflexivity.
Qed.

Lemma api_messages_one_segment (conversation : list Message) :
  Forall (fun m => Conditions.one_segment m = true) conversation ->
  Forall2 (fun m sent =>
             exists c, content m = [c] /\ sent = Conditions.sent_as m c)
          conversation (Endpoint.api_messages conversation).
Proof.
  induction 1 as [ | m rest One _ IH ]; [ constructor | ].
  cbn [Endpoint.api_messages]. unfold Conditions.one_segment in One.
  destruct (content m) as [ | c [ | c' cs ] ] eqn:Segments;
    try discriminate One.
  constructor; [ | exact IH ].
  exists c. split; [ exact Segments | ].
  unfold Conditions.sent_as. cbn [Endpoint.content_parts].
  destruct (Endpoint.content_part c); reflexivity.
Qed.

Lemma Forall2_nth_error {A B : Type} (R : A -> B -> Prop)
      (l : list A) (l' : list B) (i : nat) (a : A) :
  Forall2 R l l' -> nth_error l i = Some a ->
  exists b, nth_error l' i = Some b /\ R a b.
Proof.
  intro All. revert i.
  induction All as [ | x y l l' Rxy _ IH ]; intros i Nth.
  - destruct i; discriminate Nth.
  - destruct i as [ | i ].
    + injection Nth as <-. exists y. split; [ reflexivity | exact Rxy ].
    + exact (IH i Nth).
Qed.

(** X11.  Every turn of the conversation a run leaves, seed turns and
    appended turns alike, has exactly one segment, and the request built
    from that conversation has one entry for each turn, in order: the name
    of the role of the turn with what its segment gives.  So a turn whose
    segment is a text is sent, at its own position, with exactly that
    text. *)
Theorem every_turn_is_sent
        (user_task : string) (max_iterations : Z) (verbose : bool) :
  Forall2 (fun m sent =>
             exists c, content m = [c] /\ sent = Conditions.sent_as m c)
          (log (run_bash_agent user_task max_iterations verbose))
          (Endpoint.api_messages
             (log (run_bash_agent user_task max_iterations verbose)))
  /\ (forall i m text,
         nth_error (log (run_bash_agent user_task max_iterations verbose)) i
         = Some m ->
         content m = [TextContent text] ->
         nth_error
           (Endpoint.api_messages
              (log (run_bash_agent user_task max_iterations verbose))) i
         = Some {| Endpoint.api_role := Endpoint.role_value (role (author m));
                   Endpoint.api_content := text |}).
Proof.
  assert (All : Forall2 (fun m sent =>
                           exists c, content m = [c]
                                     /\ sent = Conditions.sent_as m c)
                        (log (run_bash_agent user_task max_iterations verbose))
                        (Endpoint.api_messages
                           (log (run_bash_agent user_task max_iterations verbose)))).
  { apply api_messages_one_segment.
    unfold run_bash_agent. apply agent_loop_one_segment.
    repeat constructor. }
  split; [ exact All | ].
  intros i m text Nth Segment.
  destruct (Forall2_nth_error _ _ _ i m All Nth) as (sent & Sent & c & Only & ->).
  rewrite Segment in Only. injection Only as <-. exact Sent.
Qed.

End EndpointFacts.

(** The call turn of the two-step run is the fourth turn of the
    conversation, and the fourth entry of the request. *)
Lemma every_turn_is_sent_witness :
  nth_error
    (Endpoint.api_messages (H := Scenario.no_key)
       (BashAgent.log
          (BashAgent.run_bash_agent (W := Demo.two_step_world)
             "list the files" 5 true))) 5
  = Some {| Endpoint.api_role := "assistant";
            Endpoint.api_content := "Two entries: README.md and src." |}.
Proof.
  destruct (every_turn_is_sent (H := Scenario.no_key) (W := Demo.two_step_world)
              "list the files" 5 true) as (_ & Text).
  apply (Text 5
           (with_channel "final"
              (from_role_and_content ASSISTANT
                 (TextContent "Two entries: README.md and src.")))
           "Two entries: README.md and src.");
    reflexivity.
Defined.

Lemma missing_key_ends_the_run_witness :
  BashAgent.run_bash_agent
    (W := with_endpoint Scenario.no_key Demo.shell_world) "list the files" 5 true
  = {| BashAgent.log := BashAgent.initial_messages "list the files";
       BashAgent.iterations := 1;
       BashAgent.returned := Ok JNull |}.
Proof.
  destruct (missing_key_ends_the_run (H := Scenario.no_key) (W := Demo.shell_world)
              "list the files" 5 true) as (_ & Run).
  - left. reflexivity.
  - lia.
  - exact Run.
Defined.

(** A turn with two text segments is sent as one text. *)
Lemma api_messages_keep_order_witness :
  Endpoint.api_messages (H := Scenario.no_key)
    [{| author := {| role := ASSISTANT; name := None |}; recipient := None;
        channel := Some "final";
        content := [TextContent "Two entries:"; TextContent "README.md and src."] |};
     {| author := {| role := USER; name := None |}; recipient := None;
        channel := None; content := [] |}]
  = [{| Endpoint.api_role := "assistant";
        Endpoint.api_content := "Two entries: README.md and src." |}].
Proof.
  destruct (api_messages_keep_order (H := Scenario.no_key) []) as (_ & Empty & Texts).
  rewrite (Texts
             {| author := {| role := ASSISTANT; name := None |}; recipient := None;
                channel := Some "final";
                content := [TextContent "Two entries:";
                            TextContent "README.md and src."] |}
             [{| author := {| role := USER; name := None |}; recipient := None;
                 channel := None; content := [] |}]
             "Two entries:" ["README.md and src."] eq_refl).
  rewrite (Empty {| author := {| role := USER; name := None |}; recipient := None;
                    channel := None; content := [] |} [] eq_refl).
  reflexivity.
Defined.

(* ================================================================== *)
(** ** More on the sniffer over decoded text                           *)
(* ================================================================== *)

Section MoreTextSnifferFacts.
Context {W : World}.
Import Temp.

(** The first message that returns a command ends the call with it. *)
Lemma extract_of_first_return
      (text : string) (pre post : list Message) (m : Message)
      (hdl_pre : bool) (command : value) :
  Text.strip text <> EmptyString ->
  harmony_decode (Some ASSISTANT) (truncate_calls text) = Ok (pre ++ m :: post) ->
  scan_messages false pre = Ok (MessageNext hdl_pre) ->
  scan_message m = Ok (MessageReturn command) ->
  extract_command_from_text text = Ok command.
Proof.
  intros Nonempty Decode Pre Scan.
  apply extract_of_answer; [ exact Nonempty | ].
  unfold harmony_path. rewrite Decode. cbn [Py.bind].
  rewrite scan_messages_app, Pre. cbn [Py.bind scan_messages].
  rewrite Scan. reflexivity.
Qed.



(** X14.  Text on the [analysis] channel on which [json.loads] raises
    [JSONDecodeError] goes through both helpers, and is returned,
    stripped, exactly when [looks_like_shell_command] accepts it and
    [looks_like_hdl_code] does not.  When the shell helper accepts it and
    the HDL helper accepts it too, or when the shell helper refuses it,
    the segment gives nothing and the scan goes on with the segments after
    it: a message made of that one segment gives no command and does not
    set the HDL flag, and when it is the only message decoded the call
    returns [None]. *)
Theorem raw_analysis_text_is_filtered
        (m : Message) (segment : string) (items : list Content) (e : exn) :
  channel m = Some "analysis" ->
  content m = TextContent segment :: items ->
  json_loads segment = Raise e ->
  exn_cls e = JSONDecodeError ->
  (looks_like_shell_command (Text.strip segment) = Ok true ->
   looks_like_hdl_code (JStr (Text.strip segment)) = Ok false ->
   scan_message m = Ok (MessageReturn (JStr (Text.strip segment)))
   /\ forall text pre post hdl_pre,
       Text.strip text <> EmptyString ->
       harmony_decode (Some ASSISTANT) (truncate_calls text)
       = Ok (pre ++ m :: post) ->
       scan_messages false pre = Ok (MessageNext hdl_pre) ->
       extract_command_from_text text = Ok (JStr (Text.strip segment)))
  /\ ((looks_like_shell_command (Text.strip segment) = Ok true
       /\ looks_like_hdl_code (JStr (Text.strip segment)) = Ok true)
      \/ looks_like_shell_command (Text.strip segment) = Ok false ->
      scan_analysis (TextContent segment :: items) = scan_analysis items
      /\ (items = [] ->
          scan_message m = Ok (MessageNext false)
          /\ forall text,
              Text.strip text <> EmptyString ->
              harmony_decode (Some ASSISTANT) (truncate_calls text) = Ok [m] ->
              extract_command_from_text text = Ok JNull)).
Proof.
  intros Channel Items Loads Class.
  assert (Item : analysis_item (TextContent segment)
                 = (shell <- looks_like_shell_command (Text.strip segment) ;;
                    if shell then
                      hdl <- looks_like_hdl_code (JStr (Text.strip segment)) ;;
                      if negb hdl
                      then Ok (ItemReturn (JStr (Text.strip segment)))
                      else Ok ItemNext
                    else Ok ItemNext)).
  { unfold analysis_item, loads. rewrite Loads. cbn [Py.bind].
    unfold try_except. apply is_class_true in Class. rewrite Class.
    reflexivity. }
  assert (Scan : scan_message m
                 = (o <- scan_analysis (TextContent segment :: items) ;;
                    match o with
                    | MessageReturn command => Ok (MessageReturn command)
                    | MessageNext hdl => Ok (MessageNext hdl)
                    end)).
  { unfold scan_message, is_command_channel, channel_is. rewrite Channel.
    cbn [String.eqb Ascii.eqb Bool.eqb orb]. rewrite Items. reflexivity. }
  split.
  - intros Shell Hdl.
    assert (Return : scan_message m
                     = Ok (MessageReturn (JStr (Text.strip segment)))).
    { rewrite Scan. cbn [scan_analysis]. rewrite Item, Shell. cbn [Py.bind].
      rewrite Hdl. reflexivity. }
    split; [ exact Return | ].
    intros text pre post hdl_pre Nonempty Decode Pre.
    apply (extract_of_first_return text pre post m hdl_pre); assumption.
  - intro Refused.
    assert (Next : analysis_item (TextContent segment) = Ok ItemNext).
    { rewrite Item. destruct Refused as [ (Shell & Hdl) | Shell ].
      - rewrite Shell. cbn [Py.bind]. rewrite Hdl. reflexivity.
      - rewrite Shell. reflexivity. }
    assert (Rest : scan_analysis (TextContent segment :: items)
                   = scan_analysis items).
    { cbn [scan_analysis]. rewrite Next. reflexivity. }
    split; [ exact Rest | ].
    intros ->.
    assert (Nothing : scan_message m = Ok (MessageNext false)).
    { rewrite Scan, Rest. reflexivity. }
    split; [ exact Nothing | ].
    intros text Nonempty Decode.
    apply extract_of_answer; [ exact Nonempty | ].
    unfold harmony_path. rewrite Decode. cbn [Py.bind scan_messages].
    rewrite Nothing. reflexivity.
Qed.

End MoreTextSnifferFacts.



(** [ls -la] written as plain text on the analysis channel is returned
    when the shell helper accepts it; a line of Verilog that both helpers
    accept is not, and neither is a text the shell helper refuses. *)
Lemma raw_analysis_text_is_filtered_witness :
  Temp.scan_message (W := Scenario.channel_world "analysis" "ls -la" true)
    (Demo.decoded "analysis" "ls -la")
  = Ok (Temp.MessageReturn (JStr "ls -la"))
  /\ (Temp.scan_message
        (W := Scenario.channel_world "analysis" Demo.hdl_text true)
        (Demo.decoded "analysis" Demo.hdl_text)
      = Ok (Temp.MessageNext false)
      /\ Temp.extract_command_from_text
           (W := Scenario.channel_world "analysis" Demo.hdl_text true)
           (Demo.analysis_text Demo.hdl_text)
         = Ok JNull)
  /\ Temp.scan_message (W := Scenario.channel_world "analysis" "ls -la" false)
       (Demo.decoded "analysis" "ls -la")
     = Ok (Temp.MessageNext false).
Proof.
  split; [ | split ].
  - destruct (raw_analysis_text_is_filtered
                (W := Scenario.channel_world "analysis" "ls -la" true)
                (Demo.decoded "analysis" "ls -la") "ls -la" []
                (Exn JSONDecodeError "Expecting value: line 1 column 1 (char 0)")
                eq_refl eq_refl eq_refl eq_refl) as (Accepted & _).
    destruct (Accepted eq_refl eq_refl) as (Return & _). exact Return.
  - destruct (raw_analysis_text_is_filtered
                (W := Scenario.channel_world "analysis" Demo.hdl_text true)
                (Demo.decoded "analysis" Demo.hdl_text) Demo.hdl_text []
                (Exn JSONDecodeError "Expecting value: line 1 column 1 (char 0)")
                eq_refl eq_refl eq_refl eq_refl) as (_ & Refused).
    destruct (Refused (or_introl (conj eq_refl eq_refl))) as (_ & Alone).
    destruct (Alone eq_refl) as (Nothing & Call).
    split; [ exact Nothing | ].
    apply Call; [ vm_compute; discriminate | reflexivity ].
  - destruct (raw_analysis_text_is_filtered
                (W := Scenario.channel_world "analysis" "ls -la" false)
                (Demo.decoded "analysis" "ls -la") "ls -la" []
                (Exn JSONDecodeError "Expecting value: line 1 column 1 (char 0)")
                eq_refl eq_refl eq_refl eq_refl) as (_ & Refused).
    destruct (Refused (or_intror eq_refl)) as (_ & Alone).
    destruct (Alone eq_refl) as (Nothing & _). exact Nothing.
Defined.

(* ================================================================== *)
(** ** More on the truncation and on the fallback scan                 *)
(* ================================================================== *)

Section MoreStringFacts.
Import Text.

Lemma append_empty_r (s : string) : (s ++ "")%string = s.
Proof. induction s as [ | c s IH ]; cbn; [ | rewrite IH ]; reflexivity. Qed.

Lemma drop_prefix_same (p rest : string) : drop_prefix p (p ++ rest) = Some rest.
Proof.
  induction p as [ | a p IH ]; cbn; [ reflexivity | ].
  rewrite Ascii.eqb_refl. exact IH.
Qed.

(** A test for a prefix reads no further than the length of the prefix. *)
Lemma drop_prefix_long (p a x : string) :
  String.length p <= String.length a ->
  drop_prefix p (a ++ x)
  = match drop_prefix p a with
    | Some rest => Some (rest ++ x)%string
    | None => None
    end.
Proof.
  revert a. induction p as [ | c p IH ]; intros a Len; cbn.
  - reflexivity.
  - destruct a as [ | d a ]; [ cbn in Len; lia | ]. cbn.
    destruct (Ascii.eqb c d); [ | reflexivity ].
    apply IH. cbn in Len. lia.
Qed.

Lemma drop_prefix_none_short (p a x : string) :
  drop_prefix p (a ++ x) = None -> drop_prefix p a = None.
Proof.
  intro None_. destruct (drop_prefix p a) as [ rest | ] eqn:Drop; [ | reflexivity ].
  apply drop_prefix_app in Drop. subst a.
  rewrite append_assoc, drop_prefix_same in None_. discriminate None_.
Qed.

Lemma find_at_start (p rest : string) :
  find p (p ++ rest) = Some (EmptyString, rest).
Proof.
  pose proof (drop_prefix_same p rest) as Drop.
  destruct (p ++ rest)%string; cbn [find]; rewrite Drop; reflexivity.
Qed.

Lemma find_cons (p : string) (c : ascii) (s before after : string) :
  find p (String c s) = Some (String c before, after) ->
  drop_prefix p (String c s) = None /\ find p s = Some (before, after).
Proof.
  cbn [find]. destruct (drop_prefix p (String c s)); [ discriminate | ].
  destruct (find p s) as [ [ b a ] | ]; [ | discriminate ].
  intro H. injection H as <- <-. split; reflexivity.
Qed.

(** Where the first occurrence lies depends on the text up to its end. *)
Lemma find_first (p before x y : string) :
  find p (before ++ p ++ x) = Some (before, x) ->
  find p (before ++ p ++ y) = Some (before, y).
Proof.
  induction before as [ | c before IH ]; intro Find.
  - cbn [append]. apply find_at_start.
  - cbn [append] in Find |- *. apply find_cons in Find.
    destruct Find as (Drop & Find). cbn [find].
    assert (Drop' : drop_prefix p (String c (before ++ p ++ y)) = None).
    { change (String c (before ++ p ++ x))
        with ((String c before) ++ (p ++ x))%string in Drop.
      change (String c (before ++ p ++ y))
        with ((String c before) ++ (p ++ y))%string.
      rewrite <- append_assoc in Drop |- *.
      rewrite drop_prefix_long in Drop |- *;
        try (rewrite length_append; lia).
      destruct (drop_prefix p (String c before ++ p)); [ discriminate Drop | ].
      reflexivity. }
    rewrite Drop', (IH Find). reflexivity.
Qed.

(** Before the first occurrence there is none. *)
Lemma find_none_before (p before x : string) :
  p <> EmptyString ->
  find p (before ++ p ++ x) = Some (before, x) ->
  find p before = None.
Proof.
  intro Nonempty. induction before as [ | c before IH ]; intro Find.
  - apply find_in_empty. exact Nonempty.
  - cbn [append] in Find. apply find_cons in Find. destruct Find as (Drop & Find).
    cbn [find].
    change (String c (before ++ p ++ x))
      with ((String c before) ++ (p ++ x))%string in Drop.
    rewrite (drop_prefix_none_short _ _ _ Drop), (IH Find). reflexivity.
Qed.

Lemma count_fuel_none (fuel : nat) (sep s : string) :
  find sep s = None -> count_fuel fuel sep s = 0.
Proof. intro None_. destruct fuel; cbn [count_fuel]; [ | rewrite None_ ]; reflexivity. Qed.

(** The first [k + 1] parts joined hold [k] separators. *)
Lemma count_join_firstn (k fuel : nat) (sep s : string) :
  sep <> EmptyString ->
  k < count_fuel fuel sep s ->
  count sep (join sep (firstn (S k) (split_fuel fuel sep s))) = k.
Proof.
  intro Sep. revert fuel s. induction k as [ | k IH ]; intros fuel s Count;
    (destruct fuel as [ | fuel ]; [ cbn in Count; lia | ]);
    cbn [count_fuel split_fuel] in *;
    destruct (find sep s) as [ [ before after ] | ] eqn:Find;
    try (cbn in Count; lia);
    pose proof (find_app _ _ _ _ Find) as Eq; subst s.
  - cbn [firstn join String.concat]. unfold count.
    apply count_fuel_none. exact (find_none_before _ _ _ Sep Find).
  - apply PeanoNat.lt_S_n in Count. specialize (IH fuel after Count).
    destruct (split_fuel_cons fuel sep after) as (part & parts & Parts).
    rewrite Parts in IH |- *. cbn [firstn] in IH |- *.
    unfold join in IH |- *.
    change (String.concat sep (before :: part :: firstn k parts))
      with (before ++ sep ++ String.concat sep (part :: firstn k parts))%string.
    set (joined := String.concat sep (part :: firstn k parts)) in *.
    pose proof (find_first _ _ _ joined Find) as Find'.
    pose proof (nonempty_length _ Sep) as Positive.
    unfold count in IH |- *.
    destruct (String.length (before ++ sep ++ joined)) as [ | n ] eqn:Len;
      [ rewrite !length_append in Len; lia | ].
    cbn [count_fuel]. rewrite Find'. f_equal.
    rewrite <- IH. apply count_fuel_enough; [ exact Sep | | lia ].
    rewrite !length_append in Len. lia.
Qed.

(** X15.  What [truncate_calls] hands to the encoder is always a prefix of
    the text, holds at most ten call markers, exactly ten when the text was
    cut, and is left alone by a second truncation. *)
Theorem truncate_calls_keeps_ten_markers (text : string) :
  (exists rest, text = (Temp.truncate_calls text ++ rest)%string)
  /\ count Temp.call_marker (Temp.truncate_calls text) <= 10
  /\ (10 < count Temp.call_marker text ->
      count Temp.call_marker (Temp.truncate_calls text) = 10)
  /\ Temp.truncate_calls (Temp.truncate_calls text) = Temp.truncate_calls text.
Proof.
  assert (Marker : Temp.call_marker <> EmptyString) by discriminate.
  destruct (Nat.ltb_spec 10 (count Temp.call_marker text)) as [ Long | Short ].
  - assert (Ten : count Temp.call_marker (Temp.truncate_calls text) = 10).
    { unfold Temp.truncate_calls.
      destruct (Nat.ltb_spec 10 (count Temp.call_marker text)); [ | lia ].
      apply count_join_firstn; assumption. }
    split; [ | split; [ lia | split; [ intros _; exact Ten | ] ] ].
    + destruct (truncate_calls_long text Long)
        as (through & mid & rest & _ & Eq & _ & Cut).
      exists (Temp.call_marker ++ rest)%string.
      rewrite Cut, append_assoc. exact Eq.
    + apply truncate_calls_short. lia.
  - rewrite (truncate_calls_short text Short).
    split; [ exists EmptyString; symmetry; apply append_empty_r | ].
    split; [ exact Short | split; [ lia | apply truncate_calls_short; exact Short ] ].
Qed.

End MoreStringFacts.

Lemma truncate_calls_keeps_ten_markers_witness :
  Text.count Temp.call_marker (Temp.truncate_calls Demo.fifty_markers) = 10.
Proof.
  destruct (truncate_calls_keeps_ten_markers Demo.fifty_markers)
    as (_ & _ & Ten & _).
  apply Ten. vm_compute. lia.
Defined.

Section FallbackFacts.
Context {W : World}.
Import Text.

Lemma find_none_cons (p : string) (c : ascii) (s : string) :
  find p (String c s) = None ->
  drop_prefix p (String c s) = None /\ find p s = None.
Proof.
  cbn [find]. destruct (drop_prefix p (String c s)); [ discriminate | ].
  destruct (find p s) as [ [ b a ] | ]; [ discriminate | ].
  intros _. split; reflexivity.
Qed.

Lemma findall_fuel_empty (fuel : nat) : findall_fuel fuel EmptyString = [].
Proof. destruct fuel; reflexivity. Qed.

(** No block without a fence. *)
Lemma findall_without_fence (fuel : nat) (s : string) :
  find fence s = None -> findall_fuel fuel s = [].
Proof.
  revert s. induction fuel as [ | fuel IH ]; intros s None_; [ reflexivity | ].
  destruct s as [ | c s ]; [ reflexivity | ].
  apply find_none_cons in None_. destruct None_ as (Drop & None_).
  cbn [findall_fuel]. unfold match_code_block. rewrite Drop. apply IH. exact None_.
Qed.

(** X16.  The fallback takes a command from fenced blocks only: when the
    text left after the markers are removed holds no fence, the fallback
    scan finds nothing, and a call that falls through to it returns "no
    command".  Inline code and bare command lines are never returned. *)
Theorem fallback_needs_a_fence (text : string) :
  contains fence (Temp.strip_markers (strip text)) = false ->
  Temp.fallback_scan (strip text) = JNull
  /\ (Temp.harmony_guarded text = Ok Temp.FallThrough ->
      Temp.extract_command_from_text text = Ok JNull).
Proof.
  intro No_fence.
  assert (Scan : Temp.fallback_scan (strip text) = JNull).
  { unfold Temp.fallback_scan.
    destruct (Temp.strip_markers (strip text) =? "")%string; [ reflexivity | ].
    unfold findall_code_blocks. rewrite findall_without_fence; [ reflexivity | ].
    unfold contains in No_fence.
    destruct (find fence (Temp.strip_markers (strip text)));
      [ discriminate No_fence | reflexivity ]. }
  split; [ exact Scan | ].
  intro Fall. unfold Temp.extract_command_from_text.
  destruct (strip text =? "")%string; [ reflexivity | ].
  rewrite Fall. cbn [Py.bind]. rewrite Scan. reflexivity.
Qed.

(** *** A fenced command read back *)

Lemma lacks_app (c : ascii) (a b : string) :
  Conditions.lacks c (a ++ b) = (Conditions.lacks c a && Conditions.lacks c b)%bool.
Proof.
  induction a as [ | x a IH ]; cbn; [ reflexivity | ].
  rewrite IH, andb_assoc. reflexivity.
Qed.

Lemma lacks_drop_prefix (c : ascii) (p s : string) :
  Conditions.lacks c s = true -> drop_prefix (String c p) s = None.
Proof.
  destruct s as [ | x s ]; [ reflexivity | ]. intro Lacks.
  cbn [Conditions.lacks] in Lacks. cbn [drop_prefix]. rewrite Ascii.eqb_sym.
  destruct (Ascii.eqb x c); [ discriminate Lacks | reflexivity ].
Qed.

Lemma lacks_find (c : ascii) (p s : string) :
  Conditions.lacks c s = true -> find (String c p) s = None.
Proof.
  induction s as [ | x s IH ]; intro Lacks; [ reflexivity | ].
  cbn [find]. rewrite (lacks_drop_prefix c p _ Lacks).
  cbn in Lacks. apply andb_prop in Lacks. rewrite (IH (proj2 Lacks)). reflexivity.
Qed.

Lemma remove_all_absent (p s : string) : find p s = None -> remove_all p s = s.
Proof.
  intro None_. unfold remove_all, split.
  destruct (String.length s); cbn [split_fuel]; [ | rewrite None_ ]; reflexivity.
Qed.

Lemma remove_channel_headers_absent (fuel : nat) (s : string) :
  Conditions.lacks "<"%char s = true -> remove_channel_headers_fuel fuel s = s.
Proof.
  revert s. induction fuel as [ | fuel IH ]; intros s Lacks; [ reflexivity | ].
  destruct s as [ | c s ]; [ reflexivity | ].
  cbn [remove_channel_headers_fuel]. unfold match_channel_header.
  change "<|channel|>" with (String "<"%char "|channel|>").
  rewrite (lacks_drop_prefix _ _ _ Lacks).
  cbn in Lacks. apply andb_prop in Lacks. rewrite (IH s (proj2 Lacks)). reflexivity.
Qed.

Lemma rstrip_before_fence (a : string) : rstrip (a ++ fence) = (a ++ fence)%string.
Proof.
  induction a as [ | c a IH ]; [ reflexivity | ].
  cbn [append rstrip]. rewrite IH.
  destruct (a ++ fence)%string eqn:Tail; [ | reflexivity ].
  destruct a; discriminate Tail.
Qed.

Lemma lstrip_length (s : string) : String.length (lstrip s) <= String.length s.
Proof.
  induction s as [ | c s IH ]; cbn; [ lia | ].
  destruct (isspace c); cbn; lia.
Qed.

Lemma rstrip_length (s : string) : String.length (rstrip s) <= String.length s.
Proof.
  induction s as [ | c s IH ]; cbn; [ lia | ].
  destruct (rstrip s); [ destruct (isspace c) | ]; cbn in *; lia.
Qed.

(** A text that stripping leaves alone does not start with white space. *)
Lemma strip_fixed_head (c : ascii) (s : string) :
  strip (String c s) = String c s -> isspace c = false.
Proof.
  intro Fixed. destruct (isspace c) eqn:Space; [ | reflexivity ].
  apply (f_equal String.length) in Fixed. unfold strip in Fixed.
  cbn [lstrip] in Fixed. rewrite Space in Fixed.
  pose proof (rstrip_length (lstrip s)). pose proof (lstrip_length s).
  cbn [String.length] in Fixed. lia.
Qed.

(** The closing fence of a body without back quote is the first one. *)
Lemma find_closing_fence (body : string) :
  Conditions.lacks "`"%char body = true ->
  find (nl ++ fence) (body ++ nl ++ fence) = Some (body, EmptyString).
Proof.
  induction body as [ | c body IH ]; intro Lacks; [ reflexivity | ].
  cbn in Lacks. apply andb_prop in Lacks. destruct Lacks as (Head & Lacks).
  cbn [append find].
  assert (Drop : drop_prefix (nl ++ fence) (String c (body ++ nl ++ fence)) = None).
  { cbn [nl append drop_prefix]. destruct (Ascii.eqb LF c); [ | reflexivity ].
    change fence with (String "`"%char "``").
    destruct body as [ | d body ]; [ reflexivity | ].
    cbn [Conditions.lacks] in Lacks. apply andb_prop in Lacks.
    destruct Lacks as (Next & _).
    cbn [append drop_prefix]. rewrite Ascii.eqb_sym.
    destruct (Ascii.eqb d "`"%char); [ discriminate Next | reflexivity ]. }
  rewrite Drop, (IH Lacks). reflexivity.
Qed.
Lemma after_newlines_body (c : ascii) (rest : string) :
  isspace c = false ->
  after_newlines (String LF (String c rest)) = [String c rest].
Proof.
  intro Head. cbn [after_newlines]. change (isspace LF) with true.
  rewrite Ascii.eqb_refl, Head. reflexivity.
Qed.

Lemma match_block_body_fenced (c : ascii) (body : string) :
  isspace c = false ->
  Conditions.lacks "`"%char (String c body) = true ->
  match_block_body (nl ++ String c body ++ nl ++ fence)
  = Some (String c body, EmptyString).
Proof.
  intros Head Lacks. unfold match_block_body.
  change (nl ++ String c body ++ nl ++ fence)%string
    with (String LF (String c (body ++ nl ++ fence))).
  rewrite (after_newlines_body c _ Head).
  transitivity (first_some [find (nl ++ fence) (String c body ++ nl ++ fence)]);
    [ reflexivity | ].
  rewrite (find_closing_fence (String c body) Lacks). reflexivity.
Qed.

Lemma match_code_block_fenced (tag : string) (c : ascii) (body : string) :
  In tag ["bash"; "sh"; "shell"] ->
  isspace c = false ->
  Conditions.lacks "`"%char (String c body) = true ->
  match_code_block (Conditions.fenced tag (String c body))
  = Some (String c body, EmptyString).
Proof.
  intros Tag Head Lacks. unfold Conditions.fenced, match_code_block.
  rewrite drop_prefix_same.
  pose proof (match_block_body_fenced c body Head Lacks) as Body.
  set (rest := (nl ++ String c body ++ nl ++ fence)%string) in *.
  destruct Tag as [ <- | [ <- | [ <- | [] ] ] ].
  - transitivity (first_some [match_block_body rest; match_tag "sh" ("bash" ++ rest);
                              match_tag "shell" ("bash" ++ rest)]);
      [ reflexivity | ].
    cbn [first_some fold_right]. rewrite Body. reflexivity.
  - transitivity (first_some [None; match_block_body rest;
                              match_tag "shell" ("sh" ++ rest)]);
      [ reflexivity | ].
    cbn [first_some fold_right]. rewrite Body. reflexivity.
  - transitivity (first_some [None; None; match_block_body rest]);
      [ reflexivity | ].
    cbn [first_some fold_right]. rewrite Body. reflexivity.
Qed.

Lemma fenced_unchanged_by_strip (tag cmd : string) :
  strip (Conditions.fenced tag cmd) = Conditions.fenced tag cmd.
Proof.
  assert (Ends : Conditions.fenced tag cmd
                 = ((fence ++ tag ++ nl ++ cmd ++ nl) ++ fence)%string).
  { unfold Conditions.fenced. rewrite !append_assoc. reflexivity. }
  unfold strip.
  assert (Left : lstrip (Conditions.fenced tag cmd) = Conditions.fenced tag cmd)
    by reflexivity.
  rewrite Left, Ends. apply rstrip_before_fence.
Qed.

Lemma fenced_unchanged_by_strip_markers (tag cmd : string) :
  In tag ["bash"; "sh"; "shell"] ->
  Conditions.lacks "<"%char cmd = true ->
  Temp.strip_markers (Conditions.fenced tag cmd) = Conditions.fenced tag cmd.
Proof.
  intros Tag Lacks.
  assert (Clean : Conditions.lacks "<"%char (Conditions.fenced tag cmd) = true).
  { unfold Conditions.fenced. rewrite !lacks_app, Lacks.
    destruct Tag as [ <- | [ <- | [ <- | [] ] ] ]; reflexivity. }
  unfold Temp.strip_markers, remove_channel_headers.
  rewrite (remove_channel_headers_absent _ _ Clean).
  change "<|end|>" with (String "<"%char "|end|>").
  rewrite (remove_all_absent _ _ (lacks_find _ _ _ Clean)).
  change "<|start|>" with (String "<"%char "|start|>").
  rewrite (remove_all_absent _ _ (lacks_find _ _ _ Clean)).
  assert (Keep : remove_leading_assistant (Conditions.fenced tag cmd)
                 = Conditions.fenced tag cmd) by reflexivity.
  rewrite Keep. apply fenced_unchanged_by_strip.
Qed.

(** X17.  A command written between fences is read back as it was.  For a
    tag among bash, sh and shell and a command that is not empty, has no
    white space at either end and holds neither a back quote nor an opening
    angle bracket, the fallback scan of the fenced text gives the command,
    and so does the whole call when it falls through to the fallback. *)
Theorem fenced_command_is_read_back (tag cmd : string) :
  In tag ["bash"; "sh"; "shell"] ->
  cmd <> EmptyString ->
  strip cmd = cmd ->
  Conditions.plain_command cmd = true ->
  Temp.fallback_scan (Conditions.fenced tag cmd) = JStr cmd
  /\ (Temp.harmony_guarded (Conditions.fenced tag cmd) = Ok Temp.FallThrough ->
      Temp.extract_command_from_text (Conditions.fenced tag cmd) = Ok (JStr cmd)).
Proof.
  intros Tag Nonempty Stripped Plain.
  unfold Conditions.plain_command in Plain. apply andb_prop in Plain.
  destruct Plain as (No_quote & No_bracket).
  destruct cmd as [ | c body ]; [ contradiction | ].
  pose proof (strip_fixed_head c body Stripped) as Head.
  assert (Scan : Temp.fallback_scan (Conditions.fenced tag (String c body))
                 = JStr (String c body)).
  { unfold Temp.fallback_scan.
    rewrite (fenced_unchanged_by_strip_markers tag _ Tag No_bracket).
    assert (Blocks : findall_code_blocks (Conditions.fenced tag (String c body))
                     = [String c body]).
    { unfold findall_code_blocks.
      change (String.length (Conditions.fenced tag (String c body)))
        with (S (String.length
                   ("``" ++ tag ++ nl ++ String c body ++ nl ++ fence))).
      change (Conditions.fenced tag (String c body))
        with (String "`"%char
                     ("``" ++ tag ++ nl ++ String c body ++ nl ++ fence)) at 1.
      cbn [findall_fuel].
      change (String "`"%char ("``" ++ tag ++ nl ++ String c body ++ nl ++ fence))
        with (Conditions.fenced tag (String c body)).
      rewrite (match_code_block_fenced tag c body Tag Head No_quote).
      rewrite findall_fuel_empty. reflexivity. }
    rewrite Blocks.
    change (Conditions.fenced tag (String c body) =? "")%string with false.
    unfold Temp.joined_blocks. cbn [map join String.concat].
    rewrite Stripped. reflexivity. }
  split; [ exact Scan | ].
  intro Fall. unfold Temp.extract_command_from_text.
  rewrite fenced_unchanged_by_strip.
  change (Conditions.fenced tag (String c body) =? "")%string with false.
  rewrite Fall. cbn [Py.bind]. rewrite Scan. reflexivity.
Qed.

End FallbackFacts.

(** Inline code is not a fenced block: with the decoder missing, the call
    returns "no command". *)
Lemma fallback_needs_a_fence_witness :
  Temp.extract_command_from_text (W := Demo.shell_world)
    "Run `ls -la` to list the files."
  = Ok JNull.
Proof.
  destruct (fallback_needs_a_fence (W := Demo.shell_world)
              "Run `ls -la` to list the files.") as (_ & Falls).
  - vm_compute. reflexivity.
  - apply Falls. reflexivity.
Defined.

(** [ls -la] between fences tagged [sh], with the decoder missing. *)
Lemma fenced_command_is_read_back_witness :
  Temp.extract_command_from_text (W := Demo.shell_world)
    (Conditions.fenced "sh" "ls -la")
  = Ok (JStr "ls -la").
Proof.
  destruct (fenced_command_is_read_back (W := Demo.shell_world) "sh" "ls -la")
    as (_ & Falls).
  - right. left. reflexivity.
  - discriminate.
  - reflexivity.
  - reflexivity.
  - apply Falls. reflexivity.
Defined.

(* ================================================================== *)
(** ** More on the shell executor                                      *)
(* ================================================================== *)

Section MoreExecutorFacts.
Context {W : World}.
Import Text BashAgent.

Lemma lstrip_head (s r : string) (c : ascii) :
  lstrip s = String c r -> isspace c = false.
Proof.
  induction s as [ | x s IH ]; cbn [lstrip]; [ discriminate | ].
  destruct (isspace x) eqn:Space; [ exact IH | ].
  intro Eq. injection Eq as <- <-. exact Space.
Qed.

Lemma rstrip_cons (c : ascii) (s : string) :
  rstrip (String c s)
  = match rstrip s with
    | EmptyString => if isspace c then EmptyString else String c EmptyString
    | r => String c r
    end.
Proof. reflexivity. Qed.

Lemma rstrip_idempotent (s : string) : rstrip (rstrip s) = rstrip s.
Proof.
  induction s as [ | c s IH ]; [ reflexivity | ].
  rewrite rstrip_cons. destruct (rstrip s) as [ | d r ] eqn:Tail.
  - destruct (isspace c) eqn:Space; [ reflexivity | ].
    rewrite rstrip_cons. cbn [rstrip]. rewrite Space. reflexivity.
  - rewrite rstrip_cons, IH. reflexivity.
Qed.

Lemma rstrip_keeps_head (c : ascii) (s : string) :
  isspace c = false -> exists r, rstrip (String c s) = String c r.
Proof.
  intro Head. cbn [rstrip]. destruct (rstrip s); [ rewrite Head | ];
    eexists; reflexivity.
Qed.

Lemma strip_idempotent (s : string) : strip (strip s) = strip s.
Proof.
  unfold strip.
  assert (Left : lstrip (rstrip (lstrip s)) = rstrip (lstrip s)).
  { destruct (lstrip s) as [ | c r ] eqn:Stripped; [ reflexivity | ].
    pose proof (lstrip_head _ _ _ Stripped) as Head.
    destruct (rstrip_keeps_head c r Head) as (r' & ->).
    cbn [lstrip]. rewrite Head. reflexivity. }
  rewrite Left. apply rstrip_idempotent.
Qed.

(** X18.  The output of a command that completes carries no white space at
    either end: it is the exit code of the process paired with a text that
    stripping leaves alone. *)
Theorem completed_output_is_stripped
        (command : value) (cwd : string) (r : CompletedProcess) :
  subprocess_run command cwd = Ok r ->
  exists output,
    execute_bash_command command cwd = Ok (output, returncode r)
    /\ strip output = output.
Proof.
  intro Run. exists (strip (stdout r ++ stderr r)). split.
  - unfold execute_bash_command. rewrite Run. reflexivity.
  - apply strip_idempotent.
Qed.

(** *** The command line *)

Lemma iterations_bound (user_task : string) (max_iterations : Z) (verbose : bool) :
  iterations (run_bash_agent user_task max_iterations verbose)
  <= Z.to_nat max_iterations.
Proof.
  unfold run_bash_agent.
  destruct (agent_loop_appends verbose (Z.to_nat max_iterations) 0
                               (initial_state user_task))
    as (k & tail & Iter & Bound & _ & _).
  rewrite Iter. lia.
Qed.

Lemma run_demo_bound (tasks : list string) :
  List.length (Main.run_demo tasks) <= List.length tasks
  /\ Conditions.total_iterations (Main.run_demo tasks) <= 3 * List.length tasks.
Proof.
  induction tasks as [ | task rest (Len & Total) ]; [ cbn; lia | ].
  cbn [Main.run_demo].
  pose proof (iterations_bound task 3 true) as Bound.
  change (Z.to_nat 3) with 3 in Bound.
  destruct (returned (run_bash_agent task 3 true));
    cbn [List.length Conditions.total_iterations]; lia.
Qed.

(** X19.  Started without arguments, the program runs at most its three
    demo tasks and makes at most nine passes through the agent loop in
    all; and a run that raises ends the demo, the tasks after it not being
    run. *)
Theorem demo_is_bounded :
  List.length (Main.main []) <= 3
  /\ Conditions.total_iterations (Main.main []) <= 9
  /\ (forall task rest e,
         returned (run_bash_agent task 3 true) = Raise e ->
         Main.run_demo (task :: rest) = [run_bash_agent task 3 true]).
Proof.
  destruct (run_demo_bound Main.demo_tasks) as (Len & Total).
  split; [ exact Len | split; [ exact Total | ] ].
  intros task rest e Raises. cbn [Main.run_demo]. rewrite Raises. reflexivity.
Qed.

End MoreExecutorFacts.

Lemma completed_output_is_stripped_witness :
  exists output,
    BashAgent.execute_bash_command (W := Demo.shell_world)
      (JStr "echo '  hi'") BashAgent.default_cwd = Ok (output, 0%Z)
    /\ Text.strip output = output.
Proof.
  apply (completed_output_is_stripped (W := Demo.shell_world)
           (JStr "echo '  hi'") BashAgent.default_cwd
           {| stdout := "  hi" ++ Text.nl; stderr := ""; returncode := 0 |}).
  reflexivity.
Defined.

(** The reply [42] to the first demo task raises, and the demo ends with
    that one run. *)
Lemma demo_is_bounded_witness :
  List.length (Main.main (W := Demo.scalar_world) []) = 1.
Proof.
  destruct (demo_is_bounded (W := Demo.scalar_world)) as (_ & _ & Stops).
  unfold Main.main, Main.demo_tasks.
  rewrite (Stops _ _ (Exn TypeError "")); reflexivity.
Defined.

Lemma decoded_reply_goes_through_extract_command_witness :
  BashAgent.sniff (W := Scenario.tool_decode_world)
    (Demo.message_text Scenario.tool_text) (JStr Scenario.tool_text) (JStr "")
  = Ok (JStr "ls").
Proof.
  rewrite (decoded_reply_goes_through_extract_command
             (W := Scenario.tool_decode_world)
             (Demo.message_text Scenario.tool_text) JNull (JStr "")
             Scenario.tool_text
             [Scenario.to_tool (Demo.payload_command "ls")]
             (Exn JSONDecodeError "Expecting value: line 1 column 1 (char 0)"));
    reflexivity.
Defined.

(* ================================================================== *)
(** ** Edges of the analysis channel                                   *)
(* ================================================================== *)

Section AnalysisEdgeFacts.
Context {W : World}.
Import Temp.

(** X21.  A JSON object on the analysis channel that has no "cmd", or has
    one that is not a list or is an empty list, gives no command and is
    not handed to the shell heuristic: a message made of that one segment
    is passed over with the HDL flag unset, and when it is the only decoded
    message the sniffer returns "no command" without falling back. *)
Theorem analysis_object_without_commands
        (m : Message) (segment : string) (kv : list (string * value)) :
  channel m = Some "analysis" ->
  content m = [TextContent segment] ->
  json_loads segment = Ok (JObj kv) ->
  match Py.lookup "cmd" kv with
  | Some (JList (_ :: _)) => False
  | _ => True
  end ->
  scan_message m = Ok (MessageNext false)
  /\ forall text,
      Text.strip text <> EmptyString ->
      harmony_decode (Some ASSISTANT) (truncate_calls text) = Ok [m] ->
      extract_command_from_text text = Ok JNull.
Proof.
  intros Channel Items Loads No_commands.
  assert (Scan : scan_message m = Ok (MessageNext false)).
  { unfold scan_message, is_command_channel, channel_is. rewrite Channel.
    cbn [String.eqb Ascii.eqb Bool.eqb orb]. rewrite Items.
    cbn [scan_analysis analysis_item]. unfold loads. rewrite Loads.
    cbn [Py.bind Py.contains Py.getitem].
    destruct (Py.lookup "cmd" kv) as [ [ | | | | [ | x l ] | ] | ];
      try reflexivity.
    contradiction. }
  split; [ exact Scan | ].
  intros text Nonempty Decode.
  apply extract_of_answer; [ exact Nonempty | ].
  unfold harmony_path. rewrite Decode. cbn [Py.bind scan_messages].
  rewrite Scan. reflexivity.
Qed.

(** X22.  A JSON number, boolean or [null] on the analysis channel sends the
    call to the fallback: the test for "cmd" raises, the [try] block is
    left, and the result is that of the fallback scan of the stripped
    text. *)
Theorem analysis_scalar_falls_back
        (text segment : string) (pre post : list Message) (m : Message)
        (items : list Content) (v : value) (hdl_pre : bool) :
  Text.strip text <> EmptyString ->
  harmony_decode (Some ASSISTANT) (truncate_calls text) = Ok (pre ++ m :: post) ->
  scan_messages false pre = Ok (MessageNext hdl_pre) ->
  channel m = Some "analysis" ->
  content m = TextContent segment :: items ->
  json_loads segment = Ok v ->
  Spec.is_scalar v = true ->
  harmony_guarded text = Ok FallThrough
  /\ extract_command_from_text text = Ok (fallback_scan (Text.strip text)).
Proof.
  intros Nonempty Decode Pre Channel Items Loads Scalar.
  assert (Scan : scan_message m = Raise (Exn TypeError "")).
  { unfold scan_message, is_command_channel, channel_is. rewrite Channel.
    cbn [String.eqb Ascii.eqb Bool.eqb orb]. rewrite Items.
    cbn [scan_analysis analysis_item]. unfold loads. rewrite Loads.
    destruct v; try discriminate Scalar; reflexivity. }
  assert (Guarded : harmony_guarded text = Ok FallThrough).
  { unfold harmony_guarded, harmony_path. rewrite Decode. cbn [Py.bind].
    rewrite scan_messages_app, Pre. cbn [Py.bind scan_messages].
    rewrite Scan. reflexivity. }
  split; [ exact Guarded | ].
  unfold extract_command_from_text.
  destruct (String.eqb_spec (Text.strip text) EmptyString); [ contradiction | ].
  rewrite Guarded. reflexivity.
Qed.

End AnalysisEdgeFacts.

Lemma analysis_object_without_commands_witness :
  Temp.extract_command_from_text (W := Scenario.empty_cmd_world)
    (Demo.analysis_text Scenario.payload_empty_cmd)
  = Ok JNull.
Proof.
  destruct (analysis_object_without_commands (W := Scenario.empty_cmd_world)
              (Demo.decoded "analysis" Scenario.payload_empty_cmd)
              Scenario.payload_empty_cmd [("cmd", JList [])]
              eq_refl eq_refl eq_refl I) as (_ & Final).
  apply Final; [ vm_compute; discriminate | reflexivity ].
Defined.

(** The text [42] on the analysis channel: the fallback answers. *)
Lemma analysis_scalar_falls_back_witness :
  Temp.harmony_guarded (W := Scenario.channel_world "analysis" "42" false)
    (Demo.analysis_text "42")
  = Ok Temp.FallThrough
  /\ Temp.extract_command_from_text
       (W := Scenario.channel_world "analysis" "42" false)
       (Demo.analysis_text "42")
     = Ok JNull.
Proof.
  apply (analysis_scalar_falls_back
           (W := Scenario.channel_world "analysis" "42" false)
           (Demo.analysis_text "42") "42" [] []
           (Demo.decoded "analysis" "42") [] (JNum 42) false);
    try reflexivity.
  vm_compute. discriminate.
Defined.
